(** * Retention and legal-hold batches of the eHRfiles admin console

    A shallow embedding of the two batch pages
    - [src/app/frame/admin/batch-ret/page.tsx] (Retention Status Resolver)
    - the Legal Hold batch page (Legal Hold Propagator)
    and of the Config page that comes with the first of them, together
    with the part of the JavaScript runtime they rely on (numbers,
    strings, [Date]); the properties of the specification that are stated
    about the batch pages; and further properties of the code: what it
    prints, how its month arithmetic composes, what a run changes and
    reports, and what it does when requests fail.

    Part I holds the definitions, Part II the lemmas and theorems. *)

From Stdlib Require Import ZArith Lia Bool Ascii String DecimalString List.
From stdpp Require Import base tactics option list gmap strings fin_maps.

Local Open Scope string_scope.
Local Open Scope Z_scope.
Set Warnings "-clear-no-such-hyp".

(* ===================================================================== *)
(** * Part I — definitions                                                *)
(* ===================================================================== *)

(** ** JavaScript values used by the two pages *)

Module JS.

(** A JavaScript [number].  The batch pages only handle integer-valued
    numbers (month offsets, calendar fields, timestamps in milliseconds)
    and the three special values, so the finite numbers of the model are
    the integers. *)
Inductive number : Type :=
  | Int (z : Z)
  | NaN
  | PosInfinity
  | NegInfinity.

(** [Number.isFinite(x)] *)
Definition Number_isFinite (x : number) : bool :=
  match x with Int _ => true | _ => false end.

(** [x + y] on numbers *)
Definition add (x y : number) : number :=
  match x, y with
  | NaN, _ | _, NaN => NaN
  | Int a, Int b => Int (a + b)
  | PosInfinity, NegInfinity | NegInfinity, PosInfinity => NaN
  | PosInfinity, _ | _, PosInfinity => PosInfinity
  | NegInfinity, _ | _, NegInfinity => NegInfinity
  end.

(** [x - y] on numbers *)
Definition sub (x y : number) : number :=
  match x, y with
  | NaN, _ | _, NaN => NaN
  | Int a, Int b => Int (a - b)
  | PosInfinity, PosInfinity | NegInfinity, NegInfinity => NaN
  | PosInfinity, _ | _, NegInfinity => PosInfinity
  | NegInfinity, _ | _, PosInfinity => NegInfinity
  end.

(** [x < y] on numbers: any comparison with [NaN] is false. *)
Definition lt (x y : number) : bool :=
  match x, y with
  | NaN, _ | _, NaN => false
  | Int a, Int b => a <? b
  | NegInfinity, NegInfinity => false
  | NegInfinity, _ => true
  | _, NegInfinity => false
  | PosInfinity, _ => false
  | _, PosInfinity => true
  end.

(** [String(x)] for a number: the decimal digits, which is what
    JavaScript prints for integers below 1e21. *)
Definition String_of_Z (z : Z) : string :=
  NilZero.string_of_int (Z.to_int z).

Definition String_of_number (x : number) : string :=
  match x with
  | Int z => String_of_Z z
  | NaN => "NaN"
  | PosInfinity => "Infinity"
  | NegInfinity => "-Infinity"
  end.

(** *** Strings *)

Fixpoint repeat_char (c : ascii) (n : nat) : string :=
  match n with
  | O => ""
  | S k => String c (repeat_char c k)
  end.

(** [s.padStart(n, "0")]: the only filler used by the pages is the
    one-character string ["0"]. *)
Definition padStart0 (s : string) (n : nat) : string :=
  String.append (repeat_char "0"%char (n - String.length s)) s.

(** White space removed by [String.prototype.trim], on ASCII text:
    TAB, LF, VT, FF, CR and SPACE. *)
Definition is_white (c : ascii) : bool :=
  let n := nat_of_ascii c in
  ((9 <=? n)%nat && (n <=? 13)%nat) || (n =? 32)%nat.

Fixpoint trimStart (s : string) : string :=
  match s with
  | "" => ""
  | String c r => if is_white c then trimStart r else s
  end.

(** [trimEnd] drops the trailing white space: a character is kept when
    something non-white follows it or it is itself not white. *)
Fixpoint trimEnd (s : string) : string :=
  match s with
  | "" => ""
  | String c r =>
      match trimEnd r with
      | "" => if is_white c then "" else String c ""
      | r' => String c r'
      end
  end.

(** [s.trim()] *)
Definition trim (s : string) : string := trimEnd (trimStart s).

(** Text without white space; [trim] leaves it as it is. *)
Fixpoint no_white (s : string) : bool :=
  match s with
  | "" => true
  | String c r => negb (is_white c) && no_white r
  end.

Definition lower_char (c : ascii) : ascii :=
  let n := nat_of_ascii c in
  if ((65 <=? n)%nat && (n <=? 90)%nat)%bool then ascii_of_nat (n + 32) else c.

(** [s.toLowerCase()] on ASCII text *)
Fixpoint toLowerCase (s : string) : string :=
  match s with
  | "" => ""
  | String c r => String (lower_char c) (toLowerCase r)
  end.

(** Truthiness of a [string | null] value: [null] and [""] are falsy. *)
Definition truthy (s : option string) : bool :=
  match s with
  | Some (String _ _) => true
  | _ => false
  end.

(** *** Time values and the calendar functions of ECMA-262 (21.4.1) *)

Definition msPerDay : Z := 86400000.
Definition msPerHour : Z := 3600000.
Definition msPerMinute : Z := 60000.
Definition msPerSecond : Z := 1000.

Definition Day (t : Z) : Z := t / msPerDay.
Definition TimeWithinDay (t : Z) : Z := t mod msPerDay.

Definition DaysInYear (y : Z) : Z :=
  if negb (y mod 4 =? 0) then 365
  else if negb (y mod 100 =? 0) then 366
  else if negb (y mod 400 =? 0) then 365
  else 366.

Definition DayFromYear (y : Z) : Z :=
  365 * (y - 1970) + (y - 1969) / 4 - (y - 1901) / 100 + (y - 1601) / 400.

Definition TimeFromYear (y : Z) : Z := msPerDay * DayFromYear y.

(** [YearFromTime(t)] is specified as the largest [y] with
    [TimeFromYear(y) <= t].  It is computed from the mean length of a
    Gregorian year (146097 days in 400 years) and corrected by one year
    in either direction; [YearFromTime_spec] shows that this is the year
    of the specification. *)
Definition YearFromDay (d : Z) : Z :=
  let y0 := 1970 + (400 * d) / 146097 in
  if d <? DayFromYear y0 then y0 - 1
  else if DayFromYear (y0 + 1) <=? d then y0 + 1
  else y0.

Definition YearFromTime (t : Z) : Z := YearFromDay (Day t).

Definition InLeapYear (t : Z) : Z :=
  if DaysInYear (YearFromTime t) =? 366 then 1 else 0.

Definition DayWithinYear (t : Z) : Z := Day t - DayFromYear (YearFromTime t).

Definition MonthFromTime (t : Z) : Z :=
  let d := DayWithinYear t in
  let l := InLeapYear t in
  if d <? 31 then 0
  else if d <? 59 + l then 1
  else if d <? 90 + l then 2
  else if d <? 120 + l then 3
  else if d <? 151 + l then 4
  else if d <? 181 + l then 5
  else if d <? 212 + l then 6
  else if d <? 243 + l then 7
  else if d <? 273 + l then 8
  else if d <? 304 + l then 9
  else if d <? 334 + l then 10
  else 11.

Definition DateFromTime (t : Z) : Z :=
  let d := DayWithinYear t in
  let l := InLeapYear t in
  match MonthFromTime t with
  | 0 => d + 1
  | 1 => d - 30
  | 2 => d - 58 - l
  | 3 => d - 89 - l
  | 4 => d - 119 - l
  | 5 => d - 150 - l
  | 6 => d - 180 - l
  | 7 => d - 211 - l
  | 8 => d - 242 - l
  | 9 => d - 272 - l
  | 10 => d - 303 - l
  | _ => d - 333 - l
  end.

Definition HourFromTime (t : Z) : Z := (t / msPerHour) mod 24.
Definition MinFromTime (t : Z) : Z := (t / msPerMinute) mod 60.
Definition SecFromTime (t : Z) : Z := (t / msPerSecond) mod 60.
Definition msFromTime (t : Z) : Z := t mod msPerSecond.

Definition MakeTime (hour min sec ms : Z) : Z :=
  hour * msPerHour + min * msPerMinute + sec * msPerSecond + ms.

(** Number of leap days of year [y], as [InLeapYear] has it for the
    time values of that year. *)
Definition leap (y : Z) : Z := if DaysInYear y =? 366 then 1 else 0.

(** Length of month [mn] (0..11) of year [y]. *)
Definition DaysInMonth (y mn : Z) : Z :=
  match mn with
  | 1 => if DaysInYear y =? 366 then 29 else 28
  | 3 | 5 | 8 | 10 => 30
  | _ => 31
  end.

(** Number of days from 1 January to the first day of month [mn] (0..11)
    of a year with [l] leap days. *)
Definition DaysBeforeMonth (mn l : Z) : Z :=
  match mn with
  | 0 => 0
  | 1 => 31
  | 2 => 59 + l
  | 3 => 90 + l
  | 4 => 120 + l
  | 5 => 151 + l
  | 6 => 181 + l
  | 7 => 212 + l
  | 8 => 243 + l
  | 9 => 273 + l
  | 10 => 304 + l
  | _ => 334 + l
  end.

(** [MakeDay(year, month, date)]: the day number of the first day of
    month [month mod 12] of year [year + floor(month / 12)], plus
    [date - 1]. *)
Definition MakeDay (year month date : Z) : Z :=
  let ym := year + month / 12 in
  let mn := month mod 12 in
  DayFromYear ym + DaysBeforeMonth mn (leap ym) + date - 1.

Definition MakeDate (day time : Z) : Z := day * msPerDay + time.

(** [TimeClip]: a time value is at most 8.64e15 ms away from the epoch;
    anything else is [NaN], here [None]. *)
Definition maxTime : Z := 8640000000000000.

Definition TimeClip (t : Z) : option Z :=
  if Z.abs t <=? maxTime then Some t else None.

(** *** The host environment

    Two things are left to the host by ECMA-262 and are parameters of
    the model: the offset of local time (a zone with a fixed offset,
    in milliseconds) and [Date.parse], which accepts the ISO formats and
    whatever else the engine chooses to understand. *)
Class Host : Type := {
  LocalTZA : Z;
  Date_parse : string -> number
}.

Section WithHost.
Context {host : Host}.

Definition LocalTime (t : Z) : Z := t + LocalTZA.
Definition UTC (t : Z) : Z := t - LocalTZA.

(** *** [Date] objects

    A [Date] holds a time value or [NaN] ("Invalid Date"), here
    [None].  The setters mutate the object; the model returns the new
    object instead. *)
Definition Date : Type := option Z.

(** [new Date(value)] for a number *)
Definition new_Date_value (v : number) : Date :=
  match v with
  | Int t => TimeClip t
  | _ => None
  end.

(** [new Date(s)] for a string *)
Definition new_Date_string (s : string) : Date :=
  new_Date_value (Date_parse s).

(** [new Date(year, month, date)]: a year from 0 to 99 stands for
    1900 + year; the fields are taken in local time. *)
Definition new_Date_ymd (year month date : number) : Date :=
  match year, month, date with
  | Int y, Int m, Int dt =>
      let yr := if (0 <=? y) && (y <=? 99) then 1900 + y else y in
      TimeClip (UTC (MakeDate (MakeDay yr m dt) (MakeTime 0 0 0 0)))
  | _, _, _ => None
  end.

Definition getTime (d : Date) : number :=
  match d with Some t => Int t | None => NaN end.

Definition getFullYear (d : Date) : number :=
  match d with Some t => Int (YearFromTime (LocalTime t)) | None => NaN end.

Definition getMonth (d : Date) : number :=
  match d with Some t => Int (MonthFromTime (LocalTime t)) | None => NaN end.

Definition getDate (d : Date) : number :=
  match d with Some t => Int (DateFromTime (LocalTime t)) | None => NaN end.

Definition getHours (d : Date) : number :=
  match d with Some t => Int (HourFromTime (LocalTime t)) | None => NaN end.

Definition getMinutes (d : Date) : number :=
  match d with Some t => Int (MinFromTime (LocalTime t)) | None => NaN end.

Definition getSeconds (d : Date) : number :=
  match d with Some t => Int (SecFromTime (LocalTime t)) | None => NaN end.

Definition getMilliseconds (d : Date) : number :=
  match d with Some t => Int (msFromTime (LocalTime t)) | None => NaN end.

(** [d.setMonth(month)] *)
Definition setMonth (d : Date) (month : number) : Date :=
  match d, month with
  | Some t, Int m =>
      let lt := LocalTime t in
      TimeClip (UTC (MakeDate (MakeDay (YearFromTime lt) m (DateFromTime lt))
                              (TimeWithinDay lt)))
  | _, _ => None
  end.

(** [d.setDate(date)] *)
Definition setDate (d : Date) (date : number) : Date :=
  match d, date with
  | Some t, Int dt =>
      let lt := LocalTime t in
      TimeClip (UTC (MakeDate (MakeDay (YearFromTime lt) (MonthFromTime lt) dt)
                              (TimeWithinDay lt)))
  | _, _ => None
  end.

End WithHost.

(** *** A concrete host, for the worked examples

    [Date_parse_iso] reads the date-only ISO form [YYYY-MM-DD], which
    ECMA-262 places at midnight UTC; it rejects everything else. *)

Definition digit (c : ascii) : option Z :=
  let n := nat_of_ascii c in
  if ((48 <=? n)%nat && (n <=? 57)%nat)%bool then Some (Z.of_nat n - 48) else None.

Fixpoint digits (acc : Z) (s : string) : option Z :=
  match s with
  | "" => Some acc
  | String c r => match digit c with
                  | Some v => digits (10 * acc + v) r
                  | None => None
                  end
  end.

Definition Date_parse_iso (s : string) : number :=
  if negb (String.length s =? 10)%nat then NaN
  else if negb (String.eqb (substring 4 1 s) "-" && String.eqb (substring 7 1 s) "-") then NaN
  else
    match digits 0 (substring 0 4 s), digits 0 (substring 5 2 s), digits 0 (substring 8 2 s) with
    | Some y, Some m, Some d =>
        if (1 <=? m) && (m <=? 12) && (1 <=? d) && (d <=? DaysInMonth y (m - 1))
        then Int (MakeDate (MakeDay y (m - 1) d) 0)
        else NaN
    | _, _, _ => NaN
    end.

(** The host of a machine whose local time is [offset] milliseconds
    ahead of UTC. *)
Definition isoHost (offset : Z) : Host :=
  {| LocalTZA := offset; Date_parse := Date_parse_iso |}.

End JS.

(** ** The backing store and the page state *)

Module Store.
Import JS.

(** A row of table [employees]; the table is keyed by column [e_id]. *)
Module Employee.
Record row : Type := {
  e_status : option string;
  e_tdate : option string;
  e_lhold : option bool
}.
End Employee.

(** A row of table [documents]; the table is keyed by column [d_id]. *)
Module Document.
Record row : Type := {
  e_id : option string;
  e_lhold : option bool;
  d_date : option string;
  d_r_trigger : string;
  d_r_rule : string;
  d_r_month : number;
  d_r_deletion : option string;
  d_r_status : option string
}.

(** [{ ...row, e_lhold: v }] *)
Definition with_hold (v : bool) (d : row) : row :=
  {| e_id := e_id d; e_lhold := Some v; d_date := d_date d;
     d_r_trigger := d_r_trigger d; d_r_rule := d_r_rule d;
     d_r_month := d_r_month d; d_r_deletion := d_r_deletion d;
     d_r_status := d_r_status d |}.

(** [{ ...row, d_r_status: st, d_r_deletion: del }] *)
Definition with_retention (st : string) (del : option string) (d : row) : row :=
  {| e_id := e_id d; e_lhold := e_lhold d; d_date := d_date d;
     d_r_trigger := d_r_trigger d; d_r_rule := d_r_rule d;
     d_r_month := d_r_month d; d_r_deletion := del;
     d_r_status := Some st |}.
End Document.

Record Db : Type := {
  employees : gmap string Employee.row;
  documents : gmap string Document.row
}.

(** [documents.update({ e_lhold: v }).in("d_id", ids)] *)
Definition update_hold (ids : list string) (v : bool) (db : Db) : Db :=
  {| employees := employees db;
     documents := foldr (fun id m => alter (Document.with_hold v) id m) (documents db) ids |}.

(** [documents.update({ d_r_status, d_r_deletion }).eq("d_id", id)] *)
Definition update_retention (id : string) (st : string) (del : option string) (db : Db) : Db :=
  {| employees := employees db;
     documents := alter (Document.with_retention st del) id (documents db) |}.

(** The employee a document refers to.  Both pages look the employee up
    only when [e_id] is truthy ([d.e_id ? empMap.get(d.e_id) : undefined],
    [d.e_id && set.has(String(d.e_id))]): a document without [e_id] or with
    an empty one refers to nobody. *)
Definition referenced_employee (db : Db) (doc : Document.row) : option Employee.row :=
  if truthy (Document.e_id doc) then employees db !! default "" (Document.e_id doc)
  else None.

(** One line of the result table of a page. *)
Record OutRow : Type := {
  label : string;
  value : string;
  isBlank : option bool
}.

(** The React state of a batch page. *)
Record Page : Type := {
  busy : bool;
  status : string;
  rows : list OutRow
}.

(** A write accepted by the store. *)
Inductive Write : Type :=
  | SetHold (ids : list string) (v : bool)
  | SetRetention (id st : string) (del : option string).

Definition apply_write (wr : Write) (db : Db) : Db :=
  match wr with
  | SetHold ids v => update_hold ids v db
  | SetRetention id st del => update_retention id st del db
  end.

(** What a run can see and change: the store, the page, the number of
    requests sent to the store so far, and the writes the store has
    carried out. *)
Record World : Type := {
  db : Db;
  page : Page;
  sent : nat;
  writes : list Write
}.

(** A run either returns a value or throws an error message; the world
    reached so far is kept in both cases. *)
Inductive Result (A : Type) : Type :=
  | Ok (a : A)
  | Thrown (message : string).
Arguments Ok {A} a.
Arguments Thrown {A} message.

Definition M (A : Type) : Type := World -> Result A * World.

Definition ret {A} (a : A) : M A := fun w => (Ok a, w).

Definition bind {A B} (m : M A) (k : A -> M B) : M B :=
  fun w =>
    match m w with
    | (Ok a, w') => k a w'
    | (Thrown e, w') => (Thrown e, w')
    end.

Definition throw {A} (e : string) : M A := fun w => (Thrown e, w).

(** [try { body } catch (e) { handler(e) } finally { fin }] *)
Definition try_catch_finally (body : M unit) (handler : string -> M unit) (fin : M unit) : M unit :=
  fun w =>
    match body w with
    | (Ok _, w') => fin w'
    | (Thrown e, w') => bind (handler e) (fun _ => fin) w'
    end.

#[export] Instance M_ret : MRet M := @ret.
#[export] Instance M_bind : MBind M := fun A B k m => bind m k.

(** [for (const x of xs) body(x)] *)
Fixpoint for_of {A} (xs : list A) (body : A -> M unit) : M unit :=
  match xs with
  | [] => ret tt
  | x :: r => bind (body x) (fun _ => for_of r body)
  end.

(** Page state setters *)
Definition modify_page (f : Page -> Page) : M unit :=
  fun w => (Ok tt, {| db := db w; page := f (page w); sent := sent w;
                      writes := writes w |}).

Definition setBusy (b : bool) : M unit :=
  modify_page (fun p => {| busy := b; status := status p; rows := rows p |}).

Definition setStatus (s : string) : M unit :=
  modify_page (fun p => {| busy := busy p; status := s; rows := rows p |}).

Definition setRows (f : list OutRow -> list OutRow) : M unit :=
  modify_page (fun p => {| busy := busy p; status := status p; rows := f (rows p) |}).

(** [prev.map(r => r.label === label ? { ...r, value } : r)] *)
Definition set_value (lbl v : string) (prev : list OutRow) : list OutRow :=
  map (fun r =>
    if String.eqb (label r) lbl
    then {| label := label r; value := v; isBlank := isBlank r |}
    else r) prev.

Definition setValue (lbl v : string) : M unit := setRows (set_value lbl v).

(** [prev.map(r => r.isBlank ? r : { ...r, value: "" })] *)
Definition clear_values (prev : list OutRow) : list OutRow :=
  map (fun r =>
    match isBlank r with
    | Some true => r
    | _ => {| label := label r; value := ""; isBlank := isBlank r |}
    end) prev.

Definition clearAllValues : M unit := setRows clear_values.

(** The value displayed for a label: every row with that label shows it. *)
Definition shows (rs : list OutRow) (lbl v : string) : Prop :=
  forall r, r ∈ rs -> label r = lbl -> value r = v.

(** The rows of two states of a page differ in their values only. *)
Definition same_layout (rs1 rs2 : list OutRow) : Prop :=
  (fun r => (label r, isBlank r)) <$> rs1 = (fun r => (label r, isBlank r)) <$> rs2.

(** A request to the store.  [faults k] is the error with which the
    [k]-th request of the run fails, if it does; a request that does not
    fail reads or changes the store. *)
Section Requests.
Variable faults : nat -> option string.

Definition sending (w : World) : World :=
  {| db := db w; page := page w; sent := S (sent w); writes := writes w |}.

Definition query {A} (read : Db -> A) : M A :=
  fun w =>
    match faults (sent w) with
    | Some e => (Thrown e, sending w)
    | None => (Ok (read (db w)), sending w)
    end.

Definition command (wr : Write) : M unit :=
  fun w =>
    match faults (sent w) with
    | Some e => (Thrown e, sending w)
    | None => (Ok tt, {| db := apply_write wr (db w); page := page w;
                         sent := S (sent w); writes := writes w ++ [wr] |})
    end.

(** [await Promise.all([q1, q2, q3]).then(res => { for (const r of res)
    if (r.error) throw r.error; return res; })]: the three requests are
    all sent; the first error in the order of the array is thrown. *)
Definition query3 {A} (q1 q2 q3 : Db -> A) : M (A * A * A) :=
  fun w =>
    let k := sent w in
    let w' := sending (sending (sending w)) in
    match faults k, faults (S k), faults (S (S k)) with
    | Some e, _, _ => (Thrown e, w')
    | None, Some e, _ => (Thrown e, w')
    | None, None, Some e => (Thrown e, w')
    | None, None, None => (Ok (q1 (db w), q2 (db w), q3 (db w)), w')
    end.

End Requests.

(** The run in which no request fails. *)
Definition noFaults : nat -> option string := fun _ => None.

End Store.

(** ** The Retention Status Resolver: [batch-ret/page.tsx] *)

Module BatchRet.
Import JS Store.

Module RetDoc.
Record t : Type := {
  d_id : string;
  e_id : option string;
  e_lhold : option bool;
  d_date : option string;
  d_r_trigger : string;
  d_r_rule : string;
  d_r_month : number;
  d_r_deletion : option string;
  d_r_status : option string
}.
End RetDoc.

Module EmpMini.
Record t : Type := {
  e_id : string;
  e_status : option string;
  e_tdate : option string
}.
End EmpMini.

(** An entry of [updates]. *)
Module Update.
Record t : Type := {
  d_id : string;
  d_r_status : string;
  d_r_deletion : option string
}.
End Update.

Section WithHost.
Context {host : Host}.

Definition pad2 (n : number) : string := padStart0 (String_of_number n) 2.
Definition pad3 (n : number) : string := padStart0 (String_of_number n) 3.

Definition fmtTimeWithMs (d : Date) : string :=
  pad2 (getHours d) +:+ ":" +:+ pad2 (getMinutes d) +:+ ":" +:+
  pad2 (getSeconds d) +:+ "." +:+ pad3 (getMilliseconds d).

Definition toISODate (d : Date) : string :=
  let yyyy := getFullYear d in
  let mm := padStart0 (String_of_number (add (getMonth d) (Int 1))) 2 in
  let dd := padStart0 (String_of_number (getDate d)) 2 in
  String_of_number yyyy +:+ "-" +:+ mm +:+ "-" +:+ dd.

Definition dateOnlyTs (d : Date) : number :=
  getTime (new_Date_ymd (getFullYear d) (getMonth d) (getDate d)).

Definition isExpiredPerSpec (deletion today : Date) : bool :=
  lt (dateOnlyTs deletion) (dateOnlyTs today).

Definition addMonths (base : Date) (months : number) : Date :=
  let d := new_Date_value (getTime base) in
  let day := getDate d in
  let d := setMonth d (add (getMonth d) months) in
  (* handle month overflow (e.g., Jan 31 + 1 month) *)
  if lt (getDate d) day then setDate d (Int 0) else d.

(** [arr.slice(i, j)] for [i <= j] *)
Definition slice {T} (arr : list T) (i j : nat) : list T :=
  take (j - i) (drop i arr).

(** The loop of [chunk]: it runs at most [arr.length] times when
    [size] is positive, which it is at both call sites. *)
Fixpoint chunk_loop {T} (turns : nat) (arr : list T) (size i : nat) : list (list T) :=
  match turns with
  | O => []
  | S k =>
      if (i <? length arr)%nat
      then slice arr i (i + size) :: chunk_loop k arr size (i + size)
      else []
  end.

Definition chunk {T} (arr : list T) (size : nat) : list (list T) :=
  chunk_loop (length arr) arr size 0.

Definition norm (s : option string) : string :=
  trim (default "" s).

Definition isTerminated (emp : option EmpMini.t) : bool :=
  match emp with
  | None => false
  | Some e => String.eqb (toLowerCase (norm (EmpMini.e_status e))) "terminated"
  end.

(** [s ? new Date(s) : null] *)
Definition date_or_null (s : option string) : option Date :=
  if truthy s then Some (new_Date_string (default "" s)) else None.


(** [id ? empMap.get(id) : undefined] *)
Definition employee_of (empMap : gmap string EmpMini.t) (id : option string)
  : option EmpMini.t :=
  if truthy id then empMap !! default "" id else None.

(** The normalized trigger of a document:
    [norm(d.d_r_trigger).toLowerCase()]. *)
Definition trig_of (d : RetDoc.t) : string :=
  toLowerCase (norm (Some (RetDoc.d_r_trigger d))).

(** The body of the loop over the documents, up to the new status and
    the new deletion date of document [d]. *)
Definition resolve (today : Date) (empMap : gmap string EmpMini.t) (d : RetDoc.t)
  : string * option string :=
  (* d) if document is legal hold => status legal hold, deletion blank *)
  if bool_decide (RetDoc.e_lhold d = Some true) then ("legal hold", None)
  else
    let trig := trig_of d in
    let months := RetDoc.d_r_month d in
    (* Spec says: trigger/month are never empty, but keep a safe fallback *)
    if String.eqb trig "" || negb (Number_isFinite months) then ("not started", None)
    else if String.eqb trig "termination" then
      (* a/b) employee lookup determines active vs terminated *)
      let emp := employee_of empMap (RetDoc.e_id d) in
      if negb (bool_decide (is_Some emp)) || negb (isTerminated emp) then
        (* a) active -> not started, blank deletion *)
        ("not started", None)
      else
        (* b) terminated -> started, deletion = termination date + n months *)
        match date_or_null (emp ≫= EmpMini.e_tdate) with
        | Some (Some t) =>
            let del := addMonths (Some t) months in
            (* e) if deletion date > today => expired *)
            (if isExpiredPerSpec del today then "expired" else "started",
             Some (toISODate del))
        | _ => ("not started", None)
        end
    else if String.eqb trig "cassation date" then
      (* c) cassation date uses document add date *)
      match date_or_null (RetDoc.d_date d) with
      | Some (Some t) =>
          let del := addMonths (Some t) months in
          (* e) if deletion date > today => expired *)
          (if isExpiredPerSpec del today then "expired" else "started",
           Some (toISODate del))
      | _ => ("not started", None)
      end
    else
      (* Unknown trigger -> still must not produce "not set" *)
      ("not started", None).

(** One turn of the loop over the documents: the status counters and
    the queue of updates. *)
Definition process_doc (today : Date) (empMap : gmap string EmpMini.t)
    (acc : gmap string Z * list Update.t) (d : RetDoc.t)
  : gmap string Z * list Update.t :=
  let '(statusCounts, updates) := acc in
  if String.eqb (RetDoc.d_id d) "" then acc
  else
    let '(newStatus, newDeletion) := resolve today empMap d in
    let statusCounts :=
      <[newStatus := default 0 (statusCounts !! newStatus) + 1]> statusCounts in
    let oldStatus := norm (RetDoc.d_r_status d) in
    let oldDeletion := norm (RetDoc.d_r_deletion d) in
    let nextDeletion := default "" newDeletion in
    let changed := negb (String.eqb oldStatus newStatus)
                   || negb (String.eqb oldDeletion nextDeletion) in
    (statusCounts,
     if changed
     then (updates ++ [ {| Update.d_id := RetDoc.d_id d;
                           Update.d_r_status := newStatus;
                           Update.d_r_deletion := newDeletion |} ])%list
     else updates).

(** The decision of one turn of the loop, apart from the counters:
    whether the stored pair differs from the new one, and the update
    that is queued if it does. *)
Definition changed (today : Date) (empMap : gmap string EmpMini.t) (d : RetDoc.t) : bool :=
  let new := resolve today empMap d in
  negb (String.eqb (norm (RetDoc.d_r_status d)) new.1)
  || negb (String.eqb (norm (RetDoc.d_r_deletion d)) (default "" new.2)).

Definition update_for (today : Date) (empMap : gmap string EmpMini.t) (d : RetDoc.t)
  : Update.t :=
  let new := resolve today empMap d in
  {| Update.d_id := RetDoc.d_id d;
     Update.d_r_status := new.1;
     Update.d_r_deletion := new.2 |}.

Definition queued (today : Date) (empMap : gmap string EmpMini.t) (d : RetDoc.t)
  : list Update.t :=
  if String.eqb (RetDoc.d_id d) "" then []
  else if changed today empMap d then [update_for today empMap d] else [].

Definition initialCounts : gmap string Z :=
  <["not set" := 0]> (<["not started" := 0]> (<["started" := 0]>
    (<["legal hold" := 0]> (<["expired" := 0]> ∅)))).

Definition process_docs (today : Date) (empMap : gmap string EmpMini.t)
    (allDocs : list RetDoc.t) : gmap string Z * list Update.t :=
  foldl (process_doc today empMap) (initialCounts, []) allDocs.

(** [Array.from(new Set(xs))]: the first occurrence of each element, in
    order. *)
Fixpoint dedupe (seen : gset string) (xs : list string) : list string :=
  match xs with
  | [] => []
  | x :: r => if bool_decide (x ∈ seen) then dedupe seen r
              else x :: dedupe ({[x]} ∪ seen) r
  end.

(** [Array.from(new Set(allDocs.map(d => d.e_id).filter(Boolean)))] *)
Definition referenced_ids (allDocs : list RetDoc.t) : list string :=
  dedupe ∅ (omap (fun d => if truthy (RetDoc.e_id d) then RetDoc.e_id d else None)
                 allDocs).

(** A row of [documents] with its key, as a [RetDoc]. *)
Definition doc_of_row (id : string) (row : Document.row) : RetDoc.t :=
  {| RetDoc.d_id := id;
     RetDoc.e_id := Document.e_id row;
     RetDoc.e_lhold := Document.e_lhold row;
     RetDoc.d_date := Document.d_date row;
     RetDoc.d_r_trigger := Document.d_r_trigger row;
     RetDoc.d_r_rule := Document.d_r_rule row;
     RetDoc.d_r_month := Document.d_r_month row;
     RetDoc.d_r_deletion := Document.d_r_deletion row;
     RetDoc.d_r_status := Document.d_r_status row |}.

(** A row of [employees] with its key, as an [EmpMini]. *)
Definition emp_of_row (id : string) (row : Employee.row) : EmpMini.t :=
  {| EmpMini.e_id := id;
     EmpMini.e_status := Employee.e_status row;
     EmpMini.e_tdate := Employee.e_tdate row |}.

(** [documents.select("d_id, e_id, ...").order("d_id")]: the order of
    the rows has no part in what the batch computes for each of them. *)
Definition select_documents (db : Db) : list RetDoc.t :=
  (fun kr : string * Document.row => doc_of_row kr.1 kr.2)
  <$> map_to_list (documents db).

(** [employees.select("e_id, e_status, e_tdate").in("e_id", part)] *)
Definition select_employees_in (part : list string) (db : Db) : list EmpMini.t :=
  (fun kr : string * Employee.row => emp_of_row kr.1 kr.2)
  <$> filter (fun kr => kr.1 ∈ part) (map_to_list (employees db)).

(** The label [Number of documents in status "st"], with its quotes. *)
Definition countLabel (st : string) : string :=
  let quote := String (ascii_of_nat 34) "" in
  "Number of documents in status " +:+ quote +:+ st +:+ quote.

Definition initialRows : list OutRow :=
  let line l := {| label := l; value := ""; isBlank := None |} in
  let blank := {| label := ""; value := ""; isBlank := Some true |} in
  [ line "Start time"; blank;
    line "Total number of documents"; blank;
    line "Total number of updated retention status"; blank;
    line (countLabel "not set");
    line (countLabel "not started");
    line (countLabel "started");
    line (countLabel "legal hold");
    line (countLabel "expired");
    blank;
    line "End time";
    line "Process duration" ].

(** The request [documents.update({ d_r_status, d_r_deletion }).eq("d_id",
    u.d_id)] of an update. *)
Definition write_of (u : Update.t) : Write :=
  SetRetention (Update.d_id u) (Update.d_r_status u) (Update.d_r_deletion u).

(** [for (const e of emps) empMap.set(e.e_id, e)] *)
Definition insert_employees (empMap : gmap string EmpMini.t) (emps : list EmpMini.t)
  : gmap string EmpMini.t :=
  foldl (fun m e => <[EmpMini.e_id e := e]> m) empMap emps.

(** What a run computes from the store when no request fails: the
    employee map and the queue of updates. *)
Definition empMap_of (db : Db) : gmap string EmpMini.t :=
  foldl (fun m part => insert_employees m (select_employees_in part db)) ∅
        (chunk (referenced_ids (select_documents db)) 500).

Definition updates_of (today : Date) (db : Db) : list Update.t :=
  (process_docs today (empMap_of db) (select_documents db)).2.

Definition counts_of (today : Date) (db : Db) : gmap string Z :=
  (process_docs today (empMap_of db) (select_documents db)).1.

(** The store after the writes of the queue. *)
Definition after_run (today : Date) (db : Db) : Db :=
  foldl (fun store u => apply_write (write_of u) store) db (updates_of today db).

(** The three readings of the clock in a run: [new Date()] at the
    start, before the documents are processed, and at the end. *)
Record Clock : Type := {
  startedAt : Z;
  today : Z;
  endedAt : Z
}.

Section Run.
Variable faults : nat -> option string.
Variable clock : Clock.

(** [for (const part of chunk(eIds, 500))]: load the employees of one
    part and put them into [empMap]. *)
Fixpoint load_employees (parts : list (list string)) (empMap : gmap string EmpMini.t)
  : M (gmap string EmpMini.t) :=
  match parts with
  | [] => mret empMap
  | part :: rest =>
      emps ← query faults (select_employees_in part);
      load_employees rest (insert_employees empMap emps)
  end.

Definition apply_update (u : Update.t) : M unit := command faults (write_of u).

Definition count_of (statusCounts : gmap string Z) (st : string) : string :=
  String_of_Z (default 0 (statusCounts !! st)).

Definition runBatch : M unit :=
  setBusy true;;
  setStatus "";;
  clearAllValues;;
  let startedAt := new_Date_value (Int (startedAt clock)) in
  setValue "Start time" (fmtTimeWithMs startedAt);;
  try_catch_finally
    ((* 1) Load all documents required fields *)
     allDocs ← query faults select_documents;
     setValue "Total number of documents" (String_of_Z (Z.of_nat (length allDocs)));;
     (* 2) Load employees for all referenced e_id *)
     let eIds := referenced_ids allDocs in
     empMap ← load_employees (chunk eIds 500) ∅;
     let today := new_Date_value (Int (today clock)) in
     (* 3) Process each document *)
     let '(statusCounts, updates) := process_docs today empMap allDocs in
     setValue "Total number of updated retention status"
              (String_of_Z (Z.of_nat (length updates)));;
     setValue (countLabel "not set") (count_of statusCounts "not set");;
     setValue (countLabel "not started") (count_of statusCounts "not started");;
     setValue (countLabel "started") (count_of statusCounts "started");;
     setValue (countLabel "legal hold") (count_of statusCounts "legal hold");;
     setValue (countLabel "expired") (count_of statusCounts "expired");;
     (* 4) Apply updates (update only, never upsert) *)
     for_of (chunk updates 200) (fun part => for_of part apply_update);;
     let endedAt := new_Date_value (Int (endedAt clock)) in
     setValue "End time" (fmtTimeWithMs endedAt);;
     setValue "Process duration"
              (String_of_number (sub (getTime endedAt) (getTime startedAt)) +:+ " ms");;
     setStatus "Successful: Retention batch finished.")
    (fun e => setStatus ("Error: " +:+ e))
    (setBusy false).

End Run.

End WithHost.
End BatchRet.

(** ** The Legal Hold Propagator: the Legal Hold batch page *)

Module BatchLH.
Import JS Store.

(** A row of [documents.select("d_id, e_id")]. *)
Record DocRef : Type := {
  d_id : string;
  e_id : option string
}.

Section WithHost.
Context {host : Host}.

Definition pad2 (n : number) : string := padStart0 (String_of_number n) 2.
Definition pad3 (n : number) : string := padStart0 (String_of_number n) 3.

(* HH:MM:SS.mmm *)
Definition fmtTimeWithMs (d : Date) : string :=
  pad2 (getHours d) +:+ ":" +:+ pad2 (getMinutes d) +:+ ":" +:+
  pad2 (getSeconds d) +:+ "." +:+ pad3 (getMilliseconds d).

Definition slice {T} (arr : list T) (i j : nat) : list T :=
  take (j - i) (drop i arr).

Fixpoint chunk_loop {T} (turns : nat) (arr : list T) (size i : nat) : list (list T) :=
  match turns with
  | O => []
  | S k =>
      if (i <? length arr)%nat
      then slice arr i (i + size) :: chunk_loop k arr size (i + size)
      else []
  end.

Definition chunk {T} (arr : list T) (size : nat) : list (list T) :=
  chunk_loop (length arr) arr size 0.

(** [employees.select("e_id", { count: "exact", head: true }).eq("e_lhold", v)] *)
Definition count_employees_hold (v : bool) (db : Db) : Z :=
  Z.of_nat (size (filter (fun kr : string * Employee.row =>
                            Employee.e_lhold kr.2 = Some v) (employees db))).

Definition count_employees (db : Db) : Z := Z.of_nat (size (employees db)).

(** [documents.select("d_id", { count: "exact", head: true }).eq("e_lhold", v)] *)
Definition count_documents_hold (v : bool) (db : Db) : Z :=
  Z.of_nat (size (filter (fun kr : string * Document.row =>
                            Document.e_lhold kr.2 = Some v) (documents db))).

Definition count_documents (db : Db) : Z := Z.of_nat (size (documents db)).

(** [documents.select("d_id, e_id").eq("e_lhold", v)] *)
Definition select_documents_hold (v : bool) (db : Db) : list DocRef :=
  (fun kr : string * Document.row => {| d_id := kr.1; e_id := Document.e_id kr.2 |})
  <$> filter (fun kr : string * Document.row => Document.e_lhold kr.2 = Some v)
             (map_to_list (documents db)).

(** [employees.select("e_id").eq("e_lhold", v)] *)
Definition select_employees_hold (v : bool) (db : Db) : list string :=
  fst <$> filter (fun kr : string * Employee.row => Employee.e_lhold kr.2 = Some v)
                 (map_to_list (employees db)).

(** [rows.filter(d => d.e_id && set.has(String(d.e_id))).map(d => String(d.d_id))] *)
Definition docIds_with_employee_in (empSet : gset string) (rows : list DocRef) : list string :=
  d_id <$> filter (fun d => truthy (e_id d) = true /\ default "" (e_id d) ∈ empSet) rows.

(** What a run computes from one snapshot of the store: the documents
    to put on hold and those to release. *)
Definition activateDocIds (db : Db) : list string :=
  docIds_with_employee_in (list_to_set (select_employees_hold true db))
                          (select_documents_hold false db).

Definition removeDocIds (db : Db) : list string :=
  docIds_with_employee_in (list_to_set (select_employees_hold false db))
                          (select_documents_hold true db).

Definition initialRows : list OutRow :=
  let line l := {| label := l; value := ""; isBlank := None |} in
  let blank := {| label := ""; value := ""; isBlank := Some true |} in
  [ line "Start time"; blank;
    line "Employees, Legal Hold = no";
    line "Employees, Legal Hold = yes";
    line "Employees, Total"; blank;
    line "Legal Hold activated (Yes) for documents";
    line "Legal Hold removed (No) for documents"; blank;
    line "Documents, Legal Hold = no";
    line "Documents, Legal Hold = yes";
    line "Documents, Total"; blank;
    line "End time";
    line "Process duration" ].

(** The two readings of the clock in a run. *)
Record Clock : Type := {
  startedAt : Z;
  endedAt : Z
}.

Section Run.
Variable faults : nat -> option string.
Variable clock : Clock.

(** [for (const ids of chunks) { if (ids.length === 0) continue; update;
    counter += ids.length }] *)
Fixpoint update_chunks (v : bool) (chunks : list (list string)) (counter : Z) : M Z :=
  match chunks with
  | [] => mret counter
  | ids :: rest =>
      if (length ids =? 0)%nat then update_chunks v rest counter
      else
        command faults (SetHold ids v);;
        update_chunks v rest (counter + Z.of_nat (length ids))
  end.

Definition runBatch : M unit :=
  setBusy true;;
  setStatus "";;
  clearAllValues;;
  let startedAt := new_Date_value (Int (startedAt clock)) in
  setValue "Start time" (fmtTimeWithMs startedAt);;
  try_catch_finally
    ((* 1) Employee counts *)
     '(empNo, empYes, empTotal) ←
        query3 faults (count_employees_hold false) (count_employees_hold true)
                      count_employees;
     setValue "Employees, Legal Hold = no" (String_of_Z empNo);;
     setValue "Employees, Legal Hold = yes" (String_of_Z empYes);;
     setValue "Employees, Total" (String_of_Z empTotal);;
     (* 2) Determine docs to change *)
     toActivate ← query faults (select_documents_hold false);
     empYesRows ← query faults (select_employees_hold true);
     let empYesSet : gset string := list_to_set empYesRows in
     let activateDocIds := docIds_with_employee_in empYesSet toActivate in
     toRemove ← query faults (select_documents_hold true);
     empNoRows ← query faults (select_employees_hold false);
     let empNoSet : gset string := list_to_set empNoRows in
     let removeDocIds := docIds_with_employee_in empNoSet toRemove in
     (* 3) Update in chunks (avoid very long IN lists) *)
     activated ← update_chunks true (chunk activateDocIds 500) 0;
     removed ← update_chunks false (chunk removeDocIds 500) 0;
     setValue "Legal Hold activated (Yes) for documents" (String_of_Z activated);;
     setValue "Legal Hold removed (No) for documents" (String_of_Z removed);;
     (* 4) Document counts after update *)
     '(docNo, docYes, docTotal) ←
        query3 faults (count_documents_hold false) (count_documents_hold true)
                      count_documents;
     setValue "Documents, Legal Hold = no" (String_of_Z docNo);;
     setValue "Documents, Legal Hold = yes" (String_of_Z docYes);;
     setValue "Documents, Total" (String_of_Z docTotal);;
     (* 5) End + duration *)
     let endedAt := new_Date_value (Int (endedAt clock)) in
     setValue "End time" (fmtTimeWithMs endedAt);;
     setValue "Process duration"
              (String_of_number (sub (getTime endedAt) (getTime startedAt)) +:+ " ms");;
     setStatus "Successful: Legal Hold batch finished.")
    (fun e => setStatus ("Error: " +:+ e))
    (setBusy false).

End Run.

End WithHost.
End BatchLH.

(** ** Failing requests and unchanged columns *)

Module Trace.
Import Store.

Section Faults.
Variable faults : nat -> option string.

(** The requests numbered from [from] up to, not including, [to] all
    succeed. *)
Definition quiet (from to : nat) : Prop :=
  forall k, (from <= k < to)%nat -> faults k = None.

(** Request [k] is the first one from [from] on that fails, and it fails
    with message [e]. *)
Definition first_failure (from k : nat) (e : string) : Prop :=
  (from <= k)%nat /\ faults k = Some e /\ quiet from k.

End Faults.

(** Two rows of [documents] that differ in [d_r_status] and
    [d_r_deletion] at most. *)
Definition same_but_retention (r r' : Document.row) : Prop :=
  Document.e_id r' = Document.e_id r /\
  Document.e_lhold r' = Document.e_lhold r /\
  Document.d_date r' = Document.d_date r /\
  Document.d_r_trigger r' = Document.d_r_trigger r /\
  Document.d_r_rule r' = Document.d_r_rule r /\
  Document.d_r_month r' = Document.d_r_month r.

(** Two rows of [documents] that differ in [e_lhold] at most. *)
Definition same_but_hold (r r' : Document.row) : Prop :=
  Document.e_id r' = Document.e_id r /\
  Document.d_date r' = Document.d_date r /\
  Document.d_r_trigger r' = Document.d_r_trigger r /\
  Document.d_r_rule r' = Document.d_r_rule r /\
  Document.d_r_month r' = Document.d_r_month r /\
  Document.d_r_deletion r' = Document.d_r_deletion r /\
  Document.d_r_status r' = Document.d_r_status r.

End Trace.

(** ** The Config page: the second component of [batch-ret/page.tsx] *)

Module ConfigPage.
Import JS.

(** A row of table [config]; the table is keyed by column [c_name]. *)
Record ConfigRow : Type := {
  c_name : string;
  c_desc : string;
  c_value : option string
}.

(** ["success" | "error" | ""] *)
Inductive StatusKind : Type :=
  | success
  | error
  | noKind.

(** The React state of the page. *)
Record Page : Type := {
  rows : list ConfigRow;
  loading : bool;
  status : string;
  statusKind : StatusKind;
  newName : string;
  newDesc : string;
  newValue : string;
  editOpen : bool;
  editRow : option ConfigRow;
  editSaving : bool
}.

(** What a handler can see and change: the table, the page, the number
    of requests sent so far and the number of calls of
    [router.refresh()]. *)
Record World : Type := {
  table : gmap string ConfigRow;
  page : Page;
  sent : nat;
  refreshes : nat
}.

Definition M (A : Type) : Type := World -> Store.Result A * World.

Definition ret {A} (a : A) : M A := fun w => (Store.Ok a, w).

Definition bind {A B} (m : M A) (k : A -> M B) : M B :=
  fun w =>
    match m w with
    | (Store.Ok a, w') => k a w'
    | (Store.Thrown e, w') => (Store.Thrown e, w')
    end.

Definition throw {A} (e : string) : M A := fun w => (Store.Thrown e, w).

(** [try { body } catch (e) { handler(e) } finally { fin }] *)
Definition try_catch_finally (body : M unit) (handler : string -> M unit) (fin : M unit)
  : M unit :=
  fun w =>
    match body w with
    | (Store.Ok _, w') => fin w'
    | (Store.Thrown e, w') => bind (handler e) (fun _ => fin) w'
    end.

#[export] Instance M_ret : MRet M := @ret.
#[export] Instance M_bind : MBind M := fun A B k m => bind m k.

(** State setters *)
Definition modify_page (f : Page -> Page) : M unit :=
  fun w => (Store.Ok tt, {| table := table w; page := f (page w); sent := sent w;
                            refreshes := refreshes w |}).

Definition setRows (v : list ConfigRow) : M unit :=
  modify_page (fun p =>
    {| rows := v; loading := loading p; status := status p; statusKind := statusKind p;
       newName := newName p; newDesc := newDesc p; newValue := newValue p;
       editOpen := editOpen p; editRow := editRow p; editSaving := editSaving p |}).

Definition setLoading (v : bool) : M unit :=
  modify_page (fun p =>
    {| rows := rows p; loading := v; status := status p; statusKind := statusKind p;
       newName := newName p; newDesc := newDesc p; newValue := newValue p;
       editOpen := editOpen p; editRow := editRow p; editSaving := editSaving p |}).

Definition setStatus (v : string) : M unit :=
  modify_page (fun p =>
    {| rows := rows p; loading := loading p; status := v; statusKind := statusKind p;
       newName := newName p; newDesc := newDesc p; newValue := newValue p;
       editOpen := editOpen p; editRow := editRow p; editSaving := editSaving p |}).

Definition setStatusKind (v : StatusKind) : M unit :=
  modify_page (fun p =>
    {| rows := rows p; loading := loading p; status := status p; statusKind := v;
       newName := newName p; newDesc := newDesc p; newValue := newValue p;
       editOpen := editOpen p; editRow := editRow p; editSaving := editSaving p |}).

Definition setNewName (v : string) : M unit :=
  modify_page (fun p =>
    {| rows := rows p; loading := loading p; status := status p; statusKind := statusKind p;
       newName := v; newDesc := newDesc p; newValue := newValue p;
       editOpen := editOpen p; editRow := editRow p; editSaving := editSaving p |}).

Definition setNewDesc (v : string) : M unit :=
  modify_page (fun p =>
    {| rows := rows p; loading := loading p; status := status p; statusKind := statusKind p;
       newName := newName p; newDesc := v; newValue := newValue p;
       editOpen := editOpen p; editRow := editRow p; editSaving := editSaving p |}).

Definition setNewValue (v : string) : M unit :=
  modify_page (fun p =>
    {| rows := rows p; loading := loading p; status := status p; statusKind := statusKind p;
       newName := newName p; newDesc := newDesc p; newValue := v;
       editOpen := editOpen p; editRow := editRow p; editSaving := editSaving p |}).

Definition setEditOpen (v : bool) : M unit :=
  modify_page (fun p =>
    {| rows := rows p; loading := loading p; status := status p; statusKind := statusKind p;
       newName := newName p; newDesc := newDesc p; newValue := newValue p;
       editOpen := v; editRow := editRow p; editSaving := editSaving p |}).

Definition setEditRow (v : option ConfigRow) : M unit :=
  modify_page (fun p =>
    {| rows := rows p; loading := loading p; status := status p; statusKind := statusKind p;
       newName := newName p; newDesc := newDesc p; newValue := newValue p;
       editOpen := editOpen p; editRow := v; editSaving := editSaving p |}).

Definition setEditSaving (v : bool) : M unit :=
  modify_page (fun p =>
    {| rows := rows p; loading := loading p; status := status p; statusKind := statusKind p;
       newName := newName p; newDesc := newDesc p; newValue := newValue p;
       editOpen := editOpen p; editRow := editRow p; editSaving := v |}).

(** [router.refresh()] *)
Definition refresh : M unit :=
  fun w => (Store.Ok tt, {| table := table w; page := page w; sent := sent w;
                            refreshes := S (refreshes w) |}).

(** The state of the page, read by a handler when it starts. *)
Definition get_page : M Page := fun w => (Store.Ok (page w), w).

(** [config.upsert({ c_name, c_desc, c_value }, { onConflict: "c_name" })] *)
Definition upsert (row : ConfigRow) (t : gmap string ConfigRow) : gmap string ConfigRow :=
  <[c_name row := row]> t.

(** [config.select("c_name, c_desc, c_value").order("c_name")]: the
    rows of the table; the order in which they come has no part in what
    follows. *)
Definition select_config (t : gmap string ConfigRow) : list ConfigRow :=
  (map_to_list t).*2.

Section Requests.
Variable faults : nat -> option string.

(** A request that changes the table, and the check [if (error) throw
    error] after it. *)
Definition command (change : gmap string ConfigRow -> gmap string ConfigRow) : M unit :=
  fun w =>
    match faults (sent w) with
    | Some e => (Store.Thrown e, {| table := table w; page := page w; sent := S (sent w);
                                    refreshes := refreshes w |})
    | None => (Store.Ok tt, {| table := change (table w); page := page w;
                               sent := S (sent w); refreshes := refreshes w |})
    end.

Definition loadConfig : M unit :=
  fun w =>
    match faults (sent w) with
    | Some e => (Store.Thrown e, {| table := table w; page := page w; sent := S (sent w);
                                    refreshes := refreshes w |})
    | None => setRows (select_config (table w))
                {| table := table w; page := page w; sent := S (sent w);
                   refreshes := refreshes w |}
    end.

(** [validate]: the error thrown, if one is.  The names and
    descriptions of the model are ASCII text, for which [length] is the
    number of characters. *)
Definition validate (c_name c_desc : string) : M unit :=
  if String.eqb c_name "" then throw "Variable is required."
  else if (100 <? String.length c_name)%nat
       then throw "Variable must be max. 100 characters."
  else if String.eqb c_desc "" then throw "Description is required."
  else if (255 <? String.length c_desc)%nat
       then throw "Description must be max. 255 characters."
  else ret tt.

Definition addRow : M unit :=
  p ← get_page;
  setLoading true;;
  setStatus "";;
  setStatusKind noKind;;
  try_catch_finally
    (let c_name := trim (newName p) in
     let c_desc := trim (newDesc p) in
     let c_value := if String.eqb (trim (newValue p)) "" then None
                    else Some (newValue p) in
     validate c_name c_desc;;
     command (upsert {| c_name := c_name; c_desc := c_desc; c_value := c_value |});;
     setNewName "";;
     setNewDesc "";;
     setNewValue "";;
     loadConfig;;
     setStatusKind success;;
     setStatus "Successful: Variable saved.";;
     refresh)
    (fun e => setStatusKind error;; setStatus ("Error: " +:+ e))
    (setLoading false).

Definition openEdit (row : ConfigRow) : M unit :=
  setEditRow (Some row);;
  setEditOpen true;;
  setStatus "";;
  setStatusKind noKind.

Definition saveEdit : M unit :=
  p ← get_page;
  match editRow p with
  | None => ret tt
  | Some row =>
      setEditSaving true;;
      setStatus "";;
      setStatusKind noKind;;
      try_catch_finally
        (let c_name := trim (c_name row) in
         let c_desc := trim (c_desc row) in
         let c_value := if String.eqb (trim (default "" (c_value row))) "" then None
                        else ConfigPage.c_value row in
         validate c_name c_desc;;
         command (upsert {| c_name := c_name; c_desc := c_desc; c_value := c_value |});;
         loadConfig;;
         setEditOpen false;;
         setEditRow None;;
         setStatusKind success;;
         setStatus "Successful: Variable saved.";;
         refresh)
        (fun e => setStatusKind error;; setStatus ("Error: " +:+ e))
        (setEditSaving false)
  end.

(** [confirmed] is the answer of the user to [confirm(...)]. *)
Definition deleteEdit (confirmed : bool) : M unit :=
  p ← get_page;
  match editRow p with
  | None => ret tt
  | Some row =>
      if String.eqb (c_name row) "" then ret tt
      else if negb confirmed then ret tt
      else
        setEditSaving true;;
        setStatus "";;
        setStatusKind noKind;;
        try_catch_finally
          (command (delete (c_name row));;
           loadConfig;;
           setEditOpen false;;
           setEditRow None;;
           setStatusKind success;;
           setStatus "Successful: Variable deleted.";;
           refresh)
          (fun e => setStatusKind error;; setStatus ("Error: " +:+ e))
          (setEditSaving false)
  end.

End Requests.

End ConfigPage.

(** ** Sample data: the scenarios of the specification *)

Module Samples.
Import JS Store BatchRet.

(** A machine on UTC that reads ISO dates. *)
Definition utc : Host := isoHost 0.

Definition doc (id : string) (emp : option string) (hold : option bool)
    (added : option string) (trigger : string) (months : number)
    (deletion status : option string) : RetDoc.t :=
  {| RetDoc.d_id := id; RetDoc.e_id := emp; RetDoc.e_lhold := hold;
     RetDoc.d_date := added; RetDoc.d_r_trigger := trigger;
     RetDoc.d_r_rule := "R"; RetDoc.d_r_month := months;
     RetDoc.d_r_deletion := deletion; RetDoc.d_r_status := status |}.

Definition emp (id : string) (st tdate : option string) : EmpMini.t :=
  {| EmpMini.e_id := id; EmpMini.e_status := st; EmpMini.e_tdate := tdate |}.

(** Employees E1 (active) and E2 (terminated on 2023-01-15). *)
Definition empMap : gmap string EmpMini.t :=
  <["E1" := emp "E1" (Some "Active") None]>
    (<["E2" := emp "E2" (Some "Terminated") (Some "2023-01-15")]> ∅).

(** Scenario A: active employee, trigger Termination, 12 months. *)
Definition docA : RetDoc.t :=
  doc "A" (Some "E1") (Some false) (Some "2022-05-05") "Termination" (Int 12)
      None (Some "not started").

(** Scenario B: terminated employee, trigger Termination, 12 months. *)
Definition docB : RetDoc.t :=
  doc "B" (Some "E2") (Some false) (Some "2022-05-05") "Termination" (Int 12)
      None (Some "not started").

(** Scenario C: added on 2024-01-01, trigger Cassation Date, 6 months. *)
Definition docC : RetDoc.t :=
  doc "C" None (Some false) (Some "2024-01-01") "Cassation Date" (Int 6)
      None (Some "not started").

(** Scenario D: as B, under legal hold. *)
Definition docD : RetDoc.t :=
  doc "D" (Some "E2") (Some true) (Some "2022-05-05") "Termination" (Int 12)
      None (Some "not started").


(** A document whose month offset was edited to four million. *)
Definition docHuge : RetDoc.t :=
  doc "H" None (Some false) (Some "2024-01-31") "Cassation Date" (Int 4000000)
      None (Some "not started").


(** The batch runs on 2024-06-01 (scenario B) or 2024-03-01 (scenario C). *)
Definition june1 : Date := @new_Date_string utc "2024-06-01".
Definition march1 : Date := @new_Date_string utc "2024-03-01".

(** A store with the two employees, E2 under legal hold, and four
    documents: A, B and C of the scenarios, and R, a document under hold
    of an employee who is not. *)
Definition employeeRow (st tdate : option string) (hold : bool) : Employee.row :=
  {| Employee.e_status := st; Employee.e_tdate := tdate;
     Employee.e_lhold := Some hold |}.

Definition documentRow (d : RetDoc.t) : Document.row :=
  {| Document.e_id := RetDoc.e_id d; Document.e_lhold := RetDoc.e_lhold d;
     Document.d_date := RetDoc.d_date d; Document.d_r_trigger := RetDoc.d_r_trigger d;
     Document.d_r_rule := RetDoc.d_r_rule d; Document.d_r_month := RetDoc.d_r_month d;
     Document.d_r_deletion := RetDoc.d_r_deletion d;
     Document.d_r_status := RetDoc.d_r_status d |}.

Definition docR : RetDoc.t :=
  doc "R" (Some "E1") (Some true) (Some "2022-05-05") "Termination" (Int 12)
      None (Some "legal hold").

Definition store : Db :=
  {| employees :=
       <["E1" := employeeRow (Some "Active") None false]>
         (<["E2" := employeeRow (Some "Terminated") (Some "2023-01-15") true]> ∅);
     documents :=
       <["A" := documentRow docA]> (<["B" := documentRow docB]>
         (<["C" := documentRow docC]> (<["R" := documentRow docR]> ∅))) |}.

(** The two pages before their first run. *)
Definition retWorld : World :=
  {| db := store;
     page := {| busy := false; status := ""; rows := BatchRet.initialRows |};
     sent := 0; writes := [] |}.

Definition lhWorld : World :=
  {| db := store;
     page := {| busy := false; status := ""; rows := BatchLH.initialRows |};
     sent := 0; writes := [] |}.

(** Runs that start on 2024-06-01 at 10:00 UTC and take half a second. *)
Definition retClock : BatchRet.Clock :=
  {| BatchRet.startedAt := 1717236000000; BatchRet.today := 1717236000100;
     BatchRet.endedAt := 1717236000500 |}.

Definition lhClock : BatchLH.Clock :=
  {| BatchLH.startedAt := 1717236000000; BatchLH.endedAt := 1717236000500 |}.



End Samples.

(* ===================================================================== *)
(** * Part II — lemmas and theorems                                       *)
(* ===================================================================== *)

(** Linear arithmetic with floor division and remainder by constants. *)
Ltac zdiv := Z.div_mod_to_equations; lia.

(** Turn boolean comparisons of the context into propositions. *)
Ltac unbool :=
  repeat match goal with
  | H : (_ <? _) = true |- _ => apply Z.ltb_lt in H
  | H : (_ <? _) = false |- _ => apply Z.ltb_ge in H
  | H : (_ <=? _) = true |- _ => apply Z.leb_le in H
  | H : (_ <=? _) = false |- _ => apply Z.leb_gt in H
  | H : (_ =? _) = true |- _ => apply Z.eqb_eq in H
  | H : (_ =? _) = false |- _ => apply Z.eqb_neq in H
  | H : negb _ = true |- _ => apply negb_true_iff in H
  | H : negb _ = false |- _ => apply negb_false_iff in H
  | H : (_ && _) = true |- _ => apply andb_true_iff in H; destruct H
  end.

(** ** The calendar of ECMA-262 *)

Module Calendar.
Import JS.

Lemma DaysInYear_cases y : DaysInYear y = 365 \/ DaysInYear y = 366.
Proof. unfold DaysInYear. repeat case_match; auto. Qed.

Lemma DayFromYear_succ y : DayFromYear (y + 1) = DayFromYear y + DaysInYear y.
Proof.
  unfold DayFromYear, DaysInYear.
  repeat case_match; unbool; zdiv.
Qed.

Lemma DayFromYear_mono a b : a <= b -> DayFromYear a <= DayFromYear b.
Proof. unfold DayFromYear. zdiv. Qed.

Lemma DayFromYear_lt a b : a < b -> DayFromYear a < DayFromYear b.
Proof.
  intros Hab. pose proof (DayFromYear_mono (a + 1) b ltac:(lia)) as Hm.
  rewrite DayFromYear_succ in Hm. destruct (DaysInYear_cases a); lia.
Qed.

(** [YearFromDay] meets the specification of [YearFromTime]: the year
    found contains the day, and it is the only one that does. *)
Lemma YearFromDay_spec d :
  DayFromYear (YearFromDay d) <= d < DayFromYear (YearFromDay d + 1).
Proof.
  unfold YearFromDay. cbv zeta.
  repeat case_match; unbool; try lia; unfold DayFromYear in *; zdiv.
Qed.


(** [YearFromTime t] is the largest year that starts at or before [t]. *)
Lemma YearFromTime_spec t :
  TimeFromYear (YearFromTime t) <= t /\
  forall y, TimeFromYear y <= t -> y <= YearFromTime t.
Proof.
  unfold TimeFromYear, YearFromTime, Day.
  pose proof (YearFromDay_spec (t / msPerDay)) as [Hlo Hhi].
  split.
  - unfold msPerDay in *. zdiv.
  - intros y Hy.
    destruct (Z_le_gt_dec y (YearFromDay (t / msPerDay))) as [|Hgt]; [done|].
    pose proof (DayFromYear_mono (YearFromDay (t / msPerDay) + 1) y ltac:(lia)).
    unfold msPerDay in *. zdiv.
Qed.

Lemma leap_cases y :
  (leap y = 0 /\ DaysInYear y = 365) \/ (leap y = 1 /\ DaysInYear y = 366).
Proof. unfold leap. destruct (DaysInYear_cases y) as [-> | ->]; auto. Qed.

Lemma InLeapYear_leap t : InLeapYear t = leap (YearFromTime t).
Proof. done. Qed.

Lemma DaysInMonth_leap y mn :
  DaysInMonth y mn = match mn with
                     | 1 => 28 + leap y
                     | 3 | 5 | 8 | 10 => 30
                     | _ => 31
                     end.
Proof. unfold DaysInMonth, leap. repeat case_match; lia. Qed.

(** Case analysis on a month number. *)
Ltac months mn :=
  let H := fresh in
  assert (H : mn = 0 \/ mn = 1 \/ mn = 2 \/ mn = 3 \/ mn = 4 \/ mn = 5 \/ mn = 6 \/
              mn = 7 \/ mn = 8 \/ mn = 9 \/ mn = 10 \/ mn = 11) by lia;
  destruct_or! H; subst mn.

Lemma DaysInMonth_bounds y mn : 28 <= DaysInMonth y mn <= 31.
Proof.
  rewrite DaysInMonth_leap. destruct (leap_cases y) as [[-> _] | [-> _]];
    repeat case_match; lia.
Qed.




Lemma MakeDay_month y mn dt :
  0 <= mn <= 11 ->
  MakeDay y mn dt = DayFromYear y + DaysBeforeMonth mn (leap y) + dt - 1.
Proof.
  intros Hmn. unfold MakeDay. cbv zeta.
  rewrite Z.div_small, Z.mod_small, Z.add_0_r by lia. done.
Qed.





(** The month of a time value, by the position of its day in the year. *)
Lemma MonthFromTime_cases t :
  let d := DayWithinYear t in
  let l := leap (YearFromTime t) in
  (MonthFromTime t = 0 /\ d < 31) \/
  (MonthFromTime t = 1 /\ 31 <= d < 59 + l) \/
  (MonthFromTime t = 2 /\ 59 + l <= d < 90 + l) \/
  (MonthFromTime t = 3 /\ 90 + l <= d < 120 + l) \/
  (MonthFromTime t = 4 /\ 120 + l <= d < 151 + l) \/
  (MonthFromTime t = 5 /\ 151 + l <= d < 181 + l) \/
  (MonthFromTime t = 6 /\ 181 + l <= d < 212 + l) \/
  (MonthFromTime t = 7 /\ 212 + l <= d < 243 + l) \/
  (MonthFromTime t = 8 /\ 243 + l <= d < 273 + l) \/
  (MonthFromTime t = 9 /\ 273 + l <= d < 304 + l) \/
  (MonthFromTime t = 10 /\ 304 + l <= d < 334 + l) \/
  (MonthFromTime t = 11 /\ 334 + l <= d).
Proof.
  unfold MonthFromTime. cbv zeta. rewrite InLeapYear_leap.
  repeat (case_match; unbool; [tauto|]). tauto.
Qed.

(** Every time value has valid calendar fields, and [MakeDay] rebuilds
    its day from them. *)
Lemma fields_valid t :
  0 <= MonthFromTime t <= 11 /\
  1 <= DateFromTime t <= DaysInMonth (YearFromTime t) (MonthFromTime t) /\
  Day t = MakeDay (YearFromTime t) (MonthFromTime t) (DateFromTime t).
Proof.
  pose proof (YearFromDay_spec (Day t)) as Hs.
  rewrite DayFromYear_succ in Hs. fold (YearFromTime t) in Hs.
  pose proof (MonthFromTime_cases t) as Hc. cbv zeta in Hc.
  unfold DateFromTime. cbv zeta. rewrite InLeapYear_leap.
  assert (Hd : Day t = DayFromYear (YearFromTime t) + DayWithinYear t)
    by (unfold DayWithinYear; lia).
  assert (Hr : 0 <= DayWithinYear t < DaysInYear (YearFromTime t))
    by (unfold DayWithinYear; lia).
  clear Hs. revert Hc Hd Hr.
  generalize (DayWithinYear t) as d. intros d Hc Hd Hr.
  destruct (leap_cases (YearFromTime t)) as [[Hl Hy] | [Hl Hy]];
    rewrite Hl, Hy in *;
    destruct_or! Hc; destruct Hc as [Hm Hb]; rewrite Hm;
    (rewrite MakeDay_month by lia); rewrite DaysInMonth_leap, Hl; simpl; lia.
Qed.





(** The calendar fields depend on the day only. *)
Lemma fields_same_day t1 t2 :
  Day t1 = Day t2 ->
  YearFromTime t1 = YearFromTime t2 /\ MonthFromTime t1 = MonthFromTime t2 /\
  DateFromTime t1 = DateFromTime t2.
Proof.
  intros Hd.
  assert (Hy : YearFromTime t1 = YearFromTime t2) by (unfold YearFromTime; by rewrite Hd).
  assert (Hm : MonthFromTime t1 = MonthFromTime t2).
  { unfold MonthFromTime, DayWithinYear, InLeapYear. by rewrite Hd, Hy. }
  repeat split; try done.
  unfold DateFromTime, DayWithinYear, InLeapYear. by rewrite Hd, Hy, Hm.
Qed.

End Calendar.

(** ** [Date] objects and [addMonths] *)

Module DateFacts.
Import JS Calendar BatchRet.

Lemma TimeClip_Some t : Z.abs t <= maxTime -> TimeClip t = Some t.
Proof. intros H. unfold TimeClip. by rewrite (proj2 (Z.leb_le _ _) H). Qed.

Lemma TimeClip_None t : maxTime < Z.abs t -> TimeClip t = None.
Proof. intros H. unfold TimeClip. by rewrite (proj2 (Z.leb_gt _ _) H). Qed.

Lemma TimeClip_inv t u : TimeClip t = Some u -> u = t /\ Z.abs t <= maxTime.
Proof. unfold TimeClip. case_match; unbool; naive_solver. Qed.





Section WithHost.
Context {host : Host}.





(** ** The date-only comparison *)

(** [dateOnlyTs] ignores the time of day: two instants of the same local
    day have the same date-only timestamp. *)
Lemma dateOnlyTs_same_day t1 t2 :
  Day (LocalTime t1) = Day (LocalTime t2) ->
  dateOnlyTs (Some t1) = dateOnlyTs (Some t2).
Proof.
  intros Hd. destruct (fields_same_day _ _ Hd) as (Hy & Hm & Hdt).
  unfold dateOnlyTs. cbn [getFullYear getMonth getDate]. by rewrite Hy, Hm, Hdt.
Qed.


(** Outside the years 0 to 99, which the [Date] constructor reads as
    1900 to 1999, the date-only timestamp of an instant is the midnight
    that starts its local day. *)
Lemma dateOnlyTs_midnight t :
  ~ (0 <= YearFromTime (LocalTime t) <= 99) ->
  Z.abs (UTC (Day (LocalTime t) * msPerDay)) <= maxTime ->
  dateOnlyTs (Some t) = Int (UTC (Day (LocalTime t) * msPerDay)).
Proof.
  intros Hy Hr. unfold dateOnlyTs. cbn [getFullYear getMonth getDate new_Date_ymd].
  cbv zeta.
  replace ((0 <=? YearFromTime (LocalTime t)) && (YearFromTime (LocalTime t) <=? 99))
    with false by (symmetry; apply andb_false_iff; lia).
  destruct (fields_valid (LocalTime t)) as (_ & _ & <-).
  unfold MakeTime, MakeDate. rewrite !Z.mul_0_l, !Z.add_0_r.
  by rewrite TimeClip_Some.
Qed.

(** For such instants the comparison of [isExpiredPerSpec] is the
    comparison of the local calendar days. *)
Lemma isExpiredPerSpec_days a b :
  ~ (0 <= YearFromTime (LocalTime a) <= 99) ->
  ~ (0 <= YearFromTime (LocalTime b) <= 99) ->
  Z.abs (UTC (Day (LocalTime a) * msPerDay)) <= maxTime ->
  Z.abs (UTC (Day (LocalTime b) * msPerDay)) <= maxTime ->
  isExpiredPerSpec (Some a) (Some b) = (Day (LocalTime a) <? Day (LocalTime b)).
Proof.
  intros Ha Hb Hra Hrb. unfold isExpiredPerSpec.
  rewrite !dateOnlyTs_midnight by done. cbn [JS.lt].
  unfold UTC, msPerDay.
  destruct (Z.ltb_spec (Day (LocalTime a)) (Day (LocalTime b)));
    [apply Z.ltb_lt | apply Z.ltb_ge]; lia.
Qed.

(** An invalid deletion date is never expired. *)
Lemma isExpiredPerSpec_invalid today : isExpiredPerSpec None today = false.
Proof. done. Qed.

End WithHost.
End DateFacts.

(** ** The Retention Status Resolver *)

Module Resolver.
Import JS Store BatchRet Calendar DateFacts.

Section WithHost.
Context {host : Host}.

Implicit Types (today : Date) (empMap : gmap string EmpMini.t) (d : RetDoc.t).

(** C1: a document whose [e_lhold] flag is true gets status "legal hold"
    and no deletion date, whatever its trigger, rule, month offset and
    employee are: the flag is tested before anything else is looked at. *)
Theorem legal_hold_short_circuits today empMap d :
  RetDoc.e_lhold d = Some true ->
  resolve today empMap d = ("legal hold", None).
Proof.
  intros Hhold. unfold resolve. by rewrite bool_decide_eq_true_2.
Qed.

(** The shape of every result of [resolve]: either one of the two
    statuses without deletion date, or "started"/"expired" together with
    the ISO rendering of a date computed by [addMonths]. *)
Lemma resolve_cases today empMap d :
  resolve today empMap d = ("legal hold", None) \/
  resolve today empMap d = ("not started", None) \/
  exists t,
    resolve today empMap d =
      (if isExpiredPerSpec (addMonths (Some t) (RetDoc.d_r_month d)) today
       then "expired" else "started",
       Some (toISODate (addMonths (Some t) (RetDoc.d_r_month d)))).
Proof.
  unfold resolve. cbv zeta.
  destruct (bool_decide _); [auto|].
  destruct (_ || _); [auto|].
  destruct (String.eqb _ "termination").
  - destruct (_ || _); [auto|].
    destruct (date_or_null _) as [[t|]|]; eauto.
  - destruct (String.eqb _ "cassation date"); [|auto].
    destruct (date_or_null _) as [[t|]|]; eauto.
Qed.

(** C5: the status computed for a document is always one of "not
    started", "started", "legal hold" and "expired", and so never "not
    set", on every branch of the resolver. *)
Theorem status_never_not_set today empMap d :
  (resolve today empMap d).1 ∈ ["not started"; "started"; "legal hold"; "expired"] /\
  (resolve today empMap d).1 <> "not set".
Proof.
  destruct (resolve_cases today empMap d) as [-> | [-> | [t ->]]]; simpl;
    try case_match; split; try discriminate; set_solver.
Qed.



(** The deletion date is present exactly for the statuses "started" and
    "expired". *)
Lemma deletion_iff_started_or_expired today empMap d :
  is_Some (resolve today empMap d).2 <->
  (resolve today empMap d).1 = "started" \/ (resolve today empMap d).1 = "expired".
Proof.
  destruct (resolve_cases today empMap d) as [-> | [-> | [t ->]]]; simpl.
  - split; [intros [? [=]] | intros [[=] | [=]]].
  - split; [intros [? [=]] | intros [[=] | [=]]].
  - split; [|by eauto]. intros _. case_match; auto.
Qed.


End WithHost.




(** C9 at the failing input: a document with trigger "Cassation Date",
    date 2024-01-31 and a month offset of four million gets status
    "started" together with the deletion date "NaN-NaN-NaN", which is not
    an ISO date. *)
Theorem huge_months_deletion_not_a_date :
  @resolve Samples.utc Samples.june1 Samples.empMap Samples.docHuge
    = ("started", Some "NaN-NaN-NaN") /\
  Date_parse_iso "NaN-NaN-NaN" = NaN.
Proof. split; vm_compute; reflexivity. Qed.

(** The scenarios of the specification, on a machine on UTC. *)
Example scenario_A :
  @resolve Samples.utc Samples.june1 Samples.empMap Samples.docA = ("not started", None).
Proof. vm_compute. reflexivity. Qed.

Example scenario_C :
  @resolve Samples.utc Samples.march1 Samples.empMap Samples.docC
    = ("started", Some "2024-07-01").
Proof. vm_compute. reflexivity. Qed.

(** Stored dates are read at midnight UTC and printed in local time: five
    hours west of Greenwich the deletion date of scenario B is a day
    earlier. *)
Example scenario_B_west :
  let west := isoHost (-18000000) in
  @resolve west (@new_Date_string west "2024-06-01") Samples.empMap Samples.docB
    = ("expired", Some "2024-01-14").
Proof. vm_compute. reflexivity. Qed.

Lemma legal_hold_short_circuits_witness :
  RetDoc.e_lhold Samples.docD = Some true /\
  @resolve Samples.utc Samples.june1 Samples.empMap Samples.docD = ("legal hold", None).
Proof.
  split; [reflexivity|].
  apply (@legal_hold_short_circuits Samples.utc). reflexivity.
Defined.



End Resolver.

(** ** Text and lists *)

Module Text.
Import JS BatchRet.

Lemma trimStart_no_white s : no_white s = true -> trimStart s = s.
Proof.
  destruct s as [|c r]; [done|]. simpl. intros [Hc _]%andb_true_iff.
  apply negb_true_iff in Hc. by rewrite Hc.
Qed.

Lemma trimEnd_no_white s : no_white s = true -> trimEnd s = s.
Proof.
  induction s as [|c r IH]; [done|]. simpl. intros [Hc Hr]%andb_true_iff.
  rewrite IH by done. apply negb_true_iff in Hc. rewrite Hc. by destruct r.
Qed.

Lemma trim_no_white s : no_white s = true -> trim s = s.
Proof.
  intros H. unfold trim. rewrite trimStart_no_white by done.
  by apply trimEnd_no_white.
Qed.

Lemma no_white_app s1 s2 :
  no_white s1 = true -> no_white s2 = true -> no_white (s1 +:+ s2) = true.
Proof.
  intros H1 H2. induction s1 as [|c r IH]; [done|]. simpl in *.
  apply andb_true_iff in H1 as [-> Hr]. by rewrite IH.
Qed.

Lemma no_white_repeat_zero n : no_white (repeat_char "0" n) = true.
Proof. induction n; [done|]. simpl. by rewrite IHn. Qed.

Lemma no_white_padStart0 s n : no_white s = true -> no_white (padStart0 s n) = true.
Proof. intros. unfold padStart0. apply no_white_app; [apply no_white_repeat_zero | done]. Qed.

Lemma no_white_uint d : no_white (NilEmpty.string_of_uint d) = true.
Proof. induction d; simpl; by rewrite ?IHd. Qed.

Lemma no_white_String_of_Z z : no_white (String_of_Z z) = true.
Proof.
  unfold String_of_Z, NilZero.string_of_int, NilZero.string_of_uint.
  destruct (Z.to_int z) as [d | d]; [destruct d | simpl; destruct d];
    simpl; by rewrite ?no_white_uint.
Qed.

Lemma no_white_String_of_number x : no_white (String_of_number x) = true.
Proof. destruct x; [apply no_white_String_of_Z | done..]. Qed.

Lemma no_white_toISODate `{Host} d : no_white (toISODate d) = true.
Proof.
  unfold toISODate. cbv zeta.
  repeat apply no_white_app;
    auto using no_white_String_of_number, no_white_repeat_zero.
Qed.

(** The statuses and the dates written by the resolver are their own
    normal form. *)
Lemma norm_toISODate `{Host} d : norm (Some (toISODate d)) = toISODate d.
Proof. apply trim_no_white, no_white_toISODate. Qed.

(** *** [chunk] *)

Lemma join_chunk_loop {T} (arr : list T) size turns i :
  (0 < size)%nat -> (length arr - i <= turns)%nat ->
  mjoin (chunk_loop turns arr size i) = drop i arr.
Proof.
  intros Hsize. revert i. induction turns as [|k IH]; intros i Hturns; simpl.
  - symmetry. apply drop_ge. lia.
  - destruct (Nat.ltb_spec i (length arr)) as [Hlt | Hge].
    + simpl. rewrite IH by lia. unfold slice.
      replace (i + size - i)%nat with size by lia.
      rewrite <- (take_drop size (drop i arr)) at 2.
      by rewrite drop_drop.
    + symmetry. apply drop_ge. lia.
Qed.

(** The parts of [chunk], put one after the other, are the list. *)
Lemma join_chunk {T} (arr : list T) size :
  (0 < size)%nat -> mjoin (chunk arr size) = arr.
Proof.
  intros Hsize. unfold chunk. rewrite join_chunk_loop by lia. done.
Qed.

End Text.

(** ** Runs: the page and the store *)

Module Runs.
Import JS Store Text.

(** *** Rows *)

Lemma shows_set_value_eq lbl v rs : shows (set_value lbl v rs) lbl v.
Proof.
  intros r [r0 [-> Hr0]]%list_elem_of_fmap Hl.
  destruct (String.eqb_spec (label r0) lbl); simpl in *; [done | congruence].
Qed.

Lemma shows_set_value_ne lbl v lbl' v' rs :
  lbl <> lbl' -> shows rs lbl v -> shows (set_value lbl' v' rs) lbl v.
Proof.
  intros Hne Hs r [r0 [-> Hr0]]%list_elem_of_fmap Hl.
  destruct (String.eqb_spec (label r0) lbl'); simpl in *; [congruence | by apply Hs].
Qed.

Lemma same_layout_refl rs : same_layout rs rs.
Proof. done. Qed.

Lemma same_layout_trans rs1 rs2 rs3 :
  same_layout rs1 rs2 -> same_layout rs2 rs3 -> same_layout rs1 rs3.
Proof. unfold same_layout. congruence. Qed.

Lemma same_layout_set_value lbl v rs : same_layout (set_value lbl v rs) rs.
Proof.
  unfold same_layout, set_value. rewrite <- list_fmap_compose.
  apply list_fmap_ext. intros _ r _. simpl. by case_match.
Qed.

Lemma same_layout_clear_values rs : same_layout (clear_values rs) rs.
Proof.
  unfold same_layout, clear_values. rewrite <- list_fmap_compose.
  apply list_fmap_ext. intros _ r _. simpl.
  destruct (isBlank r) as [[]|] eqn:E; simpl; by rewrite ?E.
Qed.


(** *** Chunks *)

Lemma chunk_loop_parts {T} (arr : list T) size turns i :
  (0 < size)%nat ->
  Forall (fun part => (0 < length part <= size)%nat) (BatchRet.chunk_loop turns arr size i).
Proof.
  intros Hsize. revert i. induction turns as [|k IH]; intros i; simpl; [constructor|].
  destruct (Nat.ltb_spec i (length arr)) as [Hlt | Hge]; [|constructor].
  constructor; [|apply IH].
  unfold BatchRet.slice. rewrite length_take, length_drop. lia.
Qed.

(** [chunk] produces parts of one to [size] elements. *)
Lemma chunk_parts {T} (arr : list T) size :
  (0 < size)%nat ->
  Forall (fun part => (0 < length part <= size)%nat) (BatchRet.chunk arr size).
Proof. intros. by apply chunk_loop_parts. Qed.

Lemma chunk_LH {T} (arr : list T) size : BatchLH.chunk arr size = BatchRet.chunk arr size.
Proof. done. Qed.

(** *** Loops *)

Lemma bind_ext {A B} (m : M A) (k1 k2 : A -> M B) w :
  (forall a w', k1 a w' = k2 a w') -> bind m k1 w = bind m k2 w.
Proof. intros Hk. unfold bind. destruct (m w) as [[a|e] w']; [apply Hk | done]. Qed.

Lemma bind_assoc {A B C} (m : M A) (k1 : A -> M B) (k2 : B -> M C) w :
  bind (bind m k1) k2 w = bind m (fun a => bind (k1 a) k2) w.
Proof. unfold bind. destruct (m w) as [[a|e] w']; done. Qed.

Lemma for_of_app {A} (l1 l2 : list A) (f : A -> M unit) w :
  for_of (l1 ++ l2) f w = bind (for_of l1 f) (fun _ => for_of l2 f) w.
Proof.
  revert w. induction l1 as [|x l1 IH]; intros w; simpl.
  - done.
  - rewrite bind_assoc. apply bind_ext. intros _ w'. apply IH.
Qed.

(** A loop over the parts of a list, with a loop over each part inside,
    is a loop over the list. *)
Lemma for_of_join {A} (parts : list (list A)) (f : A -> M unit) w :
  for_of parts (fun part => for_of part f) w = for_of (mjoin parts) f w.
Proof.
  revert w. induction parts as [|p parts IH]; intros w; simpl; [done|].
  rewrite for_of_app. apply bind_ext. intros _ w'. apply IH.
Qed.

(** Unfold the computation of a run up to its loops. *)
Ltac run_steps :=
  lazy beta iota zeta delta
       [try_catch_finally mbind M_bind bind mret M_ret ret
        setBusy setStatus clearAllValues setValue setRows modify_page
        query3 query command sending noFaults
        db page sent writes busy status rows fst snd].

(** Find the value shown for a label below the later [set_value]s. *)
Ltac differ := apply String.eqb_neq; vm_compute; reflexivity.

Ltac shows_tac :=
  repeat first [ apply shows_set_value_eq
               | apply shows_set_value_ne; [differ|] ].

Ltac layout_tac :=
  repeat first [ apply same_layout_refl
               | eapply same_layout_trans; [apply same_layout_set_value|]
               | eapply same_layout_trans; [apply same_layout_clear_values|] ].

End Runs.

(** ** The Legal Hold Propagator *)

Module LegalHold.
Import JS Store BatchLH Text Runs.

Implicit Types (db : Db) (id : string).

Lemma NoDup_fmap_filter {A B} (f : A -> B) (P : A -> Prop) `{forall x, Decision (P x)}
    (l : list A) :
  NoDup (f <$> l) -> NoDup (f <$> filter P l).
Proof.
  intros Hnd. eapply sublist_NoDup; [exact Hnd|].
  apply fmap_sublist, sublist_filter.
Qed.

Lemma elem_of_select_documents_hold v db d :
  d ∈ select_documents_hold v db <->
  exists row, documents db !! d_id d = Some row /\
              Document.e_lhold row = Some v /\ e_id d = Document.e_id row.
Proof.
  unfold select_documents_hold. rewrite list_elem_of_fmap. split.
  - intros ([k row] & -> & [Hv Hin]%list_elem_of_filter). simpl in *.
    apply elem_of_map_to_list in Hin. eauto.
  - intros (row & Hrow & Hv & He). exists (d_id d, row). split.
    + destruct d. simpl in *. by subst.
    + apply list_elem_of_filter. split; [done|]. by apply elem_of_map_to_list.
Qed.

Lemma elem_of_select_employees_hold v db eid :
  eid ∈ select_employees_hold v db <->
  exists emp, employees db !! eid = Some emp /\ Employee.e_lhold emp = Some v.
Proof.
  unfold select_employees_hold. rewrite list_elem_of_fmap. split.
  - intros ([k emp] & -> & [Hv Hin]%list_elem_of_filter). simpl in *.
    apply elem_of_map_to_list in Hin. eauto.
  - intros (emp & Hemp & Hv). exists (eid, emp). split; [done|].
    apply list_elem_of_filter. split; [done|]. by apply elem_of_map_to_list.
Qed.

(** The documents selected for a change of their flag from [negb v] to
    [v]: those whose flag is [negb v] and whose employee has flag [v]. *)
Lemma elem_of_docIds v db id :
  id ∈ docIds_with_employee_in (list_to_set (select_employees_hold v db))
                               (select_documents_hold (negb v) db) <->
  exists doc emp, documents db !! id = Some doc /\
                  Document.e_lhold doc = Some (negb v) /\
                  referenced_employee db doc = Some emp /\
                  Employee.e_lhold emp = Some v.
Proof.
  unfold docIds_with_employee_in, referenced_employee.
  rewrite list_elem_of_fmap. split.
  - intros (d & -> & [[Ht Hin] Hd]%list_elem_of_filter).
    apply elem_of_select_documents_hold in Hd as (row & Hrow & Hv & He).
    apply elem_of_list_to_set, elem_of_select_employees_hold in Hin as (emp & Hemp & Hev).
    exists row, emp. rewrite <- He, Ht. eauto.
  - intros (doc & emp & Hdoc & Hv & Href & Hev).
    exists {| d_id := id; e_id := Document.e_id doc |}. split; [done|].
    destruct (truthy (Document.e_id doc)) eqn:Ht; [|done].
    apply list_elem_of_filter. split.
    + split; [done|]. apply elem_of_list_to_set, elem_of_select_employees_hold. eauto.
    + apply elem_of_select_documents_hold. eauto.
Qed.

Lemma NoDup_docIds (S : gset string) v db :
  NoDup (docIds_with_employee_in S (select_documents_hold v db)).
Proof.
  unfold docIds_with_employee_in, select_documents_hold.
  apply NoDup_fmap_filter. rewrite <- list_fmap_compose.
  apply NoDup_fmap_filter. apply (NoDup_fst_map_to_list (documents db)).
Qed.

(** *** What the writes do to the store *)

Lemma with_hold_idemp v doc :
  Document.with_hold v (Document.with_hold v doc) = Document.with_hold v doc.
Proof. done. Qed.

Lemma lookup_update_hold ids v db id :
  documents (update_hold ids v db) !! id =
    if bool_decide (id ∈ ids) then Document.with_hold v <$> documents db !! id
    else documents db !! id.
Proof.
  unfold update_hold. simpl. induction ids as [|a ids IH]; simpl; [done|].
  rewrite lookup_alter. destruct (decide (a = id)) as [-> | Hne].
  - rewrite IH. rewrite (bool_decide_eq_true_2 (id ∈ id :: ids)) by set_solver.
    case_bool_decide; [|done]. rewrite <- option_fmap_compose.
    by destruct (documents db !! id).
  - rewrite IH. case_bool_decide.
    + rewrite bool_decide_eq_true_2 by set_solver. done.
    + rewrite bool_decide_eq_false_2 by set_solver. done.
Qed.

Lemma employees_update_hold ids v db : employees (update_hold ids v db) = employees db.
Proof. done. Qed.

Lemma lookup_update_hold_chunks chunks v db id :
  documents (foldl (fun d ids => update_hold ids v d) db chunks) !! id =
    if bool_decide (id ∈ mjoin chunks) then Document.with_hold v <$> documents db !! id
    else documents db !! id.
Proof.
  revert db. induction chunks as [|ids chunks IH]; intros db; simpl; [done|].
  rewrite IH, lookup_update_hold.
  destruct (decide (id ∈ ids)) as [Hin | Hout].
  - rewrite (bool_decide_eq_true_2 (id ∈ ids)) by done.
    rewrite (bool_decide_eq_true_2 (id ∈ (ids ++ mjoin chunks)%list)) by set_solver.
    case_bool_decide; [|done]. rewrite <- option_fmap_compose.
    by destruct (documents db !! id).
  - rewrite (bool_decide_eq_false_2 (id ∈ ids)) by done.
    case_bool_decide.
    + rewrite bool_decide_eq_true_2 by set_solver. done.
    + rewrite bool_decide_eq_false_2 by set_solver. done.
Qed.

Lemma employees_update_hold_chunks chunks v db :
  employees (foldl (fun d ids => update_hold ids v d) db chunks) = employees db.
Proof. revert db. induction chunks as [|ids chunks IH]; intros db; simpl; [done|]. by rewrite IH. Qed.

(** *** The run without faults *)

Section WithHost.
Context {host : Host}.

Lemma update_chunks_ok v chunks counter w :
  Forall (fun ids : list string => (0 < length ids)%nat) chunks ->
  update_chunks noFaults v chunks counter w =
    (Ok (counter + Z.of_nat (length (mjoin chunks))),
     {| db := foldl (fun d ids => update_hold ids v d) (db w) chunks;
        page := page w;
        sent := (length chunks + sent w)%nat;
        writes := writes w ++ ((fun ids => SetHold ids v) <$> chunks) |}).
Proof.
  intros Hne. revert counter w.
  induction Hne as [|ids chunks Hids _ IH]; intros counter w; simpl.
  - rewrite Z.add_0_r, app_nil_r. by destruct w.
  - destruct (Nat.eqb_spec (length ids) 0) as [|_]; [lia|].
    unfold mbind, M_bind, bind, command, noFaults. simpl.
    rewrite IH. simpl. f_equal.
    + f_equal. rewrite length_app. lia.
    + f_equal; [lia|]. by rewrite <- app_assoc.
Qed.

(** The run without faults: the documents of [activateDocIds] are put
    on hold, those of [removeDocIds] are released, in parts of at most
    500, and the two counts are reported. *)
Lemma hold_run_noFaults clock w :
  let act := activateDocIds (db w) in
  let rem := removeDocIds (db w) in
  exists w',
    runBatch noFaults clock w = (Ok tt, w') /\
    db w' = foldl (fun d ids => update_hold ids false d)
              (foldl (fun d ids => update_hold ids true d) (db w) (chunk act 500))
              (chunk rem 500) /\
    writes w' = (writes w ++ ((fun ids => SetHold ids true) <$> chunk act 500)
                          ++ ((fun ids => SetHold ids false) <$> chunk rem 500))%list /\
    status (page w') = "Successful: Legal Hold batch finished." /\
    same_layout (rows (page w')) (rows (page w)) /\
    shows (rows (page w')) "Legal Hold activated (Yes) for documents"
          (String_of_Z (Z.of_nat (length act))) /\
    shows (rows (page w')) "Legal Hold removed (No) for documents"
          (String_of_Z (Z.of_nat (length rem))).
Proof.
  destruct w as [db0 [busy0 status0 rows0] sent0 writes0].
  intros act rem. cbn [db page rows writes] in *.
  unfold runBatch. run_steps.
  change (docIds_with_employee_in _ (select_documents_hold false db0)) with act.
  change (docIds_with_employee_in _ (select_documents_hold true db0)) with rem.
  assert (Hparts : forall l : list string,
             Forall (fun ids : list string => (0 < length ids)%nat) (chunk l 500)).
  { intros l. rewrite chunk_LH. eapply Forall_impl; [apply chunk_parts; lia|].
    simpl. lia. }
  rewrite (update_chunks_ok true (chunk act 500)) by done.
  run_steps.
  rewrite (update_chunks_ok false (chunk rem 500)) by done.
  run_steps.
  rewrite !chunk_LH, !join_chunk, <- !chunk_LH by lia.
  eexists. split; [reflexivity|].
  run_steps.
  split; [done|]. split; [by rewrite <- app_assoc|]. split; [done|].
  split; [layout_tac|]. rewrite !Z.add_0_l. split; shows_tac.
Qed.

(** The two selections of one snapshot have no document in common. *)
Lemma activate_remove_disjoint db id :
  id ∈ activateDocIds db -> id ∈ removeDocIds db -> False.
Proof.
  unfold activateDocIds, removeDocIds.
  intros (doc & _ & Hdoc & Hhold & _)%(elem_of_docIds true)
         (doc' & _ & Hdoc' & Hhold' & _)%(elem_of_docIds false).
  simpl in *. congruence.
Qed.

Lemma elem_of_chunk (arr : list string) size ids id :
  (0 < size)%nat -> ids ∈ chunk arr size -> id ∈ ids -> id ∈ arr.
Proof.
  intros Hsize Hids Hid. rewrite chunk_LH in Hids.
  rewrite <- (join_chunk arr size Hsize). apply list_elem_of_join. eauto.
Qed.


(** The writes of a run, whichever requests fail: each one is a part of
    the list it was cut from. *)
Lemma update_chunks_any faults v chunks counter w :
  exists r w' done,
    update_chunks faults v chunks counter w = (r, w') /\
    page w' = page w /\
    writes w' = (writes w ++ ((fun ids => SetHold ids v) <$> done))%list /\
    (forall ids, ids ∈ done -> ids ∈ chunks).
Proof.
  revert counter w. induction chunks as [|ids chunks IH]; intros counter w; simpl.
  - exists (Ok counter), w, []. rewrite app_nil_r. set_solver.
  - destruct (length ids =? 0)%nat.
    { destruct (IH counter w) as (r & w' & done & Hrun & Hp & Hw & Hin).
      exists r, w', done. set_solver. }
    unfold mbind, M_bind, bind, command. destruct (faults (sent w)) as [e|].
    + exists (Thrown e), (sending w), []. simpl. rewrite app_nil_r. set_solver.
    + match goal with |- context [update_chunks _ _ _ ?c ?w1] =>
        destruct (IH c w1) as (r & w' & done & Hrun & Hp & Hw & Hin) end.
      exists r, w', (ids :: done). rewrite Hrun. simpl in *.
      rewrite Hp, Hw, <- app_assoc. set_solver.
Qed.

(** C10: the documents selected for activation and those selected for
    removal from one snapshot are disjoint, since the former have the
    flag false and the latter have it true; so in a run, whichever
    requests fail, no document is both written with [e_lhold] true and
    written with [e_lhold] false. *)
Theorem no_document_written_both_ways faults clock w :
  (forall id, id ∈ activateDocIds (db w) -> id ∉ removeDocIds (db w)) /\
  exists new : list Write,
    writes (runBatch faults clock w).2 = (writes w ++ new)%list /\
    forall ids1 ids2 id,
      SetHold ids1 true ∈ new -> SetHold ids2 false ∈ new ->
      id ∈ ids1 -> id ∉ ids2.
Proof.
  split; [intros id Ha Hr; exact (activate_remove_disjoint _ _ Ha Hr)|].
  assert (Hgoal : forall new : list Write,
    (forall wr, wr ∈ new ->
       (exists ids, wr = SetHold ids true /\ ids ∈ chunk (activateDocIds (db w)) 500) \/
       (exists ids, wr = SetHold ids false /\ ids ∈ chunk (removeDocIds (db w)) 500)) ->
    forall ids1 ids2 id,
      SetHold ids1 true ∈ new -> SetHold ids2 false ∈ new -> id ∈ ids1 -> id ∉ ids2).
  { intros new Hnew ids1 ids2 id H1 H2 Hid1 Hid2.
    destruct (Hnew _ H1) as [(? & [= <-] & Hc1) | (? & [=] & _)].
    destruct (Hnew _ H2) as [(? & [=] & _) | (? & [= <-] & Hc2)].
    apply (activate_remove_disjoint (db w) id).
    - apply (elem_of_chunk _ 500 ids1); [lia | done | done].
    - apply (elem_of_chunk _ 500 ids2); [lia | done | done]. }
  destruct w as [db0 [busy0 status0 rows0] sent0 writes0]. cbn [db writes] in *.
  unfold runBatch. run_steps.
  destruct (faults sent0), (faults (S sent0)), (faults (S (S sent0)));
    try (exists []; rewrite app_nil_r; split; [reflexivity | set_solver]).
  run_steps.
  repeat (match goal with
          | |- context [match faults ?k with _ => _ end] => destruct (faults k)
          end; run_steps;
          try (exists []; rewrite app_nil_r; split; [reflexivity | set_solver])).
  match goal with |- context [update_chunks faults true ?c ?n ?w1] =>
    destruct (update_chunks_any faults true c n w1)
      as (r1 & [db1 page1 sent1 writes1] & done1 & -> & Hp1 & Hw1 & Hin1) end.
  cbn [page writes] in Hp1, Hw1. subst page1 writes1.
  destruct r1 as [activated|e]; run_steps;
    [|eexists; split; [reflexivity|]; apply Hgoal;
      intros wr (ids & -> & Hids)%list_elem_of_fmap; left; eauto].
  match goal with |- context [update_chunks faults false ?c ?n ?w1] =>
    destruct (update_chunks_any faults false c n w1)
      as (r2 & [db2 page2 sent2 writes2] & done2 & -> & Hp2 & Hw2 & Hin2) end.
  cbn [page writes] in Hp2, Hw2. subst page2 writes2.
  assert (Hboth : forall wr,
    wr ∈ (((fun ids => SetHold ids true) <$> done1)
          ++ ((fun ids => SetHold ids false) <$> done2))%list ->
    (exists ids, wr = SetHold ids true /\ ids ∈ chunk (activateDocIds db0) 500) \/
    (exists ids, wr = SetHold ids false /\ ids ∈ chunk (removeDocIds db0) 500)).
  { intros wr [(ids & -> & Hids)%list_elem_of_fmap | (ids & -> & Hids)%list_elem_of_fmap]%elem_of_app;
      [left | right]; eauto. }
  destruct r2 as [removed|e]; run_steps.
  - destruct (faults sent2), (faults (S sent2)), (faults (S (S sent2))); run_steps;
      (eexists; split; [by rewrite <- app_assoc|]; by apply Hgoal).
  - eexists; split; [by rewrite <- app_assoc|]; by apply Hgoal.
Qed.

End WithHost.

End LegalHold.

(** ** The run of the Retention Status Resolver *)

Module RetentionRun.
Import JS Store BatchRet Text Runs Calendar DateFacts Resolver.

Section WithHost.
Context {host : Host}.

Implicit Types (today : Date) (empMap : gmap string EmpMini.t) (d : RetDoc.t) (db : Db).

(** *** The loop over the documents *)

Lemma process_doc_queue today empMap counts ups d :
  (process_doc today empMap (counts, ups) d).2 = (ups ++ queued today empMap d)%list.
Proof.
  unfold process_doc, queued, changed, update_for.
  destruct (String.eqb (RetDoc.d_id d) ""); [by rewrite app_nil_r|].
  destruct (resolve today empMap d) as [st del]. simpl.
  case_match; simpl; [done | by rewrite app_nil_r].
Qed.

Lemma process_docs_queue_from today empMap acc docs :
  (foldl (process_doc today empMap) acc docs).2
  = (acc.2 ++ mjoin (queued today empMap <$> docs))%list.
Proof.
  revert acc. induction docs as [|d docs IH]; intros [counts ups].
  - simpl. by rewrite app_nil_r.
  - cbn [foldl]. rewrite IH, process_doc_queue, fmap_cons. simpl.
    by rewrite app_assoc.
Qed.

(** The queue of updates holds, in the order of the documents, one
    update for every document with an identifier whose stored pair
    differs from the new one. *)
Lemma process_docs_queue today empMap docs :
  (process_docs today empMap docs).2 = mjoin (queued today empMap <$> docs).
Proof. unfold process_docs. by rewrite process_docs_queue_from. Qed.

(** *** What the batch reads *)

Lemma elem_of_select_documents db d :
  d ∈ select_documents db <->
  exists row, documents db !! RetDoc.d_id d = Some row /\ d = doc_of_row (RetDoc.d_id d) row.
Proof.
  unfold select_documents. rewrite list_elem_of_fmap. split.
  - intros ([k row] & -> & Hin). apply elem_of_map_to_list in Hin. simpl. eauto.
  - intros (row & Hrow & Hd). exists (RetDoc.d_id d, row).
    split; [done|]. by apply elem_of_map_to_list.
Qed.

Lemma elem_of_select_employees_in part db e :
  e ∈ select_employees_in part db <->
  EmpMini.e_id e ∈ part /\
  exists row, employees db !! EmpMini.e_id e = Some row /\ e = emp_of_row (EmpMini.e_id e) row.
Proof.
  unfold select_employees_in. rewrite list_elem_of_fmap. split.
  - intros ([k row] & -> & [Hp Hin]%list_elem_of_filter).
    apply elem_of_map_to_list in Hin. simpl in *. eauto.
  - intros (Hp & row & Hrow & He). exists (EmpMini.e_id e, row). split; [done|].
    apply list_elem_of_filter. split; [done|]. by apply elem_of_map_to_list.
Qed.

Lemma elem_of_dedupe seen xs x : x ∈ dedupe seen xs <-> x ∈ xs /\ x ∉ seen.
Proof.
  revert seen. induction xs as [|y xs IH]; intros seen; simpl.
  - split; [by intros ?%elem_of_nil | by intros [?%elem_of_nil _]].
  - case_bool_decide as Hy.
    + rewrite IH, elem_of_cons. naive_solver.
    + rewrite !elem_of_cons, IH, not_elem_of_union, elem_of_singleton.
      destruct (decide (x = y)); naive_solver.
Qed.

(** The employees asked for are those of the truthy [e_id]s. *)
Lemma elem_of_referenced_ids docs id :
  id ∈ referenced_ids docs <->
  exists d, d ∈ docs /\ RetDoc.e_id d = Some id /\ id <> "".
Proof.
  unfold referenced_ids. rewrite elem_of_dedupe, list_elem_of_omap. split.
  - intros [(d & Hd & He) _]. exists d. split; [done|].
    destruct (RetDoc.e_id d) as [[|c r]|]; simpl in He; by simplify_eq.
  - intros (d & Hd & He & Hne). split; [|set_solver]. exists d. split; [done|].
    rewrite He. by destruct id.
Qed.

Lemma lookup_insert_employees db empMap emps id :
  (forall e, e ∈ emps ->
     exists row, employees db !! EmpMini.e_id e = Some row /\
                 e = emp_of_row (EmpMini.e_id e) row) ->
  insert_employees empMap emps !! id =
    if bool_decide (id ∈ EmpMini.e_id <$> emps)
    then emp_of_row id <$> employees db !! id else empMap !! id.
Proof.
  unfold insert_employees. revert empMap.
  induction emps as [|e emps IH]; intros empMap Hrows; simpl; [done|].
  rewrite IH by (intros; apply Hrows; set_solver).
  destruct (Hrows e ltac:(set_solver)) as (row & Hrow & He).
  case_bool_decide as Hin.
  - rewrite bool_decide_eq_true_2 by set_solver. done.
  - destruct (decide (EmpMini.e_id e = id)) as [<- | Hne].
    + rewrite bool_decide_eq_true_2 by set_solver.
      rewrite lookup_insert_eq, Hrow. simpl. by f_equal.
    + rewrite bool_decide_eq_false_2 by set_solver.
      by rewrite lookup_insert_ne.
Qed.

Lemma lookup_load_part db empMap part id :
  insert_employees empMap (select_employees_in part db) !! id =
    if bool_decide (id ∈ part)
    then match employees db !! id with
         | Some row => Some (emp_of_row id row)
         | None => empMap !! id
         end
    else empMap !! id.
Proof.
  rewrite (lookup_insert_employees db)
    by (intros e He; apply elem_of_select_employees_in in He; tauto).
  case_bool_decide as Hin.
  - apply list_elem_of_fmap in Hin as (e & -> & He).
    apply elem_of_select_employees_in in He as (Hp & row & Hrow & He).
    rewrite bool_decide_eq_true_2, Hrow by done. done.
  - case_bool_decide as Hp; [|done].
    destruct (employees db !! id) as [row|] eqn:Hrow; [|done].
    destruct Hin. apply list_elem_of_fmap. exists (emp_of_row id row).
    split; [done|]. apply elem_of_select_employees_in. simpl. eauto.
Qed.

Lemma lookup_load_parts db empMap parts id :
  foldl (fun m part => insert_employees m (select_employees_in part db)) empMap parts !! id =
    if bool_decide (id ∈ mjoin parts)
    then match employees db !! id with
         | Some row => Some (emp_of_row id row)
         | None => empMap !! id
         end
    else empMap !! id.
Proof.
  revert empMap. induction parts as [|part parts IH]; intros empMap; simpl; [done|].
  rewrite IH, lookup_load_part.
  destruct (decide (id ∈ part)) as [Hp | Hp].
  - rewrite (bool_decide_eq_true_2 (id ∈ part)) by done.
    rewrite (bool_decide_eq_true_2 (id ∈ (part ++ mjoin parts)%list)) by set_solver.
    case_bool_decide; by destruct (employees db !! id).
  - rewrite (bool_decide_eq_false_2 (id ∈ part)) by done.
    case_bool_decide.
    + rewrite bool_decide_eq_true_2 by set_solver. done.
    + rewrite bool_decide_eq_false_2 by set_solver. done.
Qed.

(** The employee map of a run holds the employees that a document
    refers to, under their keys. *)
Lemma lookup_empMap_of db id :
  empMap_of db !! id =
    if bool_decide (id ∈ referenced_ids (select_documents db))
    then emp_of_row id <$> employees db !! id else None.
Proof.
  unfold empMap_of. rewrite lookup_load_parts, join_chunk by lia.
  case_bool_decide; [|done]. by destruct (employees db !! id).
Qed.

(** *** What the writes do to the store *)

Lemma with_retention_idemp st del row :
  Document.with_retention st del (Document.with_retention st del row)
  = Document.with_retention st del row.
Proof. done. Qed.

Lemma employees_apply_updates ups db :
  employees (foldl (fun store u => apply_write (write_of u) store) db ups) = employees db.
Proof. revert db. induction ups as [|u ups IH]; intros db; simpl; [done|]. by rewrite IH. Qed.

Lemma lookup_apply_updates (new : string -> string * option string) ups db id :
  (forall u, u ∈ ups ->
     (Update.d_r_status u, Update.d_r_deletion u) = new (Update.d_id u)) ->
  documents (foldl (fun store u => apply_write (write_of u) store) db ups) !! id =
    if bool_decide (id ∈ Update.d_id <$> ups)
    then Document.with_retention (new id).1 (new id).2 <$> documents db !! id
    else documents db !! id.
Proof.
  revert db. induction ups as [|u ups IH]; intros db Hnew; simpl; [done|].
  rewrite IH by (intros; apply Hnew; set_solver).
  pose proof (Hnew u ltac:(set_solver)) as Hu.
  unfold update_retention. simpl. rewrite lookup_alter.
  destruct (decide (Update.d_id u = id)) as [<- | Hne].
  - rewrite (bool_decide_eq_true_2 (_ ∈ _ :: _)) by set_solver.
    rewrite <- Hu. simpl.
    case_bool_decide; [|done]. rewrite <- option_fmap_compose.
    by destruct (documents db !! Update.d_id u).
  - case_bool_decide.
    + rewrite bool_decide_eq_true_2 by set_solver. done.
    + rewrite bool_decide_eq_false_2 by set_solver. done.
Qed.

(** *** The run without faults *)

Lemma load_employees_ok parts empMap w :
  load_employees noFaults parts empMap w =
    (Ok (foldl (fun m part => insert_employees m (select_employees_in part (db w)))
               empMap parts),
     {| db := db w; page := page w; sent := (length parts + sent w)%nat;
        writes := writes w |}).
Proof.
  revert empMap w. induction parts as [|part parts IH]; intros empMap w; simpl.
  - by destruct w.
  - unfold mbind, M_bind, bind, query, noFaults. simpl. rewrite IH. simpl.
    do 2 f_equal. lia.
Qed.

Lemma for_of_apply_ok ups w :
  for_of ups (apply_update noFaults) w =
    (Ok tt,
     {| db := foldl (fun store u => apply_write (write_of u) store) (db w) ups;
        page := page w; sent := (length ups + sent w)%nat;
        writes := writes w ++ (write_of <$> ups) |}).
Proof.
  revert w. induction ups as [|u ups IH]; intros w; simpl.
  - rewrite app_nil_r. by destruct w.
  - unfold bind, apply_update, command, noFaults. simpl. rewrite IH. simpl.
    do 2 f_equal; [lia|]. by rewrite <- app_assoc.
Qed.

(** The run without faults: every update of the queue is written, one
    row at a time, and the counts are reported. *)
Lemma retention_run_noFaults clock w :
  let now := new_Date_value (Int (today clock)) in
  let ups := updates_of now (db w) in
  exists w',
    runBatch noFaults clock w = (Ok tt, w') /\
    db w' = foldl (fun store u => apply_write (write_of u) store) (db w) ups /\
    writes w' = (writes w ++ (write_of <$> ups))%list /\
    status (page w') = "Successful: Retention batch finished." /\
    same_layout (rows (page w')) (rows (page w)) /\
    shows (rows (page w')) "Total number of updated retention status"
          (String_of_Z (Z.of_nat (length ups))) /\
    (forall st, st ∈ ["not set"; "not started"; "started"; "legal hold"; "expired"] ->
       shows (rows (page w')) (countLabel st) (count_of (counts_of now (db w)) st)).
Proof.
  destruct w as [db0 [busy0 status0 rows0] sent0 writes0].
  intros now ups. cbn [db page rows writes] in *.
  unfold runBatch. run_steps.
  rewrite load_employees_ok. run_steps.
  change (foldl _ ∅ (chunk (referenced_ids (select_documents db0)) 500))
    with (empMap_of db0).
  change (new_Date_value (Int (today clock))) with now.
  unfold ups, updates_of, counts_of.
  destruct (process_docs now (empMap_of db0) (select_documents db0))
    as [statusCounts updates]. run_steps.
  rewrite for_of_join, join_chunk, for_of_apply_ok by lia. run_steps.
  eexists. split; [reflexivity|]. run_steps.
  split; [done|]. split; [done|]. split; [done|].
  split; [layout_tac|]. split; [shows_tac|].
  intros st Hst.
  repeat (apply elem_of_cons in Hst as [-> | Hst]); [..|by apply elem_of_nil in Hst];
    shows_tac.
Qed.

(** *** Two runs in succession *)

(** [resolve] reads the hold flag, the trigger, the month offset, the
    employee and the date of a document, not its stored status and
    deletion date. *)
Lemma resolve_with_retention today empMap id st del row :
  resolve today empMap (doc_of_row id (Document.with_retention st del row))
  = resolve today empMap (doc_of_row id row).
Proof. done. Qed.

(** What [resolve] returns is its own normal form. *)
Lemma norm_resolve today empMap d :
  norm (Some (resolve today empMap d).1) = (resolve today empMap d).1 /\
  norm (resolve today empMap d).2 = default "" (resolve today empMap d).2.
Proof.
  destruct (resolve_cases today empMap d) as [-> | [-> | [t ->]]]; simpl;
    [done | done |].
  split; [by case_match | apply norm_toISODate].
Qed.

Lemma queued_nil_iff today empMap d :
  queued today empMap d = [] <->
  RetDoc.d_id d = "" \/
  (norm (RetDoc.d_r_status d) = (resolve today empMap d).1 /\
   norm (RetDoc.d_r_deletion d) = default "" (resolve today empMap d).2).
Proof.
  unfold queued, changed. cbv zeta.
  destruct (String.eqb_spec (RetDoc.d_id d) ""); [tauto|].
  destruct (String.eqb_spec (norm (RetDoc.d_r_status d)) (resolve today empMap d).1),
    (String.eqb_spec (norm (RetDoc.d_r_deletion d)) (default "" (resolve today empMap d).2));
    simpl; naive_solver.
Qed.

Lemma elem_of_queued today empMap d u :
  u ∈ queued today empMap d -> u = update_for today empMap d /\ queued today empMap d <> [].
Proof.
  unfold queued. repeat case_match; try by intros ?%elem_of_nil.
  intros ->%list_elem_of_singleton. done.
Qed.

Lemma elem_of_updates_of today db u :
  u ∈ updates_of today db <->
  exists row, documents db !! Update.d_id u = Some row /\
    u ∈ queued today (empMap_of db) (doc_of_row (Update.d_id u) row).
Proof.
  unfold updates_of. rewrite process_docs_queue, list_elem_of_join. split.
  - intros (q & Hu & (d & -> & Hd)%list_elem_of_fmap).
    apply elem_of_select_documents in Hd as (row & Hrow & Hd).
    pose proof (elem_of_queued _ _ _ _ Hu) as [-> _]. simpl.
    exists row. split; [done|]. by rewrite <- Hd.
  - intros (row & Hrow & Hu). eexists. split; [exact Hu|].
    apply list_elem_of_fmap. eexists. split; [done|].
    apply elem_of_select_documents. simpl. eauto.
Qed.

(** The store after the writes of a run: the documents of the queue
    carry their new pair, the others are as before. *)
Lemma lookup_after_run today db id :
  documents (foldl (fun store u => apply_write (write_of u) store) db (updates_of today db)) !! id
  = (fun row =>
       let d := doc_of_row id row in
       if bool_decide (queued today (empMap_of db) d = []) then row
       else Document.with_retention (resolve today (empMap_of db) d).1
                                    (resolve today (empMap_of db) d).2 row)
    <$> documents db !! id.
Proof.
  set (new := fun k => match documents db !! k with
                       | Some row => resolve today (empMap_of db) (doc_of_row k row)
                       | None => ("", None)
                       end).
  rewrite (lookup_apply_updates new).
  - destruct (documents db !! id) as [row|] eqn:Hrow; simpl; [|by case_bool_decide].
    unfold new. rewrite Hrow.
    case_bool_decide as Hin; case_bool_decide as Hq; try done.
    + apply list_elem_of_fmap in Hin as (u & -> & Hu).
      apply elem_of_updates_of in Hu as (row' & Hrow' & Hu).
      rewrite Hrow in Hrow'. injection Hrow' as <-.
      rewrite Hq in Hu. by apply elem_of_nil in Hu.
    + destruct Hin. apply list_elem_of_fmap.
      exists (update_for today (empMap_of db) (doc_of_row id row)). split; [done|].
      apply elem_of_updates_of. exists row. split; [done|]. simpl.
      unfold queued in *. repeat case_match; try done. apply list_elem_of_singleton. done.
  - intros u (row & Hrow & Hu)%elem_of_updates_of.
    apply elem_of_queued in Hu as [Hu _]. unfold new. rewrite Hrow.
    rewrite Hu at 1 2. simpl. by destruct (resolve _ _ _).
Qed.


Lemma select_documents_after_run today db d1 :
  d1 ∈ select_documents (after_run today db) ->
  exists row,
    documents db !! RetDoc.d_id d1 = Some row /\
    let d := doc_of_row (RetDoc.d_id d1) row in
    RetDoc.e_id d1 = RetDoc.e_id d /\
    (forall now, resolve now (empMap_of db) d1 = resolve now (empMap_of db) d) /\
    (RetDoc.d_id d1 = "" \/
     (norm (RetDoc.d_r_status d1) = (resolve today (empMap_of db) d).1 /\
      norm (RetDoc.d_r_deletion d1) = default "" (resolve today (empMap_of db) d).2)).
Proof.
  intros (row1 & Hrow1 & ->)%elem_of_select_documents. simpl in *.
  unfold after_run in Hrow1. rewrite lookup_after_run in Hrow1.
  destruct (documents db !! RetDoc.d_id d1) as [row|] eqn:Hrow; [|done].
  exists row. split; [done|]. simpl in Hrow1. injection Hrow1 as <-.
  case_bool_decide as Hq.
  - split; [done|]. split; [done|]. by apply queued_nil_iff in Hq.
  - split; [done|]. split; [done|]. right.
    apply (norm_resolve today (empMap_of db) (doc_of_row (RetDoc.d_id d1) row)).
Qed.

Lemma select_documents_before_run today db d :
  d ∈ select_documents db ->
  exists d1, d1 ∈ select_documents (after_run today db) /\ RetDoc.e_id d1 = RetDoc.e_id d.
Proof.
  intros (row & Hrow & ->)%elem_of_select_documents. simpl in *.
  pose proof (lookup_after_run today db (RetDoc.d_id d)) as Hl.
  fold (after_run today db) in Hl.
  rewrite Hrow in Hl. simpl in Hl.
  eexists (doc_of_row (RetDoc.d_id d) _). split.
  - apply elem_of_select_documents. simpl. eauto.
  - simpl. by case_bool_decide.
Qed.

(** The second run finds the same employees. *)
Lemma empMap_of_after_run today db : empMap_of (after_run today db) = empMap_of db.
Proof.
  apply map_eq. intros id. rewrite !lookup_empMap_of.
  assert (Hemp : employees (after_run today db) = employees db) by apply employees_apply_updates.
  rewrite Hemp.
  assert (Hiff : id ∈ referenced_ids (select_documents (after_run today db)) <->
                 id ∈ referenced_ids (select_documents db)).
  { rewrite !elem_of_referenced_ids. split.
    - intros (d1 & Hd1 & He & Hne).
      destruct (select_documents_after_run today db d1 Hd1) as (row & Hrow & He1 & _).
      eexists. split; [|split; [by rewrite <- He1|done]].
      apply elem_of_select_documents. simpl. eauto.
    - intros (d & Hd & He & Hne).
      destruct (select_documents_before_run today db d Hd) as (d1 & Hd1 & He1).
      exists d1. by rewrite He1. }
  by repeat case_bool_decide; try tauto.
Qed.



End WithHost.
End RetentionRun.

(** ** Runs that fail *)

Module Failures.
Import JS Store Text Runs.




Section WithHost.
Context {host : Host}.
Variable faults : nat -> option string.






End WithHost.
End Failures.

(** ** Writes and reports of whole runs *)

Module Reports.
Import JS Store Text Runs Calendar DateFacts Resolver.

Section WithHost.
Context {host : Host}.



End WithHost.

Import Samples.




End Reports.

(** ** What the pages print *)

Module Formats.
Import JS Store BatchRet Calendar DateFacts Text.

(** *** Decimal digits of small numbers

    The numbers printed by the pages into fixed positions are calendar
    fields; what [String] and [padStart] make of them is checked by
    running them on the whole range. *)

Lemma two_digits_range :
  forallb (fun k : nat =>
             match padStart0 (String_of_Z (Z.of_nat k)) 2 with
             | String a (String b "") =>
                 match digits 0 (String a (String b "")) with
                 | Some v => v =? Z.of_nat k
                 | None => false
                 end
             | _ => false
             end) (seq 0 (Z.to_nat 100)) = true.
Proof. vm_compute. reflexivity. Qed.

Lemma three_digits_range :
  forallb (fun k : nat =>
             match padStart0 (String_of_Z (Z.of_nat k)) 3 with
             | String a (String b (String c "")) =>
                 match digits 0 (String a (String b (String c ""))) with
                 | Some v => v =? Z.of_nat k
                 | None => false
                 end
             | _ => false
             end) (seq 0 (Z.to_nat 1000)) = true.
Proof. vm_compute. reflexivity. Qed.

Lemma four_digits_range :
  forallb (fun k : nat =>
             match String_of_Z (1000 + Z.of_nat k) with
             | String a (String b (String c (String d ""))) =>
                 match digits 0 (String a (String b (String c (String d "")))) with
                 | Some v => v =? 1000 + Z.of_nat k
                 | None => false
                 end
             | _ => false
             end) (seq 0 (Z.to_nat 9000)) = true.
Proof. vm_compute. reflexivity. Qed.

(** A number from 0 to 99, padded to two places, is two digits that
    read as the number. *)
Lemma two_digits n :
  0 <= n <= 99 ->
  String.length (padStart0 (String_of_Z n) 2) = 2%nat /\
  digits 0 (padStart0 (String_of_Z n) 2) = Some n.
Proof.
  intros Hn. pose proof two_digits_range as Hall.
  rewrite forallb_forall in Hall. specialize (Hall (Z.to_nat n)).
  rewrite Z2Nat.id in Hall by lia.
  assert (Hin : In (Z.to_nat n) (seq 0 (Z.to_nat 100))) by (apply in_seq; lia).
  specialize (Hall Hin).
  destruct (padStart0 (String_of_Z n) 2) as [|a [|b [|c r]]]; try discriminate.
  split; [done|].
  destruct (digits 0 (String a (String b ""))) as [v|]; [|discriminate].
  apply Z.eqb_eq in Hall. by subst.
Qed.

Lemma three_digits n :
  0 <= n <= 999 ->
  String.length (padStart0 (String_of_Z n) 3) = 3%nat /\
  digits 0 (padStart0 (String_of_Z n) 3) = Some n.
Proof.
  intros Hn. pose proof three_digits_range as Hall.
  rewrite forallb_forall in Hall. specialize (Hall (Z.to_nat n)).
  rewrite Z2Nat.id in Hall by lia.
  assert (Hin : In (Z.to_nat n) (seq 0 (Z.to_nat 1000))) by (apply in_seq; lia).
  specialize (Hall Hin).
  destruct (padStart0 (String_of_Z n) 3) as [|a [|b [|c [|d r]]]]; try discriminate.
  split; [done|].
  destruct (digits 0 (String a (String b (String c "")))) as [v|]; [|discriminate].
  apply Z.eqb_eq in Hall. by subst.
Qed.

Lemma four_digits y :
  1000 <= y <= 9999 ->
  String.length (String_of_Z y) = 4%nat /\ digits 0 (String_of_Z y) = Some y.
Proof.
  intros Hy. pose proof four_digits_range as Hall.
  rewrite forallb_forall in Hall. specialize (Hall (Z.to_nat (y - 1000))).
  rewrite Z2Nat.id in Hall by lia.
  replace (1000 + (y - 1000)) with y in Hall by lia.
  assert (Hin : In (Z.to_nat (y - 1000)) (seq 0 (Z.to_nat 9000))) by (apply in_seq; lia).
  specialize (Hall Hin).
  destruct (String_of_Z y) as [|a [|b [|c [|d [|e r]]]]]; try discriminate.
  split; [done|].
  destruct (digits 0 (String a (String b (String c (String d ""))))) as [v|];
    [|discriminate].
  apply Z.eqb_eq in Hall. by subst.
Qed.


Section WithHost.
Context {host : Host}.

Lemma time_fields_range x :
  0 <= HourFromTime x <= 99 /\ 0 <= MinFromTime x <= 99 /\
  0 <= SecFromTime x <= 99 /\ 0 <= msFromTime x <= 999.
Proof.
  unfold HourFromTime, MinFromTime, SecFromTime, msFromTime,
    msPerHour, msPerMinute, msPerSecond.
  repeat split; zdiv.
Qed.

(** X1: the time printed for a valid date has twelve characters,
    HH:MM:SS.mmm: two digits for the hours, the minutes and the seconds
    and three for the milliseconds of the local time, which read back as
    these numbers, with the separators in between.  Both pages print it
    the same way; an invalid date is printed as NaN:NaN:NaN.NaN. *)
Theorem fmtTimeWithMs_reads_back t :
  let s := fmtTimeWithMs (Some t) in
  let lt := LocalTime t in
  String.length s = 12%nat /\
  digits 0 (substring 0 2 s) = Some (HourFromTime lt) /\
  substring 2 1 s = ":" /\
  digits 0 (substring 3 2 s) = Some (MinFromTime lt) /\
  substring 5 1 s = ":" /\
  digits 0 (substring 6 2 s) = Some (SecFromTime lt) /\
  substring 8 1 s = "." /\
  digits 0 (substring 9 3 s) = Some (msFromTime lt) /\
  BatchLH.fmtTimeWithMs (Some t) = s /\
  fmtTimeWithMs None = "NaN:NaN:NaN.NaN".
Proof.
  intros s lt. subst s.
  destruct (time_fields_range lt) as (Hh & Hm & Hs & Hms).
  destruct (two_digits _ Hh) as [Lh Dh], (two_digits _ Hm) as [Lm Dm],
    (two_digits _ Hs) as [Ls Ds], (three_digits _ Hms) as [Lms Dms].
  unfold BatchLH.fmtTimeWithMs, BatchLH.pad2, BatchLH.pad3, fmtTimeWithMs, pad2, pad3.
  cbn [getHours getMinutes getSeconds getMilliseconds String_of_number]. fold lt.
  destruct (padStart0 (String_of_Z (HourFromTime lt)) 2) as [|h1 [|h2 [|]]];
    try discriminate Lh.
  destruct (padStart0 (String_of_Z (MinFromTime lt)) 2) as [|m1 [|m2 [|]]];
    try discriminate Lm.
  destruct (padStart0 (String_of_Z (SecFromTime lt)) 2) as [|s1 [|s2 [|]]];
    try discriminate Ls.
  destruct (padStart0 (String_of_Z (msFromTime lt)) 3) as [|u1 [|u2 [|u3 [|]]]];
    try discriminate Lms.
  repeat split; done.
Qed.

(** The text of a date with a four-digit year, digit by digit. *)
Lemma toISODate_text t :
  let lt := LocalTime t in
  1000 <= YearFromTime lt <= 9999 ->
  exists y1 y2 y3 y4 m1 m2 d1 d2,
    toISODate (Some t)
    = String y1 (String y2 (String y3 (String y4 (String "-"
        (String m1 (String m2 (String "-" (String d1 (String d2 ""))))))))) /\
    digits 0 (String y1 (String y2 (String y3 (String y4 "")))) = Some (YearFromTime lt) /\
    digits 0 (String m1 (String m2 "")) = Some (MonthFromTime lt + 1) /\
    digits 0 (String d1 (String d2 "")) = Some (DateFromTime lt).
Proof.
  intros lt Hy.
  destruct (fields_valid lt) as (HM & HD & _).
  pose proof (DaysInMonth_bounds (YearFromTime lt) (MonthFromTime lt)) as Hdim.
  destruct (four_digits _ Hy) as [Ly Dy].
  destruct (two_digits (MonthFromTime lt + 1) ltac:(lia)) as [Lm Dm].
  destruct (two_digits (DateFromTime lt) ltac:(lia)) as [Ld Dd].
  unfold toISODate. cbv zeta.
  cbn [getFullYear getMonth getDate add String_of_number]. fold lt.
  destruct (String_of_Z (YearFromTime lt)) as [|y1 [|y2 [|y3 [|y4 [|]]]]];
    try discriminate Ly.
  destruct (padStart0 (String_of_Z (MonthFromTime lt + 1)) 2) as [|m1 [|m2 [|]]];
    try discriminate Lm.
  destruct (padStart0 (String_of_Z (DateFromTime lt)) 2) as [|d1 [|d2 [|]]];
    try discriminate Ld.
  by exists y1, y2, y3, y4, m1, m2, d1, d2.
Qed.

(** What the ISO reader makes of ten characters that spell a date of
    the calendar. *)
Lemma Date_parse_iso_text y1 y2 y3 y4 m1 m2 d1 d2 y m d :
  digits 0 (String y1 (String y2 (String y3 (String y4 "")))) = Some y ->
  digits 0 (String m1 (String m2 "")) = Some m ->
  digits 0 (String d1 (String d2 "")) = Some d ->
  1 <= m <= 12 -> 1 <= d <= DaysInMonth y (m - 1) ->
  Date_parse_iso
    (String y1 (String y2 (String y3 (String y4 (String "-"
       (String m1 (String m2 (String "-" (String d1 (String d2 ""))))))))))
  = Int (MakeDate (MakeDay y (m - 1) d) 0).
Proof.
  intros Dy Dm Dd Hm Hd. unfold Date_parse_iso.
  lazy beta iota fix zeta delta
    [String.length Nat.eqb substring String.eqb Ascii.eqb Bool.eqb].
  cbn [andb negb]. rewrite Dy, Dm, Dd.
  replace ((1 <=? m) && (m <=? 12) && (1 <=? d) && (d <=? DaysInMonth y (m - 1)))
    with true; [done|].
  symmetry. repeat (apply andb_true_iff; split); lia.
Qed.

(** X2: for a date whose local year has four digits, [toISODate] prints
    ten characters that the ISO reader accepts, and what it reads is the
    midnight (UTC) of the local calendar day of the date. *)
Theorem toISODate_parses_back t :
  1000 <= YearFromTime (LocalTime t) <= 9999 ->
  String.length (toISODate (Some t)) = 10%nat /\
  Date_parse_iso (toISODate (Some t)) = Int (MakeDate (Day (LocalTime t)) 0).
Proof.
  intros Hy. set (lt := LocalTime t) in *.
  destruct (toISODate_text t Hy) as (y1 & y2 & y3 & y4 & m1 & m2 & d1 & d2 & -> & Dy & Dm & Dd).
  fold lt in Dy, Dm, Dd. split; [done|].
  destruct (fields_valid lt) as (HM & HD & ->).
  rewrite (Date_parse_iso_text _ _ _ _ _ _ _ _ _ _ _ Dy Dm Dd).
  - by replace (MonthFromTime lt + 1 - 1) with (MonthFromTime lt) by lia.
  - lia.
  - by replace (MonthFromTime lt + 1 - 1) with (MonthFromTime lt) by lia.
Qed.

End WithHost.

(** The days of the years with four digits are within the range of
    [Date]. *)
Lemma four_digit_year_in_range x :
  1000 <= YearFromTime x <= 9999 -> Z.abs (Day x * msPerDay) <= maxTime.
Proof.
  intros Hy. pose proof (YearFromDay_spec (Day x)) as [Hlo Hhi].
  fold (YearFromTime x) in Hlo, Hhi.
  pose proof (DayFromYear_mono 1000 (YearFromTime x) ltac:(lia)) as H1.
  pose proof (DayFromYear_mono (YearFromTime x + 1) 10000 ltac:(lia)) as H2.
  assert (E1 : DayFromYear 1000 = -354285) by reflexivity.
  assert (E2 : DayFromYear 10000 = 2932897) by reflexivity.
  unfold msPerDay, maxTime. lia.
Qed.

(** X3: on a machine whose clock is on UTC or ahead of it (by less than
    a day), a date printed by [toISODate] and read again by [new Date]
    prints as the same date: the deletion dates written by the batch are
    stable.  A stored date is read at midnight UTC, so on a machine
    whose clock is behind UTC it prints as the day before. *)
Theorem toISODate_round_trip offset t :
  1000 <= YearFromTime (t + offset) <= 9999 ->
  let host := isoHost offset in
  let printed := @toISODate host (Some t) in
  (0 <= offset < msPerDay ->
     @toISODate host (@new_Date_string host printed) = printed) /\
  (- msPerDay <= offset < 0 ->
     @toISODate host (@new_Date_string host printed)
     = @toISODate host (Some (t - msPerDay))).
Proof.
  intros Hy host printed. subst printed host.
  assert (Hread : @new_Date_string (isoHost offset) (@toISODate (isoHost offset) (Some t))
                  = Some (Day (t + offset) * msPerDay)).
  { unfold new_Date_string. cbn [Date_parse isoHost].
    destruct (@toISODate_text (isoHost offset) t Hy)
      as (y1 & y2 & y3 & y4 & m1 & m2 & d1 & d2 & -> & Dy & Dm & Dd).
    destruct (fields_valid (t + offset)) as (HM & HD & Hday).
    rewrite (Date_parse_iso_text _ _ _ _ _ _ _ _ _ _ _ Dy Dm Dd);
      unfold LocalTime; cbn [LocalTZA isoHost];
      replace (MonthFromTime (t + offset) + 1 - 1) with (MonthFromTime (t + offset))
        by lia; [|lia|done].
    rewrite <- Hday. cbn [new_Date_value]. unfold MakeDate. rewrite Z.add_0_r.
    apply TimeClip_Some. by apply four_digit_year_in_range. }
  rewrite Hread.
  assert (Hsame : forall a b,
            Day (@LocalTime (isoHost offset) a) = Day (@LocalTime (isoHost offset) b) ->
            @toISODate (isoHost offset) (Some a) = @toISODate (isoHost offset) (Some b)).
  { intros a b Hd. destruct (fields_same_day _ _ Hd) as (E1 & E2 & E3).
    unfold toISODate. cbn [getFullYear getMonth getDate]. by rewrite E1, E2, E3. }
  split; intros Hoff; apply Hsame; unfold LocalTime; cbn [LocalTZA isoHost];
    unfold Day, msPerDay in *; zdiv.
Qed.


(** *** [norm] *)














Lemma toISODate_parses_back_witness :
  Date_parse_iso (@toISODate Samples.utc (Some 1717236000000)) = Int 1717200000000.
Proof.
  apply (@toISODate_parses_back Samples.utc 1717236000000). vm_compute.
  split; discriminate.
Defined.

Lemma toISODate_round_trip_witness :
  let host := isoHost 3600000 in
  @toISODate host (@new_Date_string host (@toISODate host (Some 1717236000000)))
  = @toISODate host (Some 1717236000000).
Proof.
  apply (toISODate_round_trip 3600000 1717236000000).
  - vm_compute. split; discriminate.
  - vm_compute. split; [discriminate | reflexivity].
Defined.

End Formats.

(** ** [chunk] *)

Module Chunks.
Import JS Store BatchRet Text Runs.

Lemma length_chunk_loop {T} (arr : list T) size turns i :
  (0 < size)%nat -> (length arr - i <= turns)%nat ->
  length (chunk_loop turns arr size i) = ((length arr - i + size - 1) / size)%nat.
Proof.
  intros Hsize. revert i. induction turns as [|k IH]; intros i Hturns; simpl.
  - symmetry. apply Nat.div_small. lia.
  - destruct (Nat.ltb_spec i (length arr)) as [Hlt | Hge]; simpl.
    + rewrite IH by lia.
      destruct (Nat.le_gt_cases size (length arr - i)) as [Hbig | Hsmall].
      * replace (length arr - i + size - 1)%nat
          with (length arr - (i + size) + size - 1 + 1 * size)%nat by lia.
        rewrite Nat.div_add by lia. lia.
      * replace (length arr - (i + size) + size - 1)%nat with (size - 1)%nat by lia.
        rewrite (Nat.div_small (size - 1)) by lia.
        apply (Nat.div_unique _ _ _ (length arr - i - 1)); lia.
    + symmetry. apply Nat.div_small. lia.
Qed.

Lemma lookup_chunk_loop {T} (arr : list T) size turns i k part :
  chunk_loop turns arr size i !! k = Some part ->
  part = take size (drop (i + k * size) arr).
Proof.
  revert i k. induction turns as [|n IH]; intros i k; simpl; [done|].
  destruct (Nat.ltb_spec i (length arr)) as [Hlt | Hge]; [|done].
  destruct k as [|k]; simpl.
  - intros [= <-]. unfold slice. f_equal; [lia | f_equal; lia].
  - intros Hk. rewrite (IH _ _ Hk). do 2 f_equal. lia.
Qed.

(** X5: [chunk] cuts a list into consecutive parts of [size] elements,
    the last one possibly shorter: the parts put together are the list,
    no part is empty or longer than [size], part number [k] starts at
    element [k * size], and there are [ceil (length / size)] of them.
    The two pages have the same [chunk]. *)
Theorem chunk_cuts_into_parts {T} (arr : list T) size :
  (0 < size)%nat ->
  mjoin (chunk arr size) = arr /\
  Forall (fun part => (0 < length part <= size)%nat) (chunk arr size) /\
  (forall k part, chunk arr size !! k = Some part ->
                  part = take size (drop (k * size) arr)) /\
  length (chunk arr size) = ((length arr + size - 1) / size)%nat /\
  BatchLH.chunk arr size = chunk arr size.
Proof.
  intros Hsize. split; [by apply join_chunk|]. split; [by apply chunk_parts|].
  split; [|split; [|done]].
  - intros k part Hk. apply (lookup_chunk_loop _ _ _ 0 k part Hk).
  - unfold chunk. rewrite length_chunk_loop by lia. by rewrite Nat.sub_0_r.
Qed.

Lemma chunk_cuts_into_parts_witness :
  mjoin (chunk [1; 2; 3; 4; 5] 2) = [1; 2; 3; 4; 5] /\
  length (chunk [1; 2; 3; 4; 5] 2) = 3%nat.
Proof.
  pose proof (chunk_cuts_into_parts [1; 2; 3; 4; 5] 2 ltac:(lia)) as (H1 & _ & _ & H2 & _).
  split; [exact H1 | exact H2].
Defined.

End Chunks.

(** ** Month arithmetic *)

Module MonthArithmetic.
Import JS Store BatchRet Calendar DateFacts.


Section WithHost.
Context {host : Host}.










End WithHost.




End MonthArithmetic.

(** ** Expiry and the table of the resolver *)

Module Expiry.
Import JS Store BatchRet Calendar DateFacts Resolver.

Section WithHost.
Context {host : Host}.

Lemma lt_irrefl x : lt x x = false.
Proof. destruct x; simpl; [apply Z.ltb_irrefl | done..]. Qed.

(** X9: on the day of the deletion date itself a document is not yet
    expired; the time of day of either instant has no part in it. *)
Theorem deletion_day_not_expired del now :
  Day (LocalTime del) = Day (LocalTime now) ->
  isExpiredPerSpec (Some del) (Some now) = false.
Proof.
  intros Hd. unfold isExpiredPerSpec.
  rewrite (dateOnlyTs_same_day del now Hd). apply lt_irrefl.
Qed.

(** X10: a deletion date that is expired stays expired on every later
    day (for dates outside the years 0 to 99, whose local midnight is
    within the range of [Date]). *)
Theorem expired_stays_expired del t1 t2 :
  ~ (0 <= YearFromTime (LocalTime del) <= 99) ->
  ~ (0 <= YearFromTime (LocalTime t1) <= 99) ->
  ~ (0 <= YearFromTime (LocalTime t2) <= 99) ->
  Z.abs (UTC (Day (LocalTime del) * msPerDay)) <= maxTime ->
  Z.abs (UTC (Day (LocalTime t1) * msPerDay)) <= maxTime ->
  Z.abs (UTC (Day (LocalTime t2) * msPerDay)) <= maxTime ->
  t1 <= t2 ->
  isExpiredPerSpec (Some del) (Some t1) = true ->
  isExpiredPerSpec (Some del) (Some t2) = true.
Proof.
  intros Yd Y1 Y2 Rd R1 R2 Hle.
  rewrite !isExpiredPerSpec_days by done.
  intros H1%Z.ltb_lt. apply Z.ltb_lt.
  assert (Day (LocalTime t1) <= Day (LocalTime t2))
    by (unfold Day, LocalTime, msPerDay; zdiv).
  lia.
Qed.

(** [new Date(y, m, d)] reads a year from 0 to 99 as 1900 + y, so the
    date-only timestamp of an instant in the first century is that of the
    same day 1900 years later. *)
Lemma dateOnlyTs_first_century t :
  let lt := LocalTime t in
  0 <= YearFromTime lt <= 99 ->
  Z.abs (UTC (MakeDay (1900 + YearFromTime lt) (MonthFromTime lt) (DateFromTime lt)
              * msPerDay)) <= maxTime ->
  dateOnlyTs (Some t)
  = Int (UTC (MakeDay (1900 + YearFromTime lt) (MonthFromTime lt) (DateFromTime lt)
              * msPerDay)).
Proof.
  intros lt Hy Hr. unfold dateOnlyTs. cbn [getFullYear getMonth getDate new_Date_ymd].
  cbv zeta. fold lt.
  replace ((0 <=? YearFromTime lt) && (YearFromTime lt <=? 99)) with true
    by (symmetry; apply andb_true_iff; lia).
  unfold MakeTime, MakeDate. rewrite !Z.mul_0_l, !Z.add_0_r.
  by rewrite TimeClip_Some.
Qed.

Implicit Types (today : Date) (empMap : gmap string EmpMini.t) (d : RetDoc.t).


End WithHost.

Lemma deletion_day_not_expired_witness :
  @isExpiredPerSpec Samples.utc (Some 1717200000000) (Some 1717236000000) = false.
Proof. apply (@deletion_day_not_expired Samples.utc). reflexivity. Defined.

Lemma expired_stays_expired_witness :
  @isExpiredPerSpec Samples.utc (Some 1705276800000) (Some 1717236000000) = true.
Proof.
  apply (@expired_stays_expired Samples.utc 1705276800000 1717200000000 1717236000000);
    try (vm_compute; intros [H1 H2]; by destruct H2);
    try (vm_compute; discriminate); reflexivity.
Defined.

End Expiry.

(** ** The loop over the documents: employees and counters *)

Module Documents.
Import JS Store BatchRet Text Runs Calendar DateFacts Resolver RetentionRun.

Section WithHost.
Context {host : Host}.

Implicit Types (today : Date) (empMap : gmap string EmpMini.t) (d : RetDoc.t) (db : Db).

(** X12: the employee found for a document in the map that a run builds
    is the row that the store holds under the document's [e_id]; a
    document without [e_id], with an empty one, or with one that no
    employee has, finds nobody. *)
Theorem employee_of_empMap_of db id row :
  documents db !! id = Some row ->
  employee_of (empMap_of db) (Document.e_id row)
  = emp_of_row (default "" (Document.e_id row)) <$> referenced_employee db row.
Proof.
  intros Hrow. unfold employee_of, referenced_employee.
  destruct (truthy (Document.e_id row)) eqn:Ht; [|done].
  destruct (Document.e_id row) as [eid|] eqn:He; [|done]. simpl.
  rewrite lookup_empMap_of, bool_decide_eq_true_2; [done|].
  apply elem_of_referenced_ids. exists (doc_of_row id row). split.
  - apply elem_of_select_documents. simpl. eauto.
  - simpl. split; [done|]. intros ->. discriminate Ht.
Qed.

(** The number of documents of a list that are counted under a status:
    those with an identifier that the resolver gives this status. *)
Lemma count_step today empMap counts ups d st :
  default 0 ((process_doc today empMap (counts, ups) d).1 !! st)
  = default 0 (counts !! st)
    + (if bool_decide (RetDoc.d_id d <> "" /\ (resolve today empMap d).1 = st)
       then 1 else 0).
Proof.
  unfold process_doc.
  destruct (String.eqb_spec (RetDoc.d_id d) "") as [He | Hne].
  { rewrite bool_decide_eq_false_2 by tauto. simpl. lia. }
  destruct (resolve today empMap d) as [new del]. simpl.
  destruct (decide (new = st)) as [-> | Hst].
  - rewrite lookup_insert_eq, bool_decide_eq_true_2 by done. done.
  - rewrite lookup_insert_ne, bool_decide_eq_false_2 by tauto. simpl. lia.
Qed.

Lemma count_loop today empMap acc docs st :
  default 0 ((foldl (process_doc today empMap) acc docs).1 !! st)
  = default 0 (acc.1 !! st)
    + Z.of_nat (length (filter (fun d => RetDoc.d_id d <> "" /\
                                         (resolve today empMap d).1 = st) docs)).
Proof.
  revert acc. induction docs as [|d docs IH]; intros [counts ups].
  - simpl. lia.
  - cbn [foldl]. rewrite IH. destruct (process_doc today empMap (counts, ups) d) as [c1 u1] eqn:E.
    pose proof (count_step today empMap counts ups d st) as Hs. rewrite E in Hs.
    cbn [fst] in *. rewrite Hs, filter_cons.
    case_bool_decide as Hd.
    + rewrite decide_True by done. simpl length. lia.
    + rewrite decide_False by done. lia.
Qed.

(** The counters start at 0, and a status without counter counts as 0. *)
Lemma count_docs today empMap docs st :
  default 0 ((process_docs today empMap docs).1 !! st)
  = Z.of_nat (length (filter (fun d => RetDoc.d_id d <> "" /\
                                       (resolve today empMap d).1 = st) docs)).
Proof.
  unfold process_docs. rewrite count_loop. simpl.
  assert (Hinit : default 0 (initialCounts !! st) = 0).
  { unfold initialCounts.
    destruct (decide (st = "not set")) as [-> | ?]; [by rewrite lookup_insert_eq|].
    rewrite lookup_insert_ne by congruence.
    destruct (decide (st = "not started")) as [-> | ?]; [by rewrite lookup_insert_eq|].
    rewrite lookup_insert_ne by congruence.
    destruct (decide (st = "started")) as [-> | ?]; [by rewrite lookup_insert_eq|].
    rewrite lookup_insert_ne by congruence.
    destruct (decide (st = "legal hold")) as [-> | ?]; [by rewrite lookup_insert_eq|].
    rewrite lookup_insert_ne by congruence.
    destruct (decide (st = "expired")) as [-> | ?]; [by rewrite lookup_insert_eq|].
    by rewrite lookup_insert_ne by congruence. }
  rewrite Hinit. lia.
Qed.

(** X13: the counter of a status, after the loop over the documents, is
    the number of documents with an identifier that the resolver gives
    this status; the counter of "not set" is 0; and the four other
    counters add up to the number of documents with an identifier. *)
Theorem status_counts today empMap docs :
  let counts := (process_docs today empMap docs).1 in
  let count st := default 0 (counts !! st) in
  (forall st, count st
              = Z.of_nat (length (filter (fun d => RetDoc.d_id d <> "" /\
                                                   (resolve today empMap d).1 = st) docs))) /\
  count "not set" = 0 /\
  count "not started" + count "started" + count "legal hold" + count "expired"
  = Z.of_nat (length (filter (fun d => RetDoc.d_id d <> "") docs)).
Proof.
  intros counts count.
  assert (Hcount : forall st, count st
            = Z.of_nat (length (filter (fun d => RetDoc.d_id d <> "" /\
                                                 (resolve today empMap d).1 = st) docs)))
    by (intros st; apply count_docs).
  split; [exact Hcount|]. split.
  - rewrite Hcount.
    assert (Hnil : filter (fun d => RetDoc.d_id d <> "" /\
                                    (resolve today empMap d).1 = "not set") docs = []).
    { clear. induction docs as [|d docs IH]; [done|].
      rewrite filter_cons, decide_False; [exact IH|]. intros [_ Hst].
      destruct (resolve_cases today empMap d) as [E | [E | [t E]]]; rewrite E in Hst;
        simpl in Hst; try discriminate Hst. by case_match. }
    by rewrite Hnil.
  - rewrite !Hcount. clear. induction docs as [|d docs IH]; [done|].
    rewrite !filter_cons.
    destruct (decide (RetDoc.d_id d <> "")) as [Hid | Hid]; cycle 1.
    { rewrite !decide_False by tauto. exact IH. }
    simpl length. rewrite Nat2Z.inj_succ, <- IH.
    destruct (resolve_cases today empMap d) as [E | [E | [t E]]]; rewrite E; cbn [fst];
      [| |destruct (isExpiredPerSpec _ _)];
      repeat (first [ rewrite decide_True by (split; [done | reflexivity])
                    | rewrite decide_False by (intros [_ ?]; discriminate) ]);
      simpl length; lia.
Qed.

End WithHost.

Lemma employee_of_empMap_of_witness :
  @employee_of (@empMap_of Samples.store) (Some "E2")
  = Some (Samples.emp "E2" (Some "Terminated") (Some "2023-01-15")).
Proof.
  apply (employee_of_empMap_of Samples.store "B" (Samples.documentRow Samples.docB)).
  reflexivity.
Defined.

End Documents.

(** ** Runs of the Retention batch, whichever requests fail *)

Module RetentionEffects.
Import JS Store Trace BatchRet Text Runs Calendar DateFacts Resolver RetentionRun.

Lemma quiet_refl faults k : quiet faults k k.
Proof. intros j Hj. lia. Qed.

Lemma quiet_step faults from k :
  quiet faults from k -> faults k = None -> quiet faults from (S k).
Proof.
  intros Hq Hk j Hj. destruct (decide (j = k)) as [-> | Hne]; [done|]. apply Hq. lia.
Qed.

Lemma quiet_trans faults a b c :
  quiet faults a b -> quiet faults b c -> quiet faults a c.
Proof.
  intros H1 H2 j Hj. destruct (decide (j < b)%nat); [apply H1 | apply H2]; lia.
Qed.

Lemma first_failure_later faults a b k e :
  (a <= b)%nat -> quiet faults a b -> first_failure faults b k e ->
  first_failure faults a k e.
Proof.
  intros Hab Hq (Hle & Hk & Hq'). split; [lia|]. split; [done|].
  apply (quiet_trans _ a b k); done.
Qed.

Section WithHost.
Context {host : Host}.
Variable faults : nat -> option string.

(** The loop that loads the employees, with its requests. *)
Lemma load_employees_trace parts empMap w :
  exists r w',
    load_employees faults parts empMap w = (r, w') /\
    page w' = page w /\ db w' = db w /\ writes w' = writes w /\
    (sent w <= sent w')%nat /\
    match r with
    | Ok m =>
        m = foldl (fun m part => insert_employees m (select_employees_in part (db w)))
                  empMap parts /\
        quiet faults (sent w) (sent w')
    | Thrown e => exists k, sent w' = S k /\ first_failure faults (sent w) k e
    end.
Proof.
  revert empMap w. induction parts as [|part parts IH]; intros empMap w; simpl.
  - exists (Ok empMap), w. repeat split; try done. apply quiet_refl.
  - unfold mbind, M_bind, bind, query. destruct (faults (sent w)) as [e|] eqn:Hf.
    + exists (Thrown e), (sending w). simpl. repeat split; try done; try lia.
      exists (sent w). repeat split; try done. apply quiet_refl.
    + match goal with |- context [load_employees _ _ ?m ?w1] =>
        destruct (IH m w1) as (r & w' & -> & Hp & Hd & Hw & Hs & Hr) end.
      simpl in *. exists r, w'. split; [done|]. repeat split; try done; try lia.
      assert (Hq : quiet faults (sent w) (S (sent w)))
        by (apply quiet_step; [apply quiet_refl | done]).
      destruct r as [m|e].
      * destruct Hr as [-> Hq']. split; [done|]. by apply (quiet_trans _ _ (S (sent w))).
      * destruct Hr as (k & Hk & Hff). exists k. split; [done|].
        apply (first_failure_later _ _ (S (sent w))); [lia | done | done].
Qed.

(** The loop that writes the updates, with its requests: the updates
    written are the first ones of the queue. *)
Lemma for_of_apply_trace ups w :
  exists r w' done,
    for_of ups (apply_update faults) w = (r, w') /\
    page w' = page w /\
    db w' = foldl (fun store u => apply_write (write_of u) store) (db w) done /\
    writes w' = (writes w ++ (write_of <$> done))%list /\
    done `prefix_of` ups /\
    (sent w <= sent w')%nat /\
    match r with
    | Ok _ => done = ups /\ quiet faults (sent w) (sent w')
    | Thrown e => exists k, sent w' = S k /\ first_failure faults (sent w) k e
    end.
Proof.
  revert w. induction ups as [|u ups IH]; intros w; simpl.
  - exists (Ok tt), w, []. simpl. rewrite app_nil_r. repeat split; try done.
    apply quiet_refl.
  - unfold bind. unfold apply_update at 1. unfold command.
    destruct (faults (sent w)) as [e|] eqn:Hf.
    + exists (Thrown e), (sending w), []. simpl. rewrite app_nil_r.
      repeat split; try done; try lia; [apply prefix_nil|].
      exists (sent w). repeat split; try done. apply quiet_refl.
    + match goal with |- context [for_of ups _ ?w1] =>
        destruct (IH w1) as (r & w' & done & -> & Hp & Hd & Hw & Hpre & Hs & Hr) end.
      simpl in *. exists r, w', (u :: done). split; [done|].
      split; [done|]. split; [done|].
      split; [by rewrite Hw, <- app_assoc|].
      split; [by apply prefix_cons|]. split; [lia|].
      assert (Hq : quiet faults (sent w) (S (sent w)))
        by (apply quiet_step; [apply quiet_refl | done]).
      destruct r as [[]|e].
      * destruct Hr as [-> Hq']. split; [done|]. by apply (quiet_trans _ _ (S (sent w))).
      * destruct Hr as (k & Hk & Hff). exists k. split; [done|].
        apply (first_failure_later _ _ (S (sent w))); [lia | done | done].
Qed.

(** A run of the Retention batch, whichever requests fail. *)
Lemma retention_run_trace clock w :
  let now := new_Date_value (Int (today clock)) in
  let ups := updates_of now (db w) in
  exists w' done,
    runBatch faults clock w = (Ok tt, w') /\
    done `prefix_of` ups /\
    db w' = foldl (fun store u => apply_write (write_of u) store) (db w) done /\
    writes w' = (writes w ++ (write_of <$> done))%list /\
    busy (page w') = false /\
    ((status (page w') = "Successful: Retention batch finished." /\ done = ups /\
      quiet faults (sent w) (sent w'))
     \/ (exists k e, sent w' = S k /\ first_failure faults (sent w) k e /\
                     status (page w') = "Error: " +:+ e)).
Proof.
  destruct w as [db0 [busy0 status0 rows0] sent0 writes0].
  intros now ups. cbn [db page rows writes sent] in *.
  unfold runBatch. run_steps.
  destruct (faults sent0) as [e0|] eqn:Hf0; run_steps.
  { eexists _, []. split; [reflexivity|]. run_steps. rewrite app_nil_r.
    split; [apply prefix_nil|]. repeat split; try done.
    right. exists sent0, e0. split; [done|]. split; [|done].
    split; [done|]. split; [done | apply quiet_refl]. }
  assert (Hq0 : quiet faults sent0 (S sent0))
    by (apply quiet_step; [apply quiet_refl | done]).
  match goal with |- context [load_employees faults ?ps ?m ?w1] =>
    destruct (load_employees_trace ps m w1)
      as (r1 & [db1 page1 sent1 writes1] & -> & Hp1 & Hd1 & Hw1 & Hs1 & Hr1) end.
  cbn [db page sent writes] in Hp1, Hd1, Hw1, Hs1, Hr1. subst page1 db1 writes1.
  destruct r1 as [empMap|e1]; run_steps; cycle 1.
  { destruct Hr1 as (k & -> & Hff).
    eexists _, []. split; [reflexivity|]. run_steps. rewrite app_nil_r.
    split; [apply prefix_nil|]. repeat split; try done.
    right. exists k, e1. split; [done|]. split; [|done].
    apply (first_failure_later _ _ (S sent0)); [lia | done | done]. }
  destruct Hr1 as [Hmap Hq1].
  change (foldl _ ∅ (chunk (referenced_ids (select_documents db0)) 500))
    with (empMap_of db0) in Hmap. subst empMap.
  change (new_Date_value (Int (today clock))) with now.
  unfold ups, updates_of.
  destruct (process_docs now (empMap_of db0) (select_documents db0))
    as [statusCounts updates]. run_steps. cbn [snd].
  rewrite for_of_join, join_chunk by lia.
  match goal with |- context [for_of updates _ ?w1] =>
    destruct (for_of_apply_trace updates w1)
      as (r2 & [db2 page2 sent2 writes2] & done & -> & Hp2 & Hd2 & Hw2 & Hpre & Hs2 & Hr2)
  end.
  cbn [db page sent writes] in Hp2, Hd2, Hw2, Hs2, Hr2. subst page2 db2 writes2.
  destruct r2 as [[]|e2]; run_steps.
  - destruct Hr2 as [-> Hq2].
    eexists _, updates. split; [reflexivity|]. run_steps.
    repeat split; try done. left. split; [done|]. split; [done|].
    apply (quiet_trans _ _ (S sent0)); [done|].
    by apply (quiet_trans _ _ sent1).
  - destruct Hr2 as (k & -> & Hff).
    eexists _, done. split; [reflexivity|]. run_steps.
    repeat split; try done. right. exists k, e2. split; [done|]. split; [|done].
    apply (first_failure_later _ _ (S sent0)); [lia | done |].
    apply (first_failure_later _ _ sent1); [lia | done | done].
Qed.

(** Writes of [d_r_status] and [d_r_deletion] leave the employees, the
    set of documents and the other columns as they are. *)
Lemma updates_keep_rows (ups : list Update.t) store :
  employees (foldl (fun st u => apply_write (write_of u) st) store ups) = employees store /\
  forall id,
    match documents store !! id,
          documents (foldl (fun st u => apply_write (write_of u) st) store ups) !! id with
    | Some r, Some r' => same_but_retention r r'
    | None, None => True
    | _, _ => False
    end.
Proof.
  revert store. induction ups as [|u ups IH]; intros store; cbn [foldl].
  - split; [done|]. intros id. by destruct (documents store !! id).
  - destruct (IH (apply_write (write_of u) store)) as [He Hd].
    split; [by rewrite He|]. intros id. specialize (Hd id).
    change (documents (apply_write (write_of u) store) !! id)
      with (alter (Document.with_retention (Update.d_r_status u) (Update.d_r_deletion u))
                  (Update.d_id u) (documents store) !! id) in Hd.
    rewrite lookup_alter in Hd.
    destruct (decide (Update.d_id u = id)) as [<- | Hne]; [|done].
    destruct (documents store !! Update.d_id u) as [r|]; simpl in Hd; [|done].
    destruct (documents _ !! Update.d_id u) as [r'|]; [|done].
    unfold same_but_retention in *. simpl in Hd. done.
Qed.

(** What the queue of a run holds: updates of documents of the store,
    with one of the four statuses. *)
Lemma queue_entries now store u :
  u ∈ updates_of now store ->
  Update.d_id u <> "" /\ is_Some (documents store !! Update.d_id u) /\
  Update.d_r_status u ∈ ["not started"; "started"; "legal hold"; "expired"].
Proof.
  intros (row & Hrow & Hu)%elem_of_updates_of.
  apply elem_of_queued in Hu as [-> Hq]. simpl in *.
  split; [|split; [by eauto|]].
  - intros He. apply Hq, queued_nil_iff. by left.
  - destruct (resolve_cases now (empMap_of store) (doc_of_row (Update.d_id
              (update_for now (empMap_of store) (doc_of_row (Update.d_id u) row))) row))
      as [E | [E | [t E]]]; simpl in E; rewrite E; simpl; try case_match; set_solver.
Qed.


(** X15: whichever requests fail, a run of the Retention batch changes
    nothing but the columns [d_r_status] and [d_r_deletion] of documents:
    the employees, the set of documents and the other columns of every
    document are as before; and every write sets one of the four statuses
    (never "not set") on a document of the store. *)
Theorem retention_run_touches_retention_only clock w :
  let w' := (runBatch faults clock w).2 in
  employees (db w') = employees (db w) /\
  (forall id, match documents (db w) !! id, documents (db w') !! id with
              | Some r, Some r' => same_but_retention r r'
              | None, None => True
              | _, _ => False
              end) /\
  exists new,
    writes w' = (writes w ++ new)%list /\
    forall wr, wr ∈ new ->
      exists id st del, wr = SetRetention id st del /\ id <> "" /\
                        is_Some (documents (db w) !! id) /\
                        st ∈ ["not started"; "started"; "legal hold"; "expired"].
Proof.
  intros w'. subst w'.
  destruct (retention_run_trace clock w) as (w1 & done & -> & Hpre & Hdb & Hw & _).
  cbn [snd]. rewrite Hdb.
  destruct (updates_keep_rows done (db w)) as [He Hd].
  split; [done|]. split; [done|].
  exists (write_of <$> done). split; [done|].
  intros wr (u & -> & Hu)%list_elem_of_fmap.
  pose proof (elem_of_prefix _ _ _ Hu Hpre) as Hq.
  apply queue_entries in Hq as (Hid & Hrow & Hst).
  exists (Update.d_id u), (Update.d_r_status u), (Update.d_r_deletion u). done.
Qed.

(** X16: a run of the Retention batch never throws: an error of a
    request ends up in the status line.  Whichever requests fail, the
    busy flag is off at the end; the run reports success when none of its
    requests failed; otherwise it stops at the first request that fails
    and reports the error of that request. *)
Theorem retention_run_reports_first_failure clock w :
  exists w',
    runBatch faults clock w = (Ok tt, w') /\
    busy (page w') = false /\
    ((status (page w') = "Successful: Retention batch finished." /\
      quiet faults (sent w) (sent w'))
     \/ (exists k e, first_failure faults (sent w) k e /\ sent w' = S k /\
                     status (page w') = "Error: " +:+ e)).
Proof.
  destruct (retention_run_trace clock w) as (w1 & done & Hrun & _ & _ & _ & Hbusy & Hout).
  exists w1. split; [done|]. split; [done|].
  destruct Hout as [(Hs & _ & Hq) | (k & e & Hk & Hff & Hs)]; [by left | right; eauto].
Qed.

End WithHost.

Section UpToDate.
Context {host : Host}.

(** X17: after a run of the Retention batch in which no request fails,
    the store is up to date: what every document with an identifier
    holds as status and deletion date is, once normalized, what the
    resolver computes for it from the store as it is now. *)
Theorem retention_run_up_to_date clock w :
  let now := new_Date_value (Int (today clock)) in
  exists w',
    runBatch noFaults clock w = (Ok tt, w') /\
    forall id row, documents (db w') !! id = Some row -> id <> "" ->
      let new := resolve now (empMap_of (db w')) (doc_of_row id row) in
      norm (Document.d_r_status row) = new.1 /\
      norm (Document.d_r_deletion row) = default "" new.2.
Proof.
  intros now.
  destruct (retention_run_noFaults clock w) as (w' & Hrun & Hdb & _).
  exists w'. split; [done|]. intros id row Hrow Hid new. subst new.
  fold now in Hdb. change (foldl _ (db w) _) with (after_run now (db w)) in Hdb.
  rewrite Hdb in Hrow |- *. rewrite empMap_of_after_run.
  destruct (select_documents_after_run now (db w) (doc_of_row id row))
    as (row0 & _ & _ & Hres & Hsame).
  { apply elem_of_select_documents. simpl. eauto. }
  simpl in Hsame. destruct Hsame as [He | [H1 H2]]; [done|].
  rewrite (Hres now). done.
Qed.

End UpToDate.

Import Samples.

Lemma retention_run_up_to_date_witness :
  exists w',
    @runBatch utc noFaults retClock retWorld = (Ok tt, w') /\
    forall row, documents (db w') !! "B" = Some row ->
      norm (Document.d_r_status row) = "expired" /\
      norm (Document.d_r_deletion row) = "2024-01-15".
Proof.
  destruct (@retention_run_up_to_date utc retClock retWorld) as (w' & Hrun & Hup).
  exists w'. split; [exact Hrun|]. intros row Hrow.
  destruct (Hup "B" row Hrow ltac:(discriminate)) as [H1 H2].
  assert (Hw : w' = (@runBatch utc noFaults retClock retWorld).2) by (by rewrite Hrun).
  assert (Hrow' : documents (db (@runBatch utc noFaults retClock retWorld).2) !! "B"
                  = Some row) by (by rewrite <- Hw).
  vm_compute in Hrow'. injection Hrow' as <-.
  split; reflexivity.
Defined.

End RetentionEffects.

(** ** Runs of the Legal Hold batch, whichever requests fail *)

Module HoldEffects.
Import JS Store Trace BatchLH Text Runs LegalHold RetentionEffects.

Section WithHost.
Context {host : Host}.
Variable faults : nat -> option string.

(** One request that reads. *)
Lemma query_trace {A} (read : Db -> A) w :
  exists r w',
    query faults read w = (r, w') /\
    page w' = page w /\ db w' = db w /\ writes w' = writes w /\
    sent w' = S (sent w) /\
    match r with
    | Ok a => a = read (db w) /\ quiet faults (sent w) (sent w')
    | Thrown e => exists k, (k < sent w')%nat /\ first_failure faults (sent w) k e
    end.
Proof.
  unfold query. destruct (faults (sent w)) as [e|] eqn:Hf.
  - exists (Thrown e), (sending w). simpl. repeat split; try done.
    exists (sent w). split; [lia|]. split; [done|]. split; [done | apply quiet_refl].
  - exists (Ok (read (db w))), (sending w). simpl. repeat split; try done.
    apply quiet_step; [apply quiet_refl | done].
Qed.

(** Three requests sent together: the error reported is that of the
    first of them that fails. *)
Lemma query3_trace {A} (q1 q2 q3 : Db -> A) w :
  exists r w',
    query3 faults q1 q2 q3 w = (r, w') /\
    page w' = page w /\ db w' = db w /\ writes w' = writes w /\
    sent w' = S (S (S (sent w))) /\
    match r with
    | Ok a => a = (q1 (db w), q2 (db w), q3 (db w)) /\ quiet faults (sent w) (sent w')
    | Thrown e => exists k, (k < sent w')%nat /\ first_failure faults (sent w) k e
    end.
Proof.
  unfold query3. cbv zeta.
  destruct (faults (sent w)) as [e|] eqn:Hf0.
  { exists (Thrown e), (sending (sending (sending w))). simpl. repeat split; try done.
    exists (sent w). split; [lia|]. split; [done|]. split; [done | apply quiet_refl]. }
  assert (Hq1 : quiet faults (sent w) (S (sent w)))
    by (apply quiet_step; [apply quiet_refl | done]).
  destruct (faults (S (sent w))) as [e|] eqn:Hf1.
  { exists (Thrown e), (sending (sending (sending w))). simpl. repeat split; try done.
    exists (S (sent w)). split; [lia|]. split; [lia|]. split; [done | done]. }
  assert (Hq2 : quiet faults (sent w) (S (S (sent w)))) by (by apply quiet_step).
  destruct (faults (S (S (sent w)))) as [e|] eqn:Hf2.
  { exists (Thrown e), (sending (sending (sending w))). simpl. repeat split; try done.
    exists (S (S (sent w))). split; [lia|]. split; [lia|]. split; [done | done]. }
  eexists (Ok _), (sending (sending (sending w))). simpl. repeat split; try done.
  by apply quiet_step.
Qed.

(** The loop over the parts of a selection, with its requests: the parts
    written are the first ones of the list. *)
Lemma update_chunks_trace v chunks counter w :
  Forall (fun ids : list string => (0 < length ids)%nat) chunks ->
  exists r w' done,
    update_chunks faults v chunks counter w = (r, w') /\
    page w' = page w /\
    db w' = foldl (fun d ids => update_hold ids v d) (db w) done /\
    writes w' = (writes w ++ ((fun ids => SetHold ids v) <$> done))%list /\
    done `prefix_of` chunks /\
    (sent w <= sent w')%nat /\
    match r with
    | Ok c => done = chunks /\ c = counter + Z.of_nat (length (mjoin chunks)) /\
              quiet faults (sent w) (sent w')
    | Thrown e => exists k, (k < sent w')%nat /\ first_failure faults (sent w) k e
    end.
Proof.
  intros Hne. revert counter w.
  induction Hne as [|ids chunks Hids _ IH]; intros counter w; simpl.
  - exists (Ok counter), w, []. simpl. rewrite app_nil_r, Z.add_0_r.
    repeat split; try done. apply quiet_refl.
  - destruct (Nat.eqb_spec (length ids) 0) as [|_]; [lia|].
    unfold mbind, M_bind, bind, command. destruct (faults (sent w)) as [e|] eqn:Hf.
    + exists (Thrown e), (sending w), []. simpl. rewrite app_nil_r.
      repeat split; try done; try lia; [apply prefix_nil|].
      exists (sent w). split; [lia|]. split; [done|]. split; [done | apply quiet_refl].
    + match goal with |- context [update_chunks _ _ _ ?c ?w1] =>
        destruct (IH c w1) as (r & w' & done & -> & Hp & Hd & Hw & Hpre & Hs & Hr) end.
      simpl in *. exists r, w', (ids :: done). split; [done|].
      split; [done|]. split; [done|].
      split; [by rewrite Hw, <- app_assoc|].
      split; [by apply prefix_cons|]. split; [lia|].
      assert (Hq : quiet faults (sent w) (S (sent w)))
        by (apply quiet_step; [apply quiet_refl | done]).
      destruct r as [c|e].
      * destruct Hr as (-> & -> & Hq'). split; [done|].
        split; [rewrite length_app; lia|]. by apply (quiet_trans _ _ (S (sent w))).
      * destruct Hr as (k & Hk & Hff). exists k. split; [done|].
        apply (first_failure_later _ _ (S (sent w))); [lia | done | done].
Qed.

(** Unfold the computation of a run up to its requests. *)
Ltac run_pure :=
  lazy beta iota zeta delta
       [try_catch_finally mbind M_bind bind mret M_ret ret
        setBusy setStatus clearAllValues setValue setRows modify_page
        db page sent writes busy status rows fst snd].

(** A run of the Legal Hold batch, whichever requests fail. *)
Lemma hold_run_trace clock w :
  let act := activateDocIds (db w) in
  let rem := removeDocIds (db w) in
  exists w' done1 done2,
    runBatch faults clock w = (Ok tt, w') /\
    done1 `prefix_of` chunk act 500 /\
    done2 `prefix_of` chunk rem 500 /\
    db w' = foldl (fun d ids => update_hold ids false d)
              (foldl (fun d ids => update_hold ids true d) (db w) done1) done2 /\
    writes w' = (writes w ++ ((fun ids => SetHold ids true) <$> done1)
                          ++ ((fun ids => SetHold ids false) <$> done2))%list /\
    busy (page w') = false /\
    ((status (page w') = "Successful: Legal Hold batch finished." /\
      done1 = chunk act 500 /\ done2 = chunk rem 500 /\
      quiet faults (sent w) (sent w'))
     \/ (exists k e, (k < sent w')%nat /\ first_failure faults (sent w) k e /\
                     status (page w') = "Error: " +:+ e)).
Proof.
  destruct w as [db0 [busy0 status0 rows0] sent0 writes0].
  intros act rem. cbn [db page rows writes sent] in *.
  assert (Hparts : forall l : list string,
             Forall (fun ids : list string => (0 < length ids)%nat) (chunk l 500)).
  { intros l. rewrite chunk_LH. eapply Forall_impl; [apply chunk_parts; lia|].
    simpl. lia. }
  unfold runBatch. run_pure.
  (* 1) employee counts *)
  match goal with |- context [query3 faults ?q1 ?q2 ?q3 ?w0] =>
    destruct (query3_trace q1 q2 q3 w0)
      as (r & [db1 page1 sent1 writes1] & -> & Hp & Hd & Hw & Hs & Hr) end.
  cbn [db page sent writes] in Hp, Hd, Hw, Hs, Hr. subst page1 db1 writes1 sent1.
  destruct r as [[[empNo empYes] empTotal]|e]; run_pure; cycle 1.
  { destruct Hr as (k & Hk & Hff).
    eexists _, [], []. split; [reflexivity|]. run_pure. rewrite !app_nil_r.
    split; [apply prefix_nil|]. split; [apply prefix_nil|].
    split; [done|]. split; [done|]. split; [done|]. right. eauto. }
  destruct Hr as [_ Hq].
  (* 2) the four selections *)
  match goal with |- context [query faults ?f ?w0] =>
    destruct (query_trace f w0)
      as (r & [db1 page1 sent1 writes1] & -> & Hp & Hd & Hw & Hs & Hr) end.
  cbn [db page sent writes] in Hp, Hd, Hw, Hs, Hr. subst page1 db1 writes1 sent1.
  destruct r as [toActivate|e]; run_pure; cycle 1.
  { destruct Hr as (k & Hk & Hff).
    eexists _, [], []. split; [reflexivity|]. run_pure. rewrite !app_nil_r.
    split; [apply prefix_nil|]. split; [apply prefix_nil|].
    split; [done|]. split; [done|]. split; [done|]. right. exists k, e.
    split; [done|]. split; [|done].
    apply (first_failure_later _ _ (S (S (S sent0)))); [lia | done | done]. }
  destruct Hr as [-> Hq']. pose proof (quiet_trans _ _ _ _ Hq Hq') as Hq1. clear Hq Hq'.
  match goal with |- context [query faults ?f ?w0] =>
    destruct (query_trace f w0)
      as (r & [db1 page1 sent1 writes1] & -> & Hp & Hd & Hw & Hs & Hr) end.
  cbn [db page sent writes] in Hp, Hd, Hw, Hs, Hr. subst page1 db1 writes1 sent1.
  destruct r as [empYesRows|e]; run_pure; cycle 1.
  { destruct Hr as (k & Hk & Hff).
    eexists _, [], []. split; [reflexivity|]. run_pure. rewrite !app_nil_r.
    split; [apply prefix_nil|]. split; [apply prefix_nil|].
    split; [done|]. split; [done|]. split; [done|]. right. exists k, e.
    split; [done|]. split; [|done].
    eapply first_failure_later; [|exact Hq1|exact Hff]. lia. }
  destruct Hr as [-> Hq']. pose proof (quiet_trans _ _ _ _ Hq1 Hq') as Hq2. clear Hq1 Hq'.
  match goal with |- context [query faults ?f ?w0] =>
    destruct (query_trace f w0)
      as (r & [db1 page1 sent1 writes1] & -> & Hp & Hd & Hw & Hs & Hr) end.
  cbn [db page sent writes] in Hp, Hd, Hw, Hs, Hr. subst page1 db1 writes1 sent1.
  destruct r as [toRemove|e]; run_pure; cycle 1.
  { destruct Hr as (k & Hk & Hff).
    eexists _, [], []. split; [reflexivity|]. run_pure. rewrite !app_nil_r.
    split; [apply prefix_nil|]. split; [apply prefix_nil|].
    split; [done|]. split; [done|]. split; [done|]. right. exists k, e.
    split; [done|]. split; [|done].
    eapply first_failure_later; [|exact Hq2|exact Hff]. lia. }
  destruct Hr as [-> Hq']. pose proof (quiet_trans _ _ _ _ Hq2 Hq') as Hq3. clear Hq2 Hq'.
  match goal with |- context [query faults ?f ?w0] =>
    destruct (query_trace f w0)
      as (r & [db1 page1 sent1 writes1] & -> & Hp & Hd & Hw & Hs & Hr) end.
  cbn [db page sent writes] in Hp, Hd, Hw, Hs, Hr. subst page1 db1 writes1 sent1.
  destruct r as [empNoRows|e]; run_pure; cycle 1.
  { destruct Hr as (k & Hk & Hff).
    eexists _, [], []. split; [reflexivity|]. run_pure. rewrite !app_nil_r.
    split; [apply prefix_nil|]. split; [apply prefix_nil|].
    split; [done|]. split; [done|]. split; [done|]. right. exists k, e.
    split; [done|]. split; [|done].
    eapply first_failure_later; [|exact Hq3|exact Hff]. lia. }
  destruct Hr as [-> Hq']. pose proof (quiet_trans _ _ _ _ Hq3 Hq') as Hq4. clear Hq3 Hq'.
  change (docIds_with_employee_in _ (select_documents_hold false db0)) with act.
  change (docIds_with_employee_in _ (select_documents_hold true db0)) with rem.
  (* 3) the two loops *)
  match goal with |- context [update_chunks faults true ?c ?n ?w0] =>
    destruct (update_chunks_trace true c n w0 (Hparts _))
      as (r & [db1 page1 sent1 writes1] & done1 & -> & Hp & Hd & Hw & Hpre1 & Hs & Hr) end.
  cbn [db page sent writes] in Hp, Hd, Hw, Hs, Hr. subst page1 db1 writes1.
  destruct r as [activated|e]; run_pure; cycle 1.
  { destruct Hr as (k & Hk & Hff).
    eexists _, done1, []. split; [reflexivity|]. run_pure. rewrite !app_nil_r.
    split; [done|]. split; [apply prefix_nil|].
    split; [done|]. split; [done|]. split; [done|]. right. exists k, e.
    split; [done|]. split; [|done].
    eapply first_failure_later; [|exact Hq4|exact Hff]. lia. }
  destruct Hr as (-> & _ & Hq'). pose proof (quiet_trans _ _ _ _ Hq4 Hq') as Hq5.
  clear Hq4 Hq'.
  match goal with |- context [update_chunks faults false ?c ?n ?w0] =>
    destruct (update_chunks_trace false c n w0 (Hparts _))
      as (r & [db2 page2 sent2 writes2] & done2 & -> & Hp & Hd & Hw & Hpre2 & Hs2 & Hr) end.
  cbn [db page sent writes] in Hp, Hd, Hw, Hs2, Hr. subst page2 db2 writes2.
  destruct r as [removed|e]; run_pure; cycle 1.
  { destruct Hr as (k & Hk & Hff).
    eexists _, (chunk act 500), done2. split; [reflexivity|]. run_pure.
    split; [done|]. split; [done|].
    split; [done|]. split; [by rewrite <- app_assoc|]. split; [done|]. right. exists k, e.
    split; [done|]. split; [|done].
    eapply first_failure_later; [|exact Hq5|exact Hff]. lia. }
  destruct Hr as (-> & _ & Hq'). pose proof (quiet_trans _ _ _ _ Hq5 Hq') as Hq6.
  clear Hq5 Hq'.
  (* 4) document counts *)
  match goal with |- context [query3 faults ?q1 ?q2 ?q3 ?w0] =>
    destruct (query3_trace q1 q2 q3 w0)
      as (r & [db3 page3 sent3 writes3] & -> & Hp & Hd & Hw & Hs3 & Hr) end.
  cbn [db page sent writes] in Hp, Hd, Hw, Hs3, Hr. subst page3 db3 writes3 sent3.
  destruct r as [[[docNo docYes] docTotal]|e]; run_pure; cycle 1.
  { destruct Hr as (k & Hk & Hff).
    eexists _, (chunk act 500), (chunk rem 500). split; [reflexivity|]. run_pure.
    split; [done|]. split; [done|].
    split; [done|]. split; [by rewrite <- app_assoc|]. split; [done|]. right. exists k, e.
    split; [done|]. split; [|done].
    eapply first_failure_later; [|exact Hq6|exact Hff]. lia. }
  destruct Hr as [_ Hq'].
  eexists _, (chunk act 500), (chunk rem 500). split; [reflexivity|]. run_pure.
  split; [done|]. split; [done|].
  split; [done|]. split; [by rewrite <- app_assoc|]. split; [done|]. left.
  split; [done|]. split; [done|]. split; [done|].
  by apply (quiet_trans _ _ sent2).
Qed.

(** Writes of [e_lhold] leave the employees, the set of documents and
    the other columns as they are; the flag changes for the documents
    written only. *)
Lemma hold_writes_keep_rows v chunks store id :
  match documents store !! id,
        documents (foldl (fun d ids => update_hold ids v d) store chunks) !! id with
  | Some r, Some r' =>
      same_but_hold r r' /\
      (Document.e_lhold r' <> Document.e_lhold r ->
         id ∈ mjoin chunks /\ Document.e_lhold r' = Some v)
  | None, None => True
  | _, _ => False
  end.
Proof.
  rewrite lookup_update_hold_chunks.
  destruct (documents store !! id) as [r|]; [|by case_bool_decide].
  case_bool_decide; simpl; (split; [done|]); [done | congruence].
Qed.

Lemma elem_of_prefix_chunk (arr : list string) done id :
  done `prefix_of` chunk arr 500 -> id ∈ mjoin done -> id ∈ arr.
Proof.
  intros Hpre (ids & Hid & Hids)%list_elem_of_join.
  apply (elem_of_chunk arr 500 ids); [lia | | done].
  by apply (elem_of_prefix done).
Qed.

(** X18: a run of the Legal Hold batch never throws.  Whichever
    requests fail, the busy flag is off at the end; the run reports
    success when none of its requests failed; otherwise it reports the
    error of the first request that failed (of three requests sent
    together, the first in their order). *)
Theorem hold_run_reports_first_failure clock w :
  exists w',
    runBatch faults clock w = (Ok tt, w') /\
    busy (page w') = false /\
    ((status (page w') = "Successful: Legal Hold batch finished." /\
      quiet faults (sent w) (sent w'))
     \/ (exists k e, first_failure faults (sent w) k e /\ (k < sent w')%nat /\
                     status (page w') = "Error: " +:+ e)).
Proof.
  destruct (hold_run_trace clock w)
    as (w1 & done1 & done2 & Hrun & _ & _ & _ & _ & Hbusy & Hout).
  exists w1. split; [done|]. split; [done|].
  destruct Hout as [(Hs & _ & _ & Hq) | (k & e & Hk & Hff & Hs)]; [by left | right; eauto].
Qed.

(** X19: whichever requests fail, a run of the Legal Hold batch changes
    nothing but the column [e_lhold] of documents: the employees, the
    set of documents and the other columns of every document are as
    before; and a document whose flag has changed was selected for it:
    it is now true for a document of [activateDocIds], false for one of
    [removeDocIds]. *)
Theorem hold_run_touches_hold_only clock w :
  let w' := (runBatch faults clock w).2 in
  employees (db w') = employees (db w) /\
  forall id, match documents (db w) !! id, documents (db w') !! id with
             | Some r, Some r' =>
                 same_but_hold r r' /\
                 (Document.e_lhold r' <> Document.e_lhold r ->
                    (id ∈ activateDocIds (db w) /\ Document.e_lhold r' = Some true) \/
                    (id ∈ removeDocIds (db w) /\ Document.e_lhold r' = Some false))
             | None, None => True
             | _, _ => False
             end.
Proof.
  intros w'. subst w'.
  destruct (hold_run_trace clock w)
    as (w1 & done1 & done2 & -> & Hpre1 & Hpre2 & Hdb & _).
  cbn [snd]. rewrite Hdb. split; [by rewrite !employees_update_hold_chunks|].
  intros id.
  pose proof (hold_writes_keep_rows true done1 (db w) id) as H1.
  pose proof (hold_writes_keep_rows false done2
                (foldl (fun d ids => update_hold ids true d) (db w) done1) id) as H2.
  destruct (documents (db w) !! id) as [r|];
    destruct (documents (foldl _ (db w) done1) !! id) as [r1|]; try done;
    destruct (documents (foldl _ (foldl _ (db w) done1) done2) !! id) as [r2|]; try done.
  destruct H1 as [S1 C1], H2 as [S2 C2]. split.
  - unfold same_but_hold in *. destruct S1 as (?&?&?&?&?&?&?), S2 as (?&?&?&?&?&?&?).
    repeat split; congruence.
  - intros Hch.
    destruct (decide (Document.e_lhold r2 = Document.e_lhold r1)) as [E2 | N2].
    + left. destruct C1 as [Hin Hv]; [congruence|]. split; [|congruence].
      by apply (elem_of_prefix_chunk _ done1).
    + right. destruct (C2 N2) as [Hin Hv]. split; [|done].
      by apply (elem_of_prefix_chunk _ done2).
Qed.

End WithHost.

Section Synchronized.
Context {host : Host}.

(** The store after the two loops of a run without faults. *)
Lemma lookup_after_hold_run store id :
  let act := activateDocIds store in
  let rem := removeDocIds store in
  let store' := foldl (fun d ids => update_hold ids false d)
                  (foldl (fun d ids => update_hold ids true d) store (chunk act 500))
                  (chunk rem 500) in
  employees store' = employees store /\
  documents store' !! id =
    (fun doc => if bool_decide (id ∈ act) then Document.with_hold true doc
                else if bool_decide (id ∈ rem) then Document.with_hold false doc
                else doc) <$> documents store !! id.
Proof.
  intros act rem store'. subst store'.
  split; [by rewrite !employees_update_hold_chunks|].
  rewrite !lookup_update_hold_chunks, !chunk_LH, !join_chunk by lia.
  destruct (decide (id ∈ act)) as [Ha | Ha].
  - rewrite (bool_decide_eq_true_2 (id ∈ act)) by done.
    rewrite bool_decide_eq_false_2
      by (intros Hr; exact (activate_remove_disjoint store id Ha Hr)).
    done.
  - rewrite (bool_decide_eq_false_2 (id ∈ act)) by done.
    case_bool_decide; by destruct (documents store !! id).
Qed.

(** After the two loops every document with a flag has the flag of its
    employee, if the employee has one. *)
Lemma hold_flags_agree store id row emp :
  let store' := foldl (fun d ids => update_hold ids false d)
                  (foldl (fun d ids => update_hold ids true d) store
                         (chunk (activateDocIds store) 500))
                  (chunk (removeDocIds store) 500) in
  documents store' !! id = Some row ->
  referenced_employee store' row = Some emp ->
  Document.e_lhold row <> None -> Employee.e_lhold emp <> None ->
  Document.e_lhold row = Employee.e_lhold emp.
Proof.
  intros store'. destruct (lookup_after_hold_run store id) as [He Hd].
  fold store' in He, Hd. rewrite Hd. unfold referenced_employee. rewrite He.
  destruct (documents store !! id) as [row0|] eqn:Hrow0; [|done]. simpl.
  intros [= <-] Href Hdoc Hemp.
  assert (Href0 : referenced_employee store row0 = Some emp).
  { unfold referenced_employee. by repeat case_bool_decide. }
  case_bool_decide as Ha; [|case_bool_decide as Hr].
  - apply (elem_of_docIds true) in Ha as (doc & emp0 & Hdoc0 & _ & Hemp0 & Hflag).
    simpl. congruence.
  - apply (elem_of_docIds false) in Hr as (doc & emp0 & Hdoc0 & _ & Hemp0 & Hflag).
    simpl. congruence.
  - destruct (Document.e_lhold row0) as [[]|] eqn:Hb; [| |done];
      destruct (Employee.e_lhold emp) as [[]|] eqn:Hv; try done.
    + destruct Hr. apply (elem_of_docIds false). simpl. eauto 10.
    + destruct Ha. apply (elem_of_docIds true). simpl. eauto 10.
Qed.

(** X20: after a run of the Legal Hold batch in which no request fails,
    documents and employees agree: every document that has a flag and
    whose employee has one carries the flag of its employee.  (A document
    or an employee whose flag is null is not touched by the batch.) *)
Theorem hold_run_synchronizes clock w :
  exists w',
    runBatch noFaults clock w = (Ok tt, w') /\
    forall id row emp,
      documents (db w') !! id = Some row ->
      referenced_employee (db w') row = Some emp ->
      Document.e_lhold row <> None -> Employee.e_lhold emp <> None ->
      Document.e_lhold row = Employee.e_lhold emp.
Proof.
  destruct (hold_run_noFaults clock w) as (w' & Hrun & Hdb & _).
  exists w'. split; [done|]. rewrite Hdb. intros id row emp.
  apply hold_flags_agree.
Qed.

Lemma nothing_left_to_do store :
  let store' := foldl (fun d ids => update_hold ids false d)
                  (foldl (fun d ids => update_hold ids true d) store
                         (chunk (activateDocIds store) 500))
                  (chunk (removeDocIds store) 500) in
  activateDocIds store' = [] /\ removeDocIds store' = [].
Proof.
  intros store'.
  assert (Hnone : forall v id,
            id ∉ docIds_with_employee_in (list_to_set (select_employees_hold v store'))
                                         (select_documents_hold (negb v) store')).
  { intros v id (doc & emp & Hdoc & Hflag & Href & Hemp)%elem_of_docIds.
    pose proof (hold_flags_agree store id doc emp Hdoc Href) as Hagree.
    rewrite Hflag, Hemp in Hagree. destruct v; by specialize (Hagree ltac:(done) ltac:(done)). }
  split.
  - destruct (activateDocIds store') as [|id l] eqn:E; [done|].
    destruct (Hnone true id). change (id ∈ activateDocIds store'). rewrite E. by left.
  - destruct (removeDocIds store') as [|id l] eqn:E; [done|].
    destruct (Hnone false id). change (id ∈ removeDocIds store'). rewrite E. by left.
Qed.

(** X21: a second run of the Legal Hold batch, on the store that a first
    run has left, finds nothing to do: both selections are empty, it
    writes nothing and reports 0 documents activated and 0 removed (no
    request failing in either run, the employees unchanged in between). *)
Theorem hold_second_run_writes_nothing clock1 clock2 w :
  exists w1 w2,
    runBatch noFaults clock1 w = (Ok tt, w1) /\
    runBatch noFaults clock2 w1 = (Ok tt, w2) /\
    activateDocIds (db w1) = [] /\ removeDocIds (db w1) = [] /\
    writes w2 = writes w1 /\ db w2 = db w1 /\
    shows (rows (page w2)) "Legal Hold activated (Yes) for documents" "0" /\
    shows (rows (page w2)) "Legal Hold removed (No) for documents" "0".
Proof.
  destruct (hold_run_noFaults clock1 w) as (w1 & Hrun1 & Hdb1 & _).
  destruct (hold_run_noFaults clock2 w1)
    as (w2 & Hrun2 & Hdb2 & Hw2 & _ & _ & Hsa & Hsr).
  exists w1, w2. split; [done|]. split; [done|].
  destruct (nothing_left_to_do (db w)) as [Ha Hr]. rewrite <- Hdb1 in Ha, Hr.
  rewrite Ha, Hr in Hdb2, Hw2. rewrite Ha in Hsa. rewrite Hr in Hsr. simpl in *.
  rewrite app_nil_r in Hw2. done.
Qed.

End Synchronized.
End HoldEffects.

(** ** The result table of a page *)

Module PageTable.
Import JS Store Runs.

(** X22: [setValue] changes the value of the rows with the given label
    and nothing else: the labels, the spacers and the number of rows stay,
    rows with another label keep their value, and a label that no row has
    changes nothing.  Setting a label twice leaves the second value;
    setting two different labels can be done in either order.
    [clearAllValues] blanks every row that is not a spacer, and doing it
    twice is doing it once. *)
Theorem setValue_changes_one_label lbl v rs :
  same_layout (set_value lbl v rs) rs /\
  length (set_value lbl v rs) = length rs /\
  shows (set_value lbl v rs) lbl v /\
  (forall r, r ∈ rs -> label r <> lbl -> r ∈ set_value lbl v rs) /\
  ((forall r, r ∈ rs -> label r <> lbl) -> set_value lbl v rs = rs) /\
  (forall v0, set_value lbl v (set_value lbl v0 rs) = set_value lbl v rs) /\
  (forall lbl' v', lbl' <> lbl ->
     set_value lbl v (set_value lbl' v' rs) = set_value lbl' v' (set_value lbl v rs)) /\
  clear_values (clear_values rs) = clear_values rs /\
  (forall r, r ∈ clear_values rs -> isBlank r <> Some true -> value r = "").
Proof.
  split; [apply same_layout_set_value|].
  split; [unfold set_value; by rewrite length_map|].
  split; [apply shows_set_value_eq|].
  split.
  { intros r Hr Hl. unfold set_value. apply list_elem_of_fmap. exists r.
    split; [|done]. destruct (String.eqb_spec (label r) lbl); done. }
  split.
  { intros Hnone. unfold set_value. rewrite <- (list_fmap_id rs) at 2.
    apply list_fmap_ext. intros i r Hr. simpl.
    destruct (String.eqb_spec (label r) lbl) as [He|]; [|done].
    destruct (Hnone r); [by eapply list_elem_of_lookup_2 | done]. }
  split.
  { intros v0. unfold set_value. rewrite <- list_fmap_compose.
    apply list_fmap_ext. intros i r Hr. simpl.
    destruct (String.eqb (label r) lbl) eqn:E; simpl; by rewrite E. }
  split.
  { intros lbl' v' Hne. unfold set_value. rewrite <- !list_fmap_compose.
    apply list_fmap_ext. intros i r Hr. simpl.
    destruct (String.eqb (label r) lbl) eqn:E1;
      destruct (String.eqb (label r) lbl') eqn:E2; simpl; rewrite ?E1, ?E2; try done.
    apply String.eqb_eq in E1, E2. congruence. }
  split.
  { unfold clear_values. rewrite <- list_fmap_compose.
    apply list_fmap_ext. intros i r Hr. simpl.
    destruct (isBlank r) as [[]|] eqn:Hb; simpl; by rewrite ?Hb. }
  intros r (r0 & -> & Hr0)%list_elem_of_fmap Hnb.
  destruct (isBlank r0) as [[]|] eqn:Hb; simpl in *; rewrite ?Hb in Hnb; done.
Qed.

End PageTable.

(** ** What the pages report after a run without faults *)

Module ReportsOfRuns.
Import JS Store Trace BatchLH Text Runs DateFacts LegalHold HoldEffects.

Section WithHost.
Context {host : Host}.

Implicit Types (store : Db) (id : string).

(** The documents with flag [v], as a set of identifiers. *)
Lemma count_documents_hold_dom v store :
  count_documents_hold v store
  = Z.of_nat (size ((dom (filter (fun kr : string * Document.row =>
                   Document.e_lhold kr.2 = Some v) (documents store)) : gset string))).
Proof. unfold count_documents_hold. by rewrite size_dom. Qed.

Lemma elem_of_dom_hold v store id :
  id ∈ (dom (filter (fun kr : string * Document.row =>
                   Document.e_lhold kr.2 = Some v) (documents store)) : gset string)
  <-> exists doc, documents store !! id = Some doc /\ Document.e_lhold doc = Some v.
Proof.
  rewrite elem_of_dom. unfold is_Some.
  setoid_rewrite map_lookup_filter_Some. simpl. naive_solver.
Qed.

(** The documents with flag [v] after the two loops: those that had it,
    without the ones that were given the other flag, and the ones that
    were given it. *)
Lemma dom_hold_after_run v store :
  let store' := foldl (fun d ids => update_hold ids false d)
                  (foldl (fun d ids => update_hold ids true d) store
                         (chunk (activateDocIds store) 500))
                  (chunk (removeDocIds store) 500) in
  let given (b : bool) : gset string :=
    list_to_set (if b then activateDocIds store else removeDocIds store) in
  (dom (filter (fun kr : string * Document.row =>
                   Document.e_lhold kr.2 = Some v) (documents store')) : gset string)
  = ((dom (filter (fun kr : string * Document.row =>
                   Document.e_lhold kr.2 = Some v) (documents store)) : gset string) ∖ given (negb v)) ∪ given v.
Proof.
  intros store' given. apply dom_filter_L. intros id.
  destruct (lookup_after_hold_run store id) as [_ Hl]. fold store' in Hl.
  rewrite Hl, elem_of_union, elem_of_difference, elem_of_dom_hold. clear Hl.
  assert (Hact : id ∈ activateDocIds store <-> _) by apply (elem_of_docIds true).
  assert (Hrem : id ∈ removeDocIds store <-> _) by apply (elem_of_docIds false).
  simpl in Hact, Hrem.
  assert (Hgiven : forall b, id ∈ given b
            <-> id ∈ (if b then activateDocIds store else removeDocIds store))
    by (intros b; unfold given; apply elem_of_list_to_set).
  rewrite !Hgiven.
  destruct (documents store !! id) as [doc|] eqn:Hdoc; simpl; cycle 1.
  { split; [|by intros (? & [=] & _)].
    intros [[(? & [=] & _) _] | Hin]. destruct v.
    - apply Hact in Hin as (? & ? & [=] & _).
    - apply Hrem in Hin as (? & ? & [=] & _). }
  split.
  - intros [[(doc0 & [= <-] & Hflag) Hnot] | Hin].
    + eexists. split; [done|].
      destruct v; simpl in *.
      * rewrite bool_decide_eq_false_2
          by (intros (? & ? & [= <-] & Hf & _)%Hact; congruence).
        by rewrite bool_decide_eq_false_2.
      * rewrite bool_decide_eq_false_2 by done.
        destruct (bool_decide (id ∈ removeDocIds store)); [reflexivity | exact Hflag].
    + eexists. split; [done|]. destruct v; simpl in *.
      * by rewrite bool_decide_eq_true_2.
      * rewrite bool_decide_eq_false_2
          by (intros Ha; exact (activate_remove_disjoint store id Ha Hin)).
        by rewrite bool_decide_eq_true_2.
  - intros (x & [= <-] & Hflag).
    case_bool_decide as Ha; [|case_bool_decide as Hr]; simpl in Hflag.
    + destruct v; [by right | discriminate].
    + destruct v; [discriminate | by right].
    + left. split; [by eauto|]. by destruct v.
Qed.

Lemma counts_after_hold_run store :
  let act := activateDocIds store in
  let rem := removeDocIds store in
  let store' := foldl (fun d ids => update_hold ids false d)
                  (foldl (fun d ids => update_hold ids true d) store (chunk act 500))
                  (chunk rem 500) in
  count_documents_hold true store'
    = count_documents_hold true store + Z.of_nat (length act) - Z.of_nat (length rem) /\
  count_documents_hold false store'
    = count_documents_hold false store - Z.of_nat (length act) + Z.of_nat (length rem) /\
  count_documents store' = count_documents store.
Proof.
  intros act rem store'. subst act rem store'.
  assert (Hact : forall id, id ∈ activateDocIds store <-> _)
    by (intros id; apply (elem_of_docIds true)).
  assert (Hrem : forall id, id ∈ removeDocIds store <-> _)
    by (intros id; apply (elem_of_docIds false)).
  simpl in Hact, Hrem.
  assert (Hsa : size (list_to_set (activateDocIds store) : gset string)
                = length (activateDocIds store))
    by (apply size_list_to_set, NoDup_docIds).
  assert (Hsr : size (list_to_set (removeDocIds store) : gset string)
                = length (removeDocIds store))
    by (apply size_list_to_set, NoDup_docIds).
  assert (Hsize : forall v,
    let had : gset string :=
      dom (filter (fun kr : string * Document.row =>
                     Document.e_lhold kr.2 = Some v) (documents store)) in
    let given (b : bool) : gset string :=
      list_to_set (if b then activateDocIds store else removeDocIds store) in
    size ((had ∖ given (negb v)) ∪ given v)
    = (size had - size (given (negb v)) + size (given v))%nat /\
    (size (given (negb v)) <= size had)%nat).
  { intros v had given.
    assert (Hsub : given (negb v) ⊆ had).
    { intros id Hin. apply elem_of_list_to_set in Hin. apply elem_of_dom_hold.
      destruct v; simpl in Hin.
      - apply Hrem in Hin as (doc & _ & Hdoc & Hf & _). eauto.
      - apply Hact in Hin as (doc & _ & Hdoc & Hf & _). eauto. }
    assert (Hdisj : (had ∖ given (negb v)) ## given v).
    { intros id [Hin _]%elem_of_difference Hg.
      apply elem_of_dom_hold in Hin as (doc & Hdoc & Hf).
      apply elem_of_list_to_set in Hg. destruct v; simpl in Hg.
      - apply Hact in Hg as (doc' & _ & Hdoc' & Hf' & _). congruence.
      - apply Hrem in Hg as (doc' & _ & Hdoc' & Hf' & _). congruence. }
    split; [|by apply subseteq_size].
    by rewrite size_union, size_difference. }
  split; [|split].
  - rewrite !count_documents_hold_dom, (dom_hold_after_run true store).
    destruct (Hsize true) as [-> Hle]. simpl in *. lia.
  - rewrite !count_documents_hold_dom, (dom_hold_after_run false store).
    destruct (Hsize false) as [-> Hle]. simpl in *. lia.
  - unfold count_documents. f_equal. rewrite <- !(size_dom (D := gset string)).
    f_equal. apply set_eq. intros id. rewrite !elem_of_dom.
    destruct (lookup_after_hold_run store id) as [_ ->].
    by rewrite fmap_is_Some.
Qed.

(** X23: the report of a run of the Legal Hold batch in which no request
    fails.  The page shows the start and end times, the number of
    employees with and without hold and in total as the store has them,
    the sizes of the two selections as the numbers of documents activated
    and removed, the numbers of documents with and without hold after the
    updates (the numbers before, plus and minus the documents changed)
    and in total, and the duration in milliseconds. *)
Theorem hold_run_report clock w :
  Z.abs (startedAt clock) <= maxTime -> Z.abs (endedAt clock) <= maxTime ->
  let act := Z.of_nat (length (activateDocIds (db w))) in
  let rem := Z.of_nat (length (removeDocIds (db w))) in
  exists w',
    runBatch noFaults clock w = (Ok tt, w') /\
    status (page w') = "Successful: Legal Hold batch finished." /\
    shows (rows (page w')) "Start time" (fmtTimeWithMs (Some (startedAt clock))) /\
    shows (rows (page w')) "Employees, Legal Hold = no"
          (String_of_Z (count_employees_hold false (db w))) /\
    shows (rows (page w')) "Employees, Legal Hold = yes"
          (String_of_Z (count_employees_hold true (db w))) /\
    shows (rows (page w')) "Employees, Total" (String_of_Z (count_employees (db w))) /\
    shows (rows (page w')) "Legal Hold activated (Yes) for documents" (String_of_Z act) /\
    shows (rows (page w')) "Legal Hold removed (No) for documents" (String_of_Z rem) /\
    shows (rows (page w')) "Documents, Legal Hold = no"
          (String_of_Z (count_documents_hold false (db w) - act + rem)) /\
    shows (rows (page w')) "Documents, Legal Hold = yes"
          (String_of_Z (count_documents_hold true (db w) + act - rem)) /\
    shows (rows (page w')) "Documents, Total" (String_of_Z (count_documents (db w))) /\
    shows (rows (page w')) "End time" (fmtTimeWithMs (Some (endedAt clock))) /\
    shows (rows (page w')) "Process duration"
          (String_of_Z (endedAt clock - startedAt clock) +:+ " ms").
Proof.
  intros Hs He act rem.
  destruct (counts_after_hold_run (db w)) as (Cyes & Cno & Ctotal).
  destruct w as [db0 [busy0 status0 rows0] sent0 writes0].
  cbn [db page rows writes] in *.
  unfold runBatch. run_steps.
  set (A := docIds_with_employee_in _ (select_documents_hold false db0)).
  set (R := docIds_with_employee_in _ (select_documents_hold true db0)).
  assert (Hparts : forall l : list string,
             Forall (fun ids : list string => (0 < length ids)%nat) (chunk l 500)).
  { intros l. rewrite chunk_LH. eapply Forall_impl; [apply chunk_parts; lia|].
    simpl. lia. }
  rewrite (update_chunks_ok true (chunk A 500)) by done.
  run_steps.
  rewrite (update_chunks_ok false (chunk R 500)) by done.
  run_steps.
  rewrite !chunk_LH, !join_chunk, <- !chunk_LH by lia.
  change A with (activateDocIds db0) in *. change R with (removeDocIds db0) in *.
  rewrite Cyes, Cno, Ctotal. fold act rem.
  cbn [new_Date_value]. rewrite !TimeClip_Some by done. cbn [getTime sub String_of_number].
  eexists. split; [reflexivity|]. run_steps.
  split; [done|]. rewrite !Z.add_0_l.
  repeat split; shows_tac.
Qed.

End WithHost.

Lemma hold_run_report_witness :
  exists w',
    @runBatch Samples.utc noFaults Samples.lhClock Samples.lhWorld = (Ok tt, w') /\
    shows (rows (page w')) "Documents, Legal Hold = yes" "1" /\
    shows (rows (page w')) "Process duration" "500 ms".
Proof.
  destruct (@hold_run_report Samples.utc Samples.lhClock Samples.lhWorld)
    as (w' & Hrun & _ & _ & _ & _ & _ & _ & _ & _ & Hyes & _ & _ & Hdur).
  - vm_compute. discriminate.
  - vm_compute. discriminate.
  - exists w'. split; [exact Hrun|]. split; [exact Hyes | exact Hdur].
Defined.

End ReportsOfRuns.

(** ** The report of the Retention batch *)

Module RetentionReport.
Import JS Store BatchRet Text Runs Calendar DateFacts Resolver RetentionRun Documents.

Section WithHost.
Context {host : Host}.

(** X24: the report of a run of the Retention batch in which no request
    fails.  The page shows the start and end times, the number of
    documents of the store, the number of updates written, for each
    status the number of documents with an identifier that the resolver
    gives this status, and the duration in milliseconds. *)
Theorem retention_run_report clock w :
  Z.abs (startedAt clock) <= maxTime -> Z.abs (endedAt clock) <= maxTime ->
  let now := new_Date_value (Int (today clock)) in
  exists w' new,
    runBatch noFaults clock w = (Ok tt, w') /\
    writes w' = (writes w ++ new)%list /\
    status (page w') = "Successful: Retention batch finished." /\
    shows (rows (page w')) "Start time" (fmtTimeWithMs (Some (startedAt clock))) /\
    shows (rows (page w')) "Total number of documents"
          (String_of_Z (Z.of_nat (size (documents (db w))))) /\
    shows (rows (page w')) "Total number of updated retention status"
          (String_of_Z (Z.of_nat (length new))) /\
    (forall st, st ∈ ["not set"; "not started"; "started"; "legal hold"; "expired"] ->
       shows (rows (page w')) (countLabel st)
             (String_of_Z (Z.of_nat (length
                (filter (fun d => RetDoc.d_id d <> "" /\
                                  (resolve now (empMap_of (db w)) d).1 = st)
                        (select_documents (db w))))))) /\
    shows (rows (page w')) "End time" (fmtTimeWithMs (Some (endedAt clock))) /\
    shows (rows (page w')) "Process duration"
          (String_of_Z (endedAt clock - startedAt clock) +:+ " ms").
Proof.
  intros Hs He now.
  destruct w as [db0 [busy0 status0 rows0] sent0 writes0].
  cbn [db page rows writes] in *.
  replace (size (documents db0)) with (length (select_documents db0))
    by (unfold select_documents; by rewrite length_fmap, length_map_to_list).
  unfold runBatch. run_steps.
  rewrite load_employees_ok. run_steps.
  change (foldl _ ∅ (chunk (referenced_ids (select_documents db0)) 500))
    with (empMap_of db0).
  change (new_Date_value (Int (today clock))) with now.
  pose proof (count_docs now (empMap_of db0) (select_documents db0)) as Hcount.
  destruct (process_docs now (empMap_of db0) (select_documents db0))
    as [statusCounts updates]. run_steps. cbn [fst] in Hcount.
  rewrite for_of_join, join_chunk, for_of_apply_ok by lia. run_steps.
  cbn [new_Date_value]. rewrite !TimeClip_Some by done. cbn [getTime sub String_of_number].
  eexists _, (write_of <$> updates). split; [reflexivity|]. run_steps.
  split; [done|]. split; [done|]. rewrite length_fmap.
  split; [shows_tac|]. split; [shows_tac|]. split; [shows_tac|].
  split; [|split; shows_tac].
  intros st Hst. rewrite <- Hcount.
  repeat (apply elem_of_cons in Hst as [-> | Hst]); [..|by apply elem_of_nil in Hst];
    shows_tac.
Qed.

End WithHost.

Lemma retention_run_report_witness :
  exists w' new,
    @runBatch Samples.utc noFaults Samples.retClock Samples.retWorld = (Ok tt, w') /\
    writes w' = (writes Samples.retWorld ++ new)%list /\
    shows (rows (page w')) "Total number of documents" "4" /\
    shows (rows (page w')) "Process duration" "500 ms".
Proof.
  destruct (@retention_run_report Samples.utc Samples.retClock Samples.retWorld)
    as (w' & new & Hrun & Hw & _ & _ & Hdocs & _ & _ & _ & Hdur).
  - vm_compute. discriminate.
  - vm_compute. discriminate.
  - exists w', new. split; [exact Hrun|]. split; [exact Hw|].
    split; [exact Hdocs | exact Hdur].
Defined.

End RetentionReport.

(** ** The requests of a run without faults *)

Module RequestCounts.
Import JS Store Text Runs Chunks LegalHold RetentionRun.

Lemma NoDup_dedupe seen xs : NoDup (BatchRet.dedupe seen xs).
Proof.
  revert seen. induction xs as [|x xs IH]; intros seen; simpl; [constructor|].
  case_bool_decide; [apply IH|]. constructor; [|apply IH].
  intros Hin%elem_of_dedupe. set_solver.
Qed.

Lemma length_chunk {T} (arr : list T) size :
  (0 < size)%nat ->
  length (BatchRet.chunk arr size) = ((length arr + size - 1) / size)%nat.
Proof.
  intros Hsize. unfold BatchRet.chunk. rewrite length_chunk_loop by lia.
  by rewrite Nat.sub_0_r.
Qed.

Section WithHost.
Context {host : Host}.

(** X25: the number of requests of a run in which none fails.  The
    Retention batch asks once for the documents, once for every 500
    employees that documents refer to (each employee is asked for once,
    whatever the number of its documents), and once for every update.
    The Legal Hold batch sends three count requests, four selections, one
    update for every 500 documents to put on hold and for every 500 to
    release, and three count requests again. *)
Theorem requests_of_runs clockR clockL w :
  let now := new_Date_value (Int (BatchRet.today clockR)) in
  let eIds := BatchRet.referenced_ids (BatchRet.select_documents (db w)) in
  let ups := BatchRet.updates_of now (db w) in
  let act := BatchLH.activateDocIds (db w) in
  let rem := BatchLH.removeDocIds (db w) in
  NoDup eIds /\
  (forall id, id ∈ eIds <->
     id <> "" /\ exists k row, documents (db w) !! k = Some row /\
                               Document.e_id row = Some id) /\
  sent (BatchRet.runBatch noFaults clockR w).2
  = (sent w + 1 + (length eIds + 499) / 500 + length ups)%nat /\
  sent (BatchLH.runBatch noFaults clockL w).2
  = (sent w + 10 + (length act + 499) / 500 + (length rem + 499) / 500)%nat.
Proof.
  intros now eIds ups act rem.
  split; [apply NoDup_dedupe|]. split.
  { intros id. unfold eIds. rewrite elem_of_referenced_ids. split.
    - intros (d & (row & Hrow & ->)%elem_of_select_documents & He & Hne).
      simpl in *. eauto.
    - intros (Hne & k & row & Hrow & He).
      exists (BatchRet.doc_of_row k row). split; [|done].
      apply elem_of_select_documents. simpl. eauto. }
  destruct w as [db0 [busy0 status0 rows0] sent0 writes0].
  cbn [db page rows writes sent] in *. split.
  - unfold BatchRet.runBatch. run_steps.
    rewrite load_employees_ok. run_steps.
    change (foldl _ ∅ (BatchRet.chunk (BatchRet.referenced_ids
                                         (BatchRet.select_documents db0)) 500))
      with (BatchRet.empMap_of db0).
    change (new_Date_value (Int (BatchRet.today clockR))) with now.
    unfold ups, BatchRet.updates_of.
    destruct (BatchRet.process_docs now (BatchRet.empMap_of db0)
                (BatchRet.select_documents db0)) as [statusCounts updates].
    run_steps. cbn [snd].
    rewrite for_of_join, join_chunk, for_of_apply_ok by lia. run_steps.
    rewrite length_chunk by lia. fold eIds.
    replace (length eIds + 500 - 1)%nat with (length eIds + 499)%nat by lia. lia.
  - unfold BatchLH.runBatch. run_steps.
    assert (Hparts : forall l : list string,
               Forall (fun ids : list string => (0 < length ids)%nat) (BatchLH.chunk l 500)).
    { intros l. rewrite chunk_LH. eapply Forall_impl; [apply chunk_parts; lia|].
      simpl. lia. }
    change (BatchLH.docIds_with_employee_in _ (BatchLH.select_documents_hold false db0))
      with act.
    change (BatchLH.docIds_with_employee_in _ (BatchLH.select_documents_hold true db0))
      with rem.
    rewrite (update_chunks_ok true (BatchLH.chunk act 500)) by done.
    run_steps.
    rewrite (update_chunks_ok false (BatchLH.chunk rem 500)) by done.
    run_steps. rewrite !chunk_LH, !length_chunk by lia.
    replace (length act + 500 - 1)%nat with (length act + 499)%nat by lia.
    replace (length rem + 500 - 1)%nat with (length rem + 499)%nat by lia. lia.
Qed.

End WithHost.
End RequestCounts.

(** ** The Config page *)

Module ConfigFacts.
Import JS ConfigPage.

(** Unfold the computation of a handler up to its tests. *)
Ltac handler_steps :=
  lazy beta iota zeta delta
       [addRow saveEdit deleteEdit openEdit try_catch_finally
        mbind M_bind bind mret M_ret ret throw get_page refresh
        setRows setLoading setStatus setStatusKind setNewName setNewDesc setNewValue
        setEditOpen setEditRow setEditSaving modify_page command loadConfig validate
        table page sent refreshes
        rows loading status statusKind newName newDesc newValue
        editOpen editRow editSaving].


(** Read the fields of a state that is written out. *)
Ltac fields :=
  lazy beta iota delta
       [table page sent refreshes rows loading status statusKind newName newDesc
        newValue editOpen editRow editSaving].


Section WithFaults.
Variable faults : nat -> option string.


Lemma elem_of_select_config (t : gmap string ConfigRow) r :
  r ∈ select_config t <-> exists k, t !! k = Some r.
Proof.
  unfold select_config. rewrite list_elem_of_fmap. split.
  - intros ([k r'] & -> & Hin). apply elem_of_map_to_list in Hin. eauto.
  - intros (k & Hk). exists (k, r). split; [done|]. by apply elem_of_map_to_list.
Qed.



(** X29: [deleteEdit] deletes the row whose name is the name in the
    dialog, as typed there, and reports the deletion whether or not the
    table had such a row; the other rows are as before.  Without a row in
    the dialog, with an empty name, or when the user does not confirm, it
    does nothing. *)
Theorem deleteEdit_deletes_named_row w confirmed :
  (editRow (page w) = None \/ (exists r, editRow (page w) = Some r /\ c_name r = "")
   \/ confirmed = false ->
   deleteEdit faults confirmed w = (Store.Ok tt, w)) /\
  forall r,
    editRow (page w) = Some r -> c_name r <> "" -> confirmed = true ->
    faults (sent w) = None -> faults (S (sent w)) = None ->
    exists w',
      deleteEdit faults confirmed w = (Store.Ok tt, w') /\
      table w' = delete (c_name r) (table w) /\
      table w' !! c_name r = None /\
      (forall k, k <> c_name r -> table w' !! k = table w !! k) /\
      (forall r', r' ∈ rows (page w') <-> exists k, table w' !! k = Some r') /\
      editOpen (page w') = false /\ editRow (page w') = None /\
      editSaving (page w') = false /\
      status (page w') = "Successful: Variable deleted." /\
      statusKind (page w') = success.
Proof.
  destruct w as [t [rs ld st sk nn nd nv eo er es] k rf].
  fields. split.
  { intros [-> | [(r & -> & Hr) | ->]].
    - reflexivity.
    - handler_steps. by rewrite Hr.
    - handler_steps. destruct er as [r|]; [|done].
      by destruct (String.eqb (c_name r) ""). }
  intros r -> Hn -> Hf0 Hf1. apply String.eqb_neq in Hn.
  handler_steps. rewrite Hn. cbn [negb]. handler_steps.
  rewrite Hf0. handler_steps. rewrite Hf1. handler_steps.
  eexists. split; [reflexivity|]. handler_steps.
  split; [done|]. split; [apply lookup_delete_eq|].
  split; [by intros k' Hk; apply lookup_delete_ne|].
  split; [apply elem_of_select_config|]. done.
Qed.


End WithFaults.



End ConfigFacts.
